(** * CloudPredictor: job bookkeeping, endpoint lifecycle and persistence

    A shallow embedding of [autogluon.cloud.predictor.cloud_predictor]
    (class [CloudPredictor] and its two subclasses).  Methods become
    computations in a state-and-exception monad over the predictor object
    ([self]) and the outside world (cloud service, local file system, log).

    - An exception leaves the object and the world as they are at the
      [raise]: what a method assigned before it failed stays assigned.
    - Every call into a collaborator is recorded in the world's trace, in
      order, unless the world makes it fail; answers of collaborators and
      helpers of the package that are not in the sources are fields of the
      environment [Env], so every statement holds for all of them.
    - Job handles, the job registry, the endpoint handle and the accept-type
      allow-list are not in the sources either; they follow the
      specification and are marked as such. *)

From Stdlib Require Import String Ascii List Bool NArith Arith.
Import ListNotations.
Open Scope string_scope.

(** ** Python values *)

(** Exceptions that can leave a method.  [CollaboratorError] stands for any
    exception propagated from code outside [CloudPredictor] (the SageMaker
    SDK, boto3, the file system, helper modules); the other constructors are
    raised by statements of [cloud_predictor.py] itself. *)
Inductive PyExc : Type :=
| AssertionError (msg : string)
| ValueError (msg : string)
| KeyError (key : string)
| AttributeError (msg : string)
| TypeError (msg : string)
| NotImplementedError
| CollaboratorError (what : string).

(** [if x:] on a [str]-or-[None] value. *)
Definition truthy (o : option string) : bool :=
  match o with
  | Some (String _ _) => true
  | _ => false
  end.

(** A [dict] with string keys, kept in insertion order, with
    [d.get(key, None)], [d.pop(key, None)] and [d[key] = value]. *)
Definition PyDict (V : Type) : Type := list (string * V).

Fixpoint dict_get {V} (k : string) (d : PyDict V) : option V :=
  match d with
  | [] => None
  | (k', v) :: d' => if String.eqb k k' then Some v else dict_get k d'
  end.

Fixpoint dict_remove {V} (k : string) (d : PyDict V) : PyDict V :=
  match d with
  | [] => []
  | (k', v) :: d' => if String.eqb k k' then dict_remove k d' else (k', v) :: dict_remove k d'
  end.

Definition dict_pop {V} (k : string) (d : PyDict V) : option V * PyDict V :=
  (dict_get k d, dict_remove k d).

(** [d[k] = v]: an existing key keeps its position. *)
Fixpoint dict_set {V} (k : string) (v : V) (d : PyDict V) : PyDict V :=
  match d with
  | [] => [(k, v)]
  | (k', v') :: d' => if String.eqb k k' then (k, v) :: d' else (k', v') :: dict_set k v d'
  end.

(** A [pandas.DataFrame]; [df_memory_usage] is
    [memory_usage(index=False, deep=True).sum()], in bytes. *)
Record DataFrame : Type := { df_id : nat; df_memory_usage : N }.

(** What callers pass as data: a frame, a string (local path or S3 url),
    [None], or some other object, which may or may not offer [memory_usage] (a
    [pandas.Series] does). *)
Inductive PyData : Type :=
| Frame (df : DataFrame)
| Str (s : string)
| NoneVal
| Other (memory_usage : option N).

(** ** Jobs, registry, endpoint *)

Inductive JobStatus : Type :=
| NotCreated | InProgress | Completed | Failed | Stopping | Stopped.

Definition status_str (st : JobStatus) : string :=
  match st with
  | NotCreated => "NotCreated"
  | InProgress => "InProgress"
  | Completed => "Completed"
  | Failed => "Failed"
  | Stopping => "Stopping"
  | Stopped => "Stopped"
  end.

Definition is_completed (st : JobStatus) : bool :=
  match st with Completed => true | _ => false end.

(** [sagemaker.session.Session]: each construction yields a new object. *)
Record Session : Type := { session_id : nat; boto_region_name : string }.

(** Modelled from the spec: the job handles [SageMakerFitJob] and
    [SageMakerBatchTransformationJob] of [autogluon.cloud.job] are not part of
    the sources.  Per the data model a handle holds the job name (unset until
    submission) and a reference to the owning session; status and output
    location live in the external service and are read by polling. *)
Record SageMakerJob : Type := {
  job_session : option Session;
  job_name : option string
}.

Definition new_job (session : option Session) : SageMakerJob :=
  {| job_session := session; job_name := None |}.

(** Modelled from the spec: [MostRecentInsertedOrderedDict] of
    [autogluon.cloud.utils.misc] is not part of the sources.  It is the Job
    Registry: an insertion-ordered mapping from job name to handle with a
    "last inserted" lookup.  It is used here as a Python mapping
    ([d[k] = v], [d.get(k, None)], [d.keys()], [len(d)]), so iterating it
    yields its keys, oldest first. *)
Definition MostRecentInsertedOrderedDict : Type := PyDict SageMakerJob.

(** Modelled from the spec: [put(name, handle)]; the inserted name becomes
    the most recent one.  (Job names are unique in the service, so a name is
    never inserted twice.) *)
Definition registry_put (name : string) (job : SageMakerJob)
    (d : MostRecentInsertedOrderedDict) : MostRecentInsertedOrderedDict :=
  (dict_remove name d ++ [(name, job)])%list.

(** Modelled from the spec: [get(name) -> handle|None]; the name may be
    [None], which is no key. *)
Definition registry_get (name : option string)
    (d : MostRecentInsertedOrderedDict) : option SageMakerJob :=
  match name with
  | None => None
  | Some n => dict_get n d
  end.

(** Modelled from the spec: [last() -> name|None], the most recently
    inserted name. *)
Definition registry_last (d : MostRecentInsertedOrderedDict) : option string :=
  match rev d with
  | [] => None
  | (n, _) :: _ => Some n
  end.

(** Modelled from the spec: iteration in insertion order; as for any Python
    mapping it runs over the keys. *)
Definition registry_keys (d : MostRecentInsertedOrderedDict) : list string :=
  map fst d.

(** Modelled from the spec: [AutoGluonRealtimePredictor] of
    [autogluon.cloud.utils.ag_sagemaker], the EndpointHandle, is not part of
    the sources; it holds the endpoint's name and the session it talks
    through.  Making one from a name is a call into the SDK, recorded as
    [EvEndpointHandle]. *)
Record AutoGluonRealtimePredictor : Type := {
  endpoint_name_of : string;
  endpoint_session : option Session
}.

(** ** The predictor object *)

Inductive PredictorClass : Type :=
| CloudPredictorCls | TabularCloudPredictorCls | TextCloudPredictorCls.

Definition predictor_file_name (cls : PredictorClass) : string :=
  match cls with
  | CloudPredictorCls => "CloudPredictor.pkl"
  | TabularCloudPredictorCls => "TabularCloudPredictor.pkl"
  | TextCloudPredictorCls => "TextCloudPredictor.pkl"
  end.

(** Instance attributes.  [_endpoint_saved] is only created by [save];
    [None] means the attribute does not exist ([hasattr] is false),
    [Some None] that it holds [None]. *)
Record CloudPredictor : Type := {
  cls : PredictorClass;
  verbosity : nat;
  role_arn : string;
  sagemaker_session : option Session;
  local_output_path : string;
  cloud_output_path : string;
  endpoint : option AutoGluonRealtimePredictor;
  _region : option string;
  _fit_job : SageMakerJob;
  _batch_transform_jobs : MostRecentInsertedOrderedDict;
  predictor_type : option string;
  _train_script_path : option string;
  _serve_script_path : option string;
  _endpoint_saved : option (option string)
}.

Definition set_sagemaker_session (v : option Session) (s : CloudPredictor) :=
  {| cls := cls s; verbosity := verbosity s; role_arn := role_arn s;
     sagemaker_session := v;
     local_output_path := local_output_path s;
     cloud_output_path := cloud_output_path s; endpoint := endpoint s;
     _region := _region s; _fit_job := _fit_job s;
     _batch_transform_jobs := _batch_transform_jobs s;
     predictor_type := predictor_type s;
     _train_script_path := _train_script_path s;
     _serve_script_path := _serve_script_path s;
     _endpoint_saved := _endpoint_saved s |}.

Definition set_endpoint (v : option AutoGluonRealtimePredictor) (s : CloudPredictor) :=
  {| cls := cls s; verbosity := verbosity s; role_arn := role_arn s;
     sagemaker_session := sagemaker_session s;
     local_output_path := local_output_path s;
     cloud_output_path := cloud_output_path s; endpoint := v;
     _region := _region s; _fit_job := _fit_job s;
     _batch_transform_jobs := _batch_transform_jobs s;
     predictor_type := predictor_type s;
     _train_script_path := _train_script_path s;
     _serve_script_path := _serve_script_path s;
     _endpoint_saved := _endpoint_saved s |}.

Definition set_region (v : option string) (s : CloudPredictor) :=
  {| cls := cls s; verbosity := verbosity s; role_arn := role_arn s;
     sagemaker_session := sagemaker_session s;
     local_output_path := local_output_path s;
     cloud_output_path := cloud_output_path s; endpoint := endpoint s;
     _region := v; _fit_job := _fit_job s;
     _batch_transform_jobs := _batch_transform_jobs s;
     predictor_type := predictor_type s;
     _train_script_path := _train_script_path s;
     _serve_script_path := _serve_script_path s;
     _endpoint_saved := _endpoint_saved s |}.

Definition set_fit_job (v : SageMakerJob) (s : CloudPredictor) :=
  {| cls := cls s; verbosity := verbosity s; role_arn := role_arn s;
     sagemaker_session := sagemaker_session s;
     local_output_path := local_output_path s;
     cloud_output_path := cloud_output_path s; endpoint := endpoint s;
     _region := _region s; _fit_job := v;
     _batch_transform_jobs := _batch_transform_jobs s;
     predictor_type := predictor_type s;
     _train_script_path := _train_script_path s;
     _serve_script_path := _serve_script_path s;
     _endpoint_saved := _endpoint_saved s |}.

Definition set_batch_transform_jobs (v : MostRecentInsertedOrderedDict) (s : CloudPredictor) :=
  {| cls := cls s; verbosity := verbosity s; role_arn := role_arn s;
     sagemaker_session := sagemaker_session s;
     local_output_path := local_output_path s;
     cloud_output_path := cloud_output_path s; endpoint := endpoint s;
     _region := _region s; _fit_job := _fit_job s;
     _batch_transform_jobs := v;
     predictor_type := predictor_type s;
     _train_script_path := _train_script_path s;
     _serve_script_path := _serve_script_path s;
     _endpoint_saved := _endpoint_saved s |}.

Definition set_endpoint_saved (v : option (option string)) (s : CloudPredictor) :=
  {| cls := cls s; verbosity := verbosity s; role_arn := role_arn s;
     sagemaker_session := sagemaker_session s;
     local_output_path := local_output_path s;
     cloud_output_path := cloud_output_path s; endpoint := endpoint s;
     _region := _region s; _fit_job := _fit_job s;
     _batch_transform_jobs := _batch_transform_jobs s;
     predictor_type := predictor_type s;
     _train_script_path := _train_script_path s;
     _serve_script_path := _serve_script_path s;
     _endpoint_saved := v |}.

(** ** The outside world *)

(** The [bucket] argument handed to [upload_data]: a bucket name, or, in
    [_upload_predictor], the whole pair returned by
    [s3_path_to_bucket_prefix]. *)
Inductive BucketArg : Type :=
| BucketName (bucket : string)
| BucketAndPrefix (bucket prefix : string).

(** The document written by [_construct_config]. *)
Record Config : Type := {
  cfg_predictor_type : string;
  cfg_predictor_init_args : PyDict PyData;
  cfg_predictor_fit_args : PyDict PyData;
  cfg_leaderboard : bool
}.

(** Keyword arguments of [SageMakerFitJob.run]. *)
Record TrainingRequest : Type := {
  tr_role : string;
  tr_entry_point : string;
  tr_region : option string;
  tr_instance_type : string;
  tr_instance_count : nat;
  tr_volume_size : nat;
  tr_framework_version : string;
  tr_base_job_name : string;
  tr_output_path : string;
  tr_inputs : PyDict PyData;
  tr_wait : bool;
  tr_job_name : string;
  tr_estimator_kwargs : PyDict string;
  tr_kwargs : PyDict string
}.

(** Arguments of [AutoGluonSagemakerInferenceModel(...)] followed by
    [model.deploy(...)]. *)
Record DeployRequest : Type := {
  dp_model_data : string;
  dp_role : string;
  dp_region : option string;
  dp_framework_version : string;
  dp_instance_type : string;
  dp_entry_point : string;
  dp_predictor_cls : string;
  dp_model_kwargs : PyDict string;
  dp_endpoint_name : string;
  dp_initial_instance_count : nat;
  dp_wait : bool;
  dp_kwargs : PyDict string
}.

(** Keyword arguments of [SageMakerBatchTransformationJob.run]. *)
Record TransformRequest : Type := {
  bt_model_data : string;
  bt_role : string;
  bt_region : option string;
  bt_framework_version : string;
  bt_instance_count : nat;
  bt_instance_type : string;
  bt_entry_point : string;
  bt_predictor_cls : string;
  bt_output_path : string;
  bt_test_input : PyData;
  bt_job_name : string;
  bt_split_type : string;
  bt_content_type : string;
  bt_wait : bool;
  bt_transformer_kwargs : PyDict string;
  bt_model_kwargs : PyDict string;
  bt_kwargs : PyDict string
}.

(** Effects on the outside world, in the order they happen. *)
Inductive Event : Type :=
| EvWarning (msg : string)
| EvWarningLargeData (memory_usage : N)
| EvLog (msg : string)
| EvSetVerbosity (level : nat)
| EvCreateRole (role_name : string)
| EvCreateBucket (bucket : string) (region : string)
| EvMakedirs (path : string)
| EvWriteConfig (path : string) (config : Config)
| EvConvert (data : PyData) (dir filename output_type : string)
| EvLoadData (path : string)
| EvUpload (path : string) (bucket : BucketArg) (key_prefix : string)
| EvRunTraining (req : TrainingRequest)
| EvAttachTraining (name : string)
| EvDeploy (req : DeployRequest)
| EvInvokeEndpoint (name : string) (df : DataFrame) (accept : string)
| EvRunTransform (req : TransformRequest)
| EvDownload (bucket key local_path : string)
| EvUnzip (tarball dest : string)
| EvPickle (path : string)
| EvUnpickle (path : string)
| EvLoadPredictor (predictor_cls path : string)
| EvDeleteModel (name : string)
| EvDeleteEndpoint (name : string) (delete_endpoint_config : bool)
| EvSession
| EvEndpointHandle (name : string)
| EvImport (module_name : string).

(** Helpers and constants of the package that are not part of the sources,
    and answers of the collaborators; they are parameters of the model.
    Pure helpers that may raise return [inl description]. *)
Record Env : Type := {
  TRAIN_SCRIPT_PATH : string;
  TABULAR_SERVE_SCRIPT_PATH : string;
  TEXT_SERVE_SCRIPT_PATH : string;
  is_s3_url : PyData -> string + bool;
  s3_path_to_bucket_prefix : option string -> string + (string * string);
  setup_outputdir : string -> string;
  abspath : string -> string;
  expanduser : string -> string;
  utc_timestamp : string;
  sagemaker_timestamp : string;
  unique_name_from_base : string -> string;
  retrieve_latest_framework_version : string -> string;
  retrieve_available_framework_versions : string -> list string;
  created_role_arn : string;
  default_region : string;
  converted_path : PyData -> string -> string -> string -> string;
  uploaded_uri : string -> BucketArg -> string -> string;
  loaded_frame : string -> DataFrame;
  endpoint_response : string -> DataFrame -> string -> DataFrame;
  rename_file_with_uuid : string -> string;
  job_outcome : string -> JobStatus;
  wait_failure : string -> option string;
  job_output_of : string -> option string;
  is_tarfile : string -> bool;
  bucket_exists : string -> bool;
  faults : Event -> option string
}.

(** The mutable part: the trace, the status the service reports per job
    name, the local files and directories, the pickle files, and the number
    of sessions created so far. *)
Record World : Type := {
  env : Env;
  events : list Event;
  job_status_of : string -> JobStatus;
  is_file : string -> bool;
  is_dir : string -> bool;
  pickles : PyDict CloudPredictor;
  session_counter : nat
}.

Definition add_event (ev : Event) (w : World) : World :=
  {| env := env w; events := (events w ++ [ev])%list;
     job_status_of := job_status_of w; is_file := is_file w;
     is_dir := is_dir w; pickles := pickles w;
     session_counter := session_counter w |}.

Definition set_job_status (name : string) (st : JobStatus) (w : World) : World :=
  {| env := env w; events := events w;
     job_status_of := fun n => if String.eqb n name then st else job_status_of w n;
     is_file := is_file w; is_dir := is_dir w; pickles := pickles w;
     session_counter := session_counter w |}.

Definition add_file (path : string) (w : World) : World :=
  {| env := env w; events := events w; job_status_of := job_status_of w;
     is_file := fun p => if String.eqb p path then true else is_file w p;
     is_dir := is_dir w; pickles := pickles w;
     session_counter := session_counter w |}.

Definition add_dir (path : string) (w : World) : World :=
  {| env := env w; events := events w; job_status_of := job_status_of w;
     is_file := is_file w;
     is_dir := fun p => if String.eqb p path then true else is_dir w p;
     pickles := pickles w; session_counter := session_counter w |}.

Definition add_pickle (path : string) (obj : CloudPredictor) (w : World) : World :=
  {| env := env w; events := events w; job_status_of := job_status_of w;
     is_file := is_file w; is_dir := is_dir w;
     pickles := dict_set path obj (pickles w);
     session_counter := session_counter w |}.

Definition bump_sessions (w : World) : World :=
  {| env := env w; events := events w; job_status_of := job_status_of w;
     is_file := is_file w; is_dir := is_dir w; pickles := pickles w;
     session_counter := S (session_counter w) |}.

(** ** The monad of methods *)

Definition Outcome (A : Type) : Type := ((PyExc + A) * CloudPredictor * World)%type.

Definition M (A : Type) : Type := CloudPredictor -> World -> Outcome A.

Definition result {A} (o : Outcome A) : PyExc + A := fst (fst o).
Definition self_after {A} (o : Outcome A) : CloudPredictor := snd (fst o).
Definition world_after {A} (o : Outcome A) : World := snd o.

Definition ret {A} (a : A) : M A := fun s w => (inr a, s, w).

Definition raise {A} (e : PyExc) : M A := fun s w => (inl e, s, w).

Definition bind {A B} (m : M A) (k : A -> M B) : M B :=
  fun s w =>
    match m s w with
    | (inl e, s', w') => (inl e, s', w')
    | (inr a, s', w') => k a s' w'
    end.

Notation "x <- m ;; k" := (bind m (fun x => k))
  (at level 61, m at next level, right associativity).
Notation "' pat <- m ;; k" :=
  (bind m (fun x => match x with pat => k end))
  (at level 61, pat pattern, m at next level, right associativity).
Notation "m ;;; k" := (bind m (fun _ => k))
  (at level 61, right associativity).

Definition get_self : M CloudPredictor := fun s w => (inr s, s, w).
Definition get_world : M World := fun s w => (inr w, s, w).
Definition modify_self (f : CloudPredictor -> CloudPredictor) : M unit :=
  fun s w => (inr tt, f s, w).
Definition modify_world (f : World -> World) : M unit :=
  fun s w => (inr tt, s, f w).

(** [assert cond, msg] *)
Definition py_assert (cond : bool) (msg : string) : M unit :=
  if cond then ret tt else raise (AssertionError msg).

(** An effect that cannot fail (logging). *)
Definition emit (ev : Event) : M unit := modify_world (add_event ev).

(** A call into a collaborator: it either raises, leaving no trace, or
    happens and is recorded. *)
Definition external (ev : Event) : M unit :=
  fun s w =>
    match faults (env w) ev with
    | Some what => (inl (CollaboratorError what), s, w)
    | None => (inr tt, s, add_event ev w)
    end.

(** A pure helper that may raise. *)
Definition helper {A} (r : string + A) : M A :=
  match r with
  | inl what => raise (CollaboratorError what)
  | inr a => ret a
  end.

(** [for x in xs: body(x)] *)
Fixpoint for_each {A} (xs : list A) (body : A -> M unit) : M unit :=
  match xs with
  | [] => ret tt
  | x :: xs' => body x ;;; for_each xs' body
  end.

(** [self.sagemaker_session.<attr>]: fails on [None]. *)
Definition the_session (attr : string) : M Session :=
  s <- get_self ;;
  match sagemaker_session s with
  | Some sess => ret sess
  | None => raise (AttributeError ("'NoneType' object has no attribute '" ++ attr ++ "'"))
  end.

(** The session inside a handle that a collaborator hands back: a new one,
    made by the collaborator as part of its call. *)
Definition handle_session : M Session :=
  w <- get_world ;;
  modify_world bump_sessions ;;;
  ret {| session_id := session_counter w; boto_region_name := default_region (env w) |}.

(** [sagemaker.session.Session()], a call into the SDK like any other. *)
Definition Session_new : M Session :=
  external EvSession ;;;
  handle_session.

(** ** Python and [os.path] helpers *)

Definition is_some {A} (o : option A) : bool :=
  match o with Some _ => true | None => false end.

(** How an f-string prints a [str]-or-[None] value. *)
Definition fmt (o : option string) : string :=
  match o with Some s => s | None => "None" end.

(** How an f-string prints a list of strings: ['a', 'b']. *)
Fixpoint py_repr_items (l : list string) : string :=
  match l with
  | [] => ""
  | [x] => "'" ++ x ++ "'"
  | x :: rest => "'" ++ x ++ "', " ++ py_repr_items rest
  end.

Definition py_repr_list (l : list string) : string := "[" ++ py_repr_items l ++ "]".

(** The double-quote character, as a string. *)
Definition dquote : string := String (Ascii.ascii_of_nat 34) EmptyString.

Definition starts_with_slash (s : string) : bool :=
  match s with
  | String c _ => Ascii.eqb c "/"
  | EmptyString => false
  end.

Fixpoint ends_with_slash (s : string) : bool :=
  match s with
  | EmptyString => false
  | String c EmptyString => Ascii.eqb c "/"
  | String _ rest => ends_with_slash rest
  end.

(** [s[:-1]] *)
Fixpoint drop_last (s : string) : string :=
  match s with
  | EmptyString => EmptyString
  | String _ EmptyString => EmptyString
  | String c rest => String c (drop_last rest)
  end.

(** [s.split('/')[-1]] *)
Fixpoint last_segment_from (acc s : string) : string :=
  match s with
  | EmptyString => acc
  | String c rest =>
      if Ascii.eqb c "/" then last_segment_from EmptyString rest
      else last_segment_from (acc ++ String c EmptyString) rest
  end.

Definition last_segment (s : string) : string := last_segment_from EmptyString s.

(** [posixpath.join] *)
Definition path_join2 (a b : string) : string :=
  if starts_with_slash b then b
  else if (String.eqb a "" || ends_with_slash a)%bool then a ++ b
  else a ++ "/" ++ b.

Definition path_join (a : string) (ps : list string) : string :=
  fold_left path_join2 ps a.

(** Calling [f(name1=..., ..., **kw)]: a key of [kw] that repeats a keyword
    written in the call is a [TypeError]. *)
Definition call_kwargs (f : string) (named : list string) (kw : PyDict string) : M unit :=
  match find (fun k => existsb (String.eqb k) named) (map fst kw) with
  | Some k => raise (TypeError (f ++ "() got multiple values for keyword argument '" ++ k ++ "'"))
  | None => ret tt
  end.

(** Truth value of the objects that reach an [if] in [fit]; a frame never
    does (it is replaced by the uploaded url first). *)
Definition data_truthy (d : PyData) : bool :=
  match d with
  | Str s => truthy (Some s)
  | NoneVal => false
  | Frame _ | Other _ => true
  end.

(** ** Job handles *)

(** Modelled from the spec: [completed] holds when the job was submitted and
    the service reports the terminal status Completed. *)
Definition job_completed (j : SageMakerJob) (w : World) : bool :=
  match job_name j with
  | None => false
  | Some n => is_completed (job_status_of w n)
  end.

(** Modelled from the spec: [get_job_status] is NotCreated before submission
    and whatever the service reports afterwards. *)
Definition get_job_status (j : SageMakerJob) (w : World) : JobStatus :=
  match job_name j with
  | None => NotCreated
  | Some n => job_status_of w n
  end.

(** Modelled from the spec: [get_output_path] is "valid only once Completed;
    otherwise returns nothing". *)
Definition get_output_path (j : SageMakerJob) (w : World) : option string :=
  match job_name j with
  | None => None
  | Some n => if is_completed (job_status_of w n) then job_output_of (env w) n else None
  end.

(** Modelled from the spec: a submitted job is InProgress; a blocking [run]
    returns once the job has reached its terminal state.  Job failure shows
    in the status, it is not raised. *)
Definition status_after_run (wait : bool) (name : string) (w : World) : JobStatus :=
  if wait then job_outcome (env w) name else InProgress.

(** Modelled from the spec: a blocking [run] polls the service until the
    job has reached a terminal state, and a failure of the service while it
    polls propagates to the caller; the job was submitted by then. *)
Definition wait_for (wait : bool) (name : string) : M unit :=
  if wait then
    w <- get_world ;;
    helper (match wait_failure (env w) name with
            | Some what => inl what
            | None => inr tt
            end)
  else ret tt.

(** Modelled from the spec: [SageMakerFitJob.run] submits the job, records
    its name in the handle and, when blocking, returns after the job ended. *)
Definition SageMakerFitJob_run (req : TrainingRequest) : M unit :=
  call_kwargs "run"
    ["role"; "entry_point"; "region"; "instance_type"; "instance_count";
     "volume_size"; "framework_version"; "base_job_name"; "output_path";
     "inputs"; "wait"; "job_name"; "autogluon_sagemaker_estimator_kwargs"]
    (tr_kwargs req) ;;;
  external (EvRunTraining req) ;;;
  wait_for (tr_wait req) (tr_job_name req) ;;;
  s <- get_self ;;
  modify_self (set_fit_job {| job_session := job_session (_fit_job s);
                              job_name := Some (tr_job_name req) |}) ;;;
  w <- get_world ;;
  modify_world (set_job_status (tr_job_name req)
                  (status_after_run (tr_wait req) (tr_job_name req) w)).

(** Modelled from the spec: [SageMakerBatchTransformationJob(session).run],
    with the same contract; it returns the new handle. *)
Definition SageMakerBatchTransformationJob_run (session : option Session)
    (req : TransformRequest) : M SageMakerJob :=
  call_kwargs "run"
    ["model_data"; "role"; "region"; "framework_version"; "instance_count";
     "instance_type"; "entry_point"; "predictor_cls"; "output_path";
     "test_input"; "job_name"; "split_type"; "content_type"; "wait";
     "transformer_kwargs"; "autogluon_sagemaker_inference_model_kwargs"]
    (bt_kwargs req) ;;;
  external (EvRunTransform req) ;;;
  wait_for (bt_wait req) (bt_job_name req) ;;;
  w <- get_world ;;
  modify_world (set_job_status (bt_job_name req)
                  (status_after_run (bt_wait req) (bt_job_name req) w)) ;;;
  ret {| job_session := session; job_name := Some (bt_job_name req) |}.

(** Modelled from the spec: [attach] rebuilds a handle for a job submitted
    earlier; its status is whatever the service reports. *)
Definition SageMakerFitJob_attach (name : string) : M SageMakerJob :=
  external (EvAttachTraining name) ;;;
  sess <- handle_session ;;
  ret {| job_session := Some sess; job_name := Some name |}.

(** Modelled from the spec: session references are not part of a job's
    pickled state. *)
Definition pickled_job (j : SageMakerJob) : SageMakerJob :=
  {| job_session := None; job_name := job_name j |}.

(** Modelled from the spec: the accept-type allow-list [VALID_ACCEPT] of
    [autogluon.cloud.utils.constants], which is not part of the sources. *)
Definition VALID_ACCEPT : list string :=
  ["application/x-parquet"; "text/csv"; "application/json"].

(** ** CloudPredictor *)

(** [is_fit] *)
Definition is_fit (s : CloudPredictor) (w : World) : bool :=
  job_completed (_fit_job s) w.

(** [endpoint_name] *)
Definition endpoint_name (s : CloudPredictor) : option string :=
  match endpoint s with
  | Some e => Some (endpoint_name_of e)
  | None => None
  end.

(** [_setup_predictor_type], overridden by the two subclasses. *)
Definition _setup_predictor_type (c : PredictorClass) (e : Env)
    : option string * option string * option string :=
  match c with
  | CloudPredictorCls => (None, None, None)
  | TabularCloudPredictorCls =>
      (Some "tabular", Some (TRAIN_SCRIPT_PATH e), Some (TABULAR_SERVE_SCRIPT_PATH e))
  | TextCloudPredictorCls =>
      (Some "text", Some (TRAIN_SCRIPT_PATH e), Some (TEXT_SERVE_SCRIPT_PATH e))
  end.

Definition _setup_local_output_path (path : option string) : M string :=
  w <- get_world ;;
  let path :=
    match path with
    | None => "AutogluonCloudPredictor/ag-" ++ utc_timestamp (env w) ++ "/"
    | Some p => p
    end in
  let path := setup_outputdir (env w) path in
  let util_path := path_join path ["utils"] in
  (if (is_dir w util_path || is_file w util_path)%bool then
     emit (EvWarning ("Warning: path already exists! This predictor may overwrite an existing predictor! path="
                      ++ dquote ++ path ++ dquote))
   else
     external (EvMakedirs util_path) ;;; modify_world (add_dir util_path)) ;;;
  ret (abspath (env w) path).

Definition _setup_cloud_output_path (path : option string) : M string :=
  w <- get_world ;;
  match path with
  | None => ret ("s3://ag-cloud-predictor/" ++ sagemaker_timestamp (env w))
  | Some path =>
      let path := if ends_with_slash path then drop_last path else path in
      is_url <- helper (is_s3_url (env w) (Str path)) ;;
      if is_url : bool then ret path else ret ("s3://" ++ path)
  end.

(** [__init__]: builds the object attribute by attribute. *)
Definition init (c : PredictorClass) (role_arn : option string)
    (local_output_path cloud_output_path : option string) (verbosity : nat)
    (w : World) : (PyExc + CloudPredictor) * World :=
  let blank :=
    {| cls := c; verbosity := verbosity; role_arn := ""; sagemaker_session := None;
       local_output_path := ""; cloud_output_path := ""; endpoint := None;
       _region := None; _fit_job := new_job None; _batch_transform_jobs := [];
       predictor_type := None; _train_script_path := None;
       _serve_script_path := None; _endpoint_saved := None |} in
  let body : M CloudPredictor :=
    emit (EvSetVerbosity verbosity) ;;;
    role <- (if truthy role_arn then ret (fmt role_arn)
             else w <- get_world ;;
                  external (EvCreateRole "ag_cloud_predictor_role") ;;;
                  ret (created_role_arn (env w))) ;;
    session <- Session_new ;;
    local <- _setup_local_output_path local_output_path ;;
    cloud <- _setup_cloud_output_path cloud_output_path ;;
    w <- get_world ;;
    let '(ptype, train_script, serve_script) := _setup_predictor_type c (env w) in
    ret {| cls := c; verbosity := verbosity; role_arn := role;
           sagemaker_session := Some session;
           local_output_path := local; cloud_output_path := cloud;
           endpoint := None; _region := Some (boto_region_name session);
           _fit_job := new_job (Some session); _batch_transform_jobs := [];
           predictor_type := ptype; _train_script_path := train_script;
           _serve_script_path := serve_script; _endpoint_saved := None |} in
  match body blank w with
  | (r, _, w') => (r, w')
  end.

Definition _parse_framework_version (framework_version framework_type : string) : M string :=
  w <- get_world ;;
  if String.eqb framework_version "latest" then
    ret (retrieve_latest_framework_version (env w) framework_type)
  else
    let valid_options := retrieve_available_framework_versions (env w) framework_type in
    py_assert (existsb (String.eqb framework_version) valid_options)
      (framework_version ++ " is not a valid option. Options are: "
       ++ py_repr_list valid_options) ;;;
    ret framework_version.

Definition _construct_config (predictor_init_args predictor_fit_args : PyDict PyData)
    (leaderboard : bool) : M string :=
  s <- get_self ;;
  py_assert (is_some (predictor_type s)) "" ;;;
  let config :=
    {| cfg_predictor_type := fmt (predictor_type s);
       cfg_predictor_init_args := predictor_init_args;
       cfg_predictor_fit_args := predictor_fit_args;
       cfg_leaderboard := leaderboard |} in
  let path := path_join (local_output_path s) ["utils"; "config.yaml"] in
  external (EvWriteConfig path config) ;;;
  ret path.

Definition _setup_bucket (bucket : string) : M unit :=
  w <- get_world ;;
  if bucket_exists (env w) bucket then ret tt
  else
    session <- the_session "boto_region_name" ;;
    external (EvCreateBucket bucket (boto_region_name session)).

Definition _prepare_data (data : PyData) (filename : string) (output_type : string) : M string :=
  py_assert (existsb (String.eqb output_type) ["parquet"; "csv"])
    ("output type:" ++ output_type ++ " is not supported") ;;;
  s <- get_self ;;
  let path := path_join (local_output_path s) ["utils"] in
  external (EvConvert data path filename output_type) ;;;
  w <- get_world ;;
  ret (converted_path (env w) data path filename output_type).

(** [self.sagemaker_session.upload_data(path=, bucket=, key_prefix=)] *)
Definition upload_data (path : string) (bucket : BucketArg) (key_prefix : string) : M string :=
  _ <- the_session "upload_data" ;;
  external (EvUpload path bucket key_prefix) ;;;
  w <- get_world ;;
  ret (uploaded_uri (env w) path bucket key_prefix).

(** [isinstance(data, pd.DataFrame) or not is_s3_url(data)] *)
Definition is_local (data : PyData) : M bool :=
  match data with
  | Frame _ => ret true
  | _ =>
      w <- get_world ;;
      is_url <- helper (is_s3_url (env w) data) ;;
      ret (negb is_url)
  end.

Definition _upload_fit_artifact (train_data tune_data : PyData) (config : string)
    : M (PyData * PyData * string) :=
  s <- get_self ;;
  w <- get_world ;;
  '(cloud_bucket, cloud_key_prefix) <-
     helper (s3_path_to_bucket_prefix (env w) (Some (cloud_output_path s))) ;;
  let util_key_prefix := cloud_key_prefix ++ "/utils" in
  local <- is_local train_data ;;
  train_input <-
    (if local : bool then
       train_data <- _prepare_data train_data "train" "csv" ;;
       emit (EvLog "Uploading train data...") ;;;
       uri <- upload_data train_data (BucketName cloud_bucket) util_key_prefix ;;
       emit (EvLog "Train data uploaded successfully") ;;;
       ret (Str uri)
     else ret train_data) ;;
  tune_input <-
    (match tune_data with
     | NoneVal => ret tune_data
     | _ =>
         local <- is_local tune_data ;;
         if local : bool then
           tune_data <- _prepare_data tune_data "tune" "csv" ;;
           emit (EvLog "Uploading tune data...") ;;;
           uri <- upload_data tune_data (BucketName cloud_bucket) util_key_prefix ;;
           emit (EvLog "Tune data uploaded successfully") ;;;
           ret (Str uri)
         else ret tune_data
     end) ;;
  config_input <- upload_data config (BucketName cloud_bucket) util_key_prefix ;;
  ret (train_input, tune_input, config_input).

Record FitArgs : Type := {
  predictor_init_args : PyDict PyData;
  predictor_fit_args : PyDict PyData;
  leaderboard : bool;
  fit_framework_version : string;
  fit_job_name : option string;
  fit_instance_type : string;
  fit_instance_count : nat;
  fit_volume_size : nat;
  fit_wait : bool;
  autogluon_sagemaker_estimator_kwargs : PyDict string;
  fit_kwargs : PyDict string
}.

Definition already_fit_msg : string :=
  "Predictor is already fit! To fit additional models, create a new `CloudPredictor`".

(** [fit]; it returns [self], which the monad carries. *)
Definition fit (a : FitArgs) : M unit :=
  s <- get_self ;;
  w <- get_world ;;
  py_assert (negb (job_completed (_fit_job s) w)) already_fit_msg ;;;
  let '(train_data, fit_args) := dict_pop "train_data" (predictor_fit_args a) in
  train_data <- (match train_data with
                 | Some d => ret d
                 | None => raise (KeyError "train_data")
                 end) ;;
  let '(tune_data, fit_args) := dict_pop "tuning_data" fit_args in
  let tune_data := match tune_data with Some d => d | None => NoneVal end in
  framework_version <- _parse_framework_version (fit_framework_version a) "training" ;;
  let job_name :=
    if truthy (fit_job_name a) then fmt (fit_job_name a)
    else unique_name_from_base (env w) "ag-CloudPredictor" in
  let '(_, estimator_kwargs) := dict_pop "output_path" (autogluon_sagemaker_estimator_kwargs a) in
  let output_path := cloud_output_path s ++ "/output" in
  '(cloud_bucket, _) <- helper (s3_path_to_bucket_prefix (env w) (Some (cloud_output_path s))) ;;
  let entry_point := TRAIN_SCRIPT_PATH (env w) in
  let '(user_entry_point, estimator_kwargs) := dict_pop entry_point estimator_kwargs in
  '(entry_point, estimator_kwargs) <-
    (if truthy user_entry_point then
       emit (EvWarning ("Providing a custom entry point could break the fit. Please refer to `"
                        ++ entry_point ++ "` for our implementation")) ;;;
       ret (fmt user_entry_point, estimator_kwargs)
     else
       ret (entry_point, snd (dict_pop "source_dir" estimator_kwargs))) ;;
  _setup_bucket cloud_bucket ;;;
  config <- _construct_config (predictor_init_args a) fit_args (leaderboard a) ;;
  '(train_input, tune_input, config_input) <- _upload_fit_artifact train_data tune_data config ;;
  let inputs := [("config", Str config_input); ("train", train_input)] in
  let inputs := if data_truthy tune_input then dict_set "tune" tune_input inputs else inputs in
  s <- get_self ;;
  SageMakerFitJob_run
    {| tr_role := role_arn s; tr_entry_point := entry_point; tr_region := _region s;
       tr_instance_type := fit_instance_type a;
       tr_instance_count := fit_instance_count a;
       tr_volume_size := fit_volume_size a;
       tr_framework_version := framework_version;
       tr_base_job_name := "autogluon-cloudpredictor-train";
       tr_output_path := output_path; tr_inputs := inputs;
       tr_wait := fit_wait a; tr_job_name := job_name;
       tr_estimator_kwargs := estimator_kwargs; tr_kwargs := fit_kwargs a |}.

Definition attach_job (job_name : string) : M unit :=
  job <- SageMakerFitJob_attach job_name ;;
  modify_self (set_fit_job job).

Definition get_fit_job_status : M string :=
  s <- get_self ;;
  w <- get_world ;;
  ret (status_str (get_job_status (_fit_job s) w)).

(** [download_s3_file(bucket, key, local_path)] *)
Definition download_s3_file (bucket key local_path : string) : M unit :=
  external (EvDownload bucket key local_path) ;;;
  modify_world (add_file local_path).

Definition _download_predictor (path : option string) (save_path : string) : M string :=
  emit (EvLog "Downloading trained models to local directory") ;;;
  w <- get_world ;;
  '(predictor_bucket, predictor_key_prefix) <- helper (s3_path_to_bucket_prefix (env w) path) ;;
  let tarball_path := path_join save_path ["model.tar.gz"] in
  download_s3_file predictor_bucket predictor_key_prefix tarball_path ;;;
  emit (EvLog "Extracting the trained model tarball") ;;;
  let save_path := path_join save_path ["AutogluonModels"] in
  external (EvUnzip tarball_path save_path) ;;;
  ret save_path.

Definition download_trained_predictor (save_path : option string) : M string :=
  s <- get_self ;;
  w <- get_world ;;
  let path := get_output_path (_fit_job s) w in
  let save_path := if truthy save_path then fmt save_path else local_output_path s in
  _download_predictor path save_path.

(** [_get_local_predictor_cls]: the name of the local predictor class. *)
Definition _get_local_predictor_cls : M string :=
  s <- get_self ;;
  match cls s with
  | CloudPredictorCls => raise NotImplementedError
  | TabularCloudPredictorCls =>
      external (EvImport "autogluon.tabular") ;;; ret "TabularPredictor"
  | TextCloudPredictorCls =>
      external (EvImport "autogluon.text") ;;; ret "TextPredictor"
  end.

(** [to_local_predictor]: the class and the directory it is loaded from. *)
Definition to_local_predictor (save_path : option string) : M (string * string) :=
  predictor_cls <- _get_local_predictor_cls ;;
  local_model_path <- download_trained_predictor save_path ;;
  external (EvLoadPredictor predictor_cls local_model_path) ;;;
  ret (predictor_cls, local_model_path).

Definition _upload_predictor (predictor_path key_prefix : string) : M string :=
  s <- get_self ;;
  w <- get_world ;;
  '(bucket, prefix) <- helper (s3_path_to_bucket_prefix (env w) (Some (cloud_output_path s))) ;;
  let cloud_bucket := BucketAndPrefix bucket prefix in
  is_url <- helper (is_s3_url (env w) (Str predictor_path)) ;;
  if is_url : bool then ret predictor_path
  else if is_file w predictor_path then
    if is_tarfile (env w) predictor_path then
      upload_data predictor_path cloud_bucket key_prefix
    else raise (ValueError "Please provide a tarball containing the model")
  else raise (ValueError "Please provide a valid path to the model tarball.").

Definition endpoint_attached_msg : string :=
  "There is an endpoint already attached. Either detach it with `detach` or clean it up with `cleanup_deployment`".

Definition no_model_msg : string := "No cloud trained model found.".

Record DeployArgs : Type := {
  deploy_predictor_path : option string;
  deploy_endpoint_name : option string;
  deploy_framework_version : string;
  deploy_instance_type : string;
  initial_instance_count : nat;
  deploy_wait : bool;
  deploy_model_kwargs : PyDict string;
  deploy_kwargs : PyDict string
}.

Definition deploy (a : DeployArgs) : M unit :=
  s <- get_self ;;
  w <- get_world ;;
  py_assert (negb (is_some (endpoint s))) endpoint_attached_msg ;;;
  predictor_path <-
    (if truthy (deploy_predictor_path a) then ret (fmt (deploy_predictor_path a))
     else
       let predictor_path := get_output_path (_fit_job s) w in
       py_assert (truthy predictor_path) no_model_msg ;;;
       ret (fmt predictor_path)) ;;
  predictor_path <- _upload_predictor predictor_path
                      ("endpoints/" ++ fmt (deploy_endpoint_name a) ++ "/predictor") ;;
  let endpoint_name :=
    if truthy (deploy_endpoint_name a) then fmt (deploy_endpoint_name a)
    else unique_name_from_base (env w) "sagemaker-autogluon-serving-trained-model" in
  framework_version <- _parse_framework_version (deploy_framework_version a) "inference" ;;
  py_assert (is_some (_serve_script_path s)) "" ;;;
  let entry_point := fmt (_serve_script_path s) in
  let '(user_entry_point, model_kwargs) := dict_pop "entry_point" (deploy_model_kwargs a) in
  entry_point <-
    (if truthy user_entry_point then
       emit (EvWarning ("Providing a custom entry point could break the deployment. Please refer to `"
                        ++ entry_point ++ "` for our implementation")) ;;;
       ret (fmt user_entry_point)
     else ret entry_point) ;;
  let predictor_cls := "AutoGluonRealtimePredictor" in
  let '(user_predictor_cls, model_kwargs) := dict_pop "predictor_cls" model_kwargs in
  predictor_cls <-
    (if truthy user_predictor_cls then
       emit (EvWarning "Providing a custom predictor_cls could break the deployment. Please refer to `AutoGluonRealtimePredictor` for how to provide a custom predictor") ;;;
       ret (fmt user_predictor_cls)
     else ret predictor_cls) ;;
  call_kwargs "AutoGluonSagemakerInferenceModel"
    ["model_data"; "role"; "region"; "framework_version"; "instance_type";
     "entry_point"; "predictor_cls"] model_kwargs ;;;
  emit (EvLog "Deploying model to the endpoint") ;;;
  external (EvDeploy
    {| dp_model_data := predictor_path; dp_role := role_arn s; dp_region := _region s;
       dp_framework_version := framework_version;
       dp_instance_type := deploy_instance_type a;
       dp_entry_point := entry_point; dp_predictor_cls := predictor_cls;
       dp_model_kwargs := model_kwargs; dp_endpoint_name := endpoint_name;
       dp_initial_instance_count := initial_instance_count a;
       dp_wait := deploy_wait a; dp_kwargs := deploy_kwargs a |}) ;;;
  session <- handle_session ;;
  modify_self (set_endpoint (Some {| endpoint_name_of := endpoint_name;
                                     endpoint_session := Some session |})).

(** What [attach_endpoint] may be given. *)
Inductive EndpointArg : Type :=
| EndpointName (name : string)
| EndpointObject (e : AutoGluonRealtimePredictor)
| EndpointOther.

Definition attach_endpoint (ep : EndpointArg) : M unit :=
  s <- get_self ;;
  py_assert (negb (is_some (endpoint s))) endpoint_attached_msg ;;;
  match ep with
  | EndpointName name =>
      external (EvEndpointHandle name) ;;;
      modify_self (set_endpoint (Some {| endpoint_name_of := name;
                                         endpoint_session := sagemaker_session s |}))
  | EndpointObject e => modify_self (set_endpoint (Some e))
  | EndpointOther =>
      raise (ValueError "Please provide either an endpoint name or an endpoint of type `AutoGluonRealtimePredictor`")
  end.

Definition detach_endpoint : M AutoGluonRealtimePredictor :=
  s <- get_self ;;
  match endpoint s with
  | None => raise (AssertionError "")
  | Some detached_endpoint =>
      modify_self (set_endpoint None) ;;;
      ret detached_endpoint
  end.

Definition no_endpoint_msg : string := "Please call `deploy()` to deploy an endpoint first.".

(** The message of the accept-type assertion; the allow-list is printed as
    Python prints a list of strings. *)
Definition invalid_accept_msg : string :=
  "Invalid accept type. Options are " ++ py_repr_list VALID_ACCEPT ++ ".".

(** [memory_usage > 5e6]: the byte count is an integer, so the comparison
    with the float [5e6] is the comparison with 5000000. *)
Definition exceeds_5e6 (memory_usage : N) : bool := (5000000 <? memory_usage)%N.

Definition large_data_hint : string :=
  "Please consider reduce test data size or use `predict()` instead.".

Definition predict_real_time (test_data : PyData) (accept : string) : M DataFrame :=
  s <- get_self ;;
  py_assert (is_some (endpoint s)) no_endpoint_msg ;;;
  py_assert (existsb (String.eqb accept) VALID_ACCEPT) invalid_accept_msg ;;;
  test_data <-
    (match test_data with
     | Str path =>
         external (EvLoadData path) ;;;
         w <- get_world ;;
         ret (Frame (loaded_frame (env w) path))
     | _ => ret test_data
     end) ;;
  memory_usage <-
    (match test_data with
     | Frame df => ret (df_memory_usage df)
     | Other (Some m) => ret m
     | _ => raise (AttributeError "object has no attribute 'memory_usage'")
     end) ;;
  (if exceeds_5e6 memory_usage then
     emit (EvWarningLargeData memory_usage) ;;;
     emit (EvWarning large_data_hint)
   else ret tt) ;;;
  match test_data with
  | Frame df =>
      let name := fmt (endpoint_name s) in
      external (EvInvokeEndpoint name df accept) ;;;
      w <- get_world ;;
      ret (endpoint_response (env w) name df accept)
  | _ => raise (ValueError "test_data must be either a pandas.DataFrame, a local path or a s3 path")
  end.

Record PredictArgs : Type := {
  test_data : PyData;
  predict_predictor_path : option string;
  predict_framework_version : string;
  predict_job_name : option string;
  predict_instance_type : string;
  predict_instance_count : nat;
  predict_wait : bool;
  predict_model_kwargs : PyDict string;
  transformer_kwargs : PyDict string;
  predict_kwargs : PyDict string
}.

Definition predict (a : PredictArgs) : M unit :=
  s <- get_self ;;
  w <- get_world ;;
  predictor_path <-
    (if truthy (predict_predictor_path a) then ret (fmt (predict_predictor_path a))
     else
       let predictor_path := get_output_path (_fit_job s) w in
       py_assert (truthy predictor_path) no_model_msg ;;;
       ret (fmt predictor_path)) ;;
  framework_version <- _parse_framework_version (predict_framework_version a) "inference" ;;
  let kwargs := predict_kwargs a in
  let output_path := dict_get "output_path" kwargs in
  let output_path := if truthy output_path then fmt output_path else cloud_output_path s in
  is_url <- helper (is_s3_url (env w) (Str output_path)) ;;
  py_assert is_url "" ;;;
  let output_path := output_path ++ "/batch_transform" ++ "/" ++ sagemaker_timestamp (env w) in
  '(cloud_bucket, cloud_key_prefix) <- helper (s3_path_to_bucket_prefix (env w) (Some output_path)) ;;
  emit (EvLog "Preparing autogluon predictor...") ;;;
  predictor_path <- _upload_predictor predictor_path (cloud_key_prefix ++ "/predictor") ;;
  let job_name :=
    if truthy (predict_job_name a) then fmt (predict_job_name a)
    else unique_name_from_base (env w) "ag-CloudPredictor-batch-transform" in
  local <- is_local (test_data a) ;;
  test_input <-
    (if local : bool then
       test_data <- _prepare_data (test_data a) "test" "csv" ;;
       emit (EvLog "Uploading data...") ;;;
       uri <- upload_data test_data (BucketName cloud_bucket) (cloud_key_prefix ++ "/data") ;;
       emit (EvLog "Data uploaded successfully") ;;;
       ret (Str uri)
     else ret (test_data a)) ;;
  py_assert (is_some (_serve_script_path s)) "" ;;;
  let entry_point := fmt (_serve_script_path s) in
  let '(user_entry_point, model_kwargs) := dict_pop "entry_point" (predict_model_kwargs a) in
  let entry_point := if truthy user_entry_point then fmt user_entry_point else entry_point in
  let predictor_cls := "AutoGluonBatchPredictor" in
  let '(user_predictor_cls, model_kwargs) := dict_pop "predictor_cls" model_kwargs in
  predictor_cls <-
    (if truthy user_predictor_cls then
       emit (EvWarning "Providing a custom predictor_cls could break the deployment. Please refer to `AutoGluonBatchPredictor` for how to provide a custom predictor") ;;;
       ret (fmt user_predictor_cls)
     else ret predictor_cls) ;;
  let '(split_type, kwargs) := dict_pop "split_type" kwargs in
  let '(content_type, kwargs) := dict_pop "content_type" kwargs in
  let split_type := if truthy split_type then fmt split_type else "Line" in
  let content_type := if truthy content_type then fmt content_type else "text/csv" in
  s <- get_self ;;
  batch_transform_job <-
    SageMakerBatchTransformationJob_run (sagemaker_session s)
      {| bt_model_data := predictor_path; bt_role := role_arn s; bt_region := _region s;
         bt_framework_version := framework_version;
         bt_instance_count := predict_instance_count a;
         bt_instance_type := predict_instance_type a;
         bt_entry_point := entry_point; bt_predictor_cls := predictor_cls;
         bt_output_path := output_path ++ "/results";
         bt_test_input := test_input; bt_job_name := job_name;
         bt_split_type := split_type; bt_content_type := content_type;
         bt_wait := predict_wait a;
         bt_transformer_kwargs := transformer_kwargs a;
         bt_model_kwargs := model_kwargs; bt_kwargs := kwargs |} ;;
  modify_self (fun s => set_batch_transform_jobs
                          (registry_put job_name batch_transform_job (_batch_transform_jobs s)) s).

Definition no_job_msg : string := "There is no batch transform job.".

Definition no_such_job_msg (job_name : string) : string :=
  "Could not find the batch transform job that matches name " ++ job_name.

Definition no_results_msg : string := "No predict results found.".

Definition rename_warning : string :=
  "File already exists. Will rename the file to avoid overwrite.".

(** The directory a job's results are downloaded into. *)
Definition results_dir (e : Env) (save_path job_name : string) : string :=
  path_join (abspath e (expanduser e save_path)) ["batch_transform"; job_name].

(** [download_predict_results].  Its last statement, [logger.info(20, text)],
    hands the text over as a formatting argument of the message [20]; the
    logging module reports that on stderr and raises nothing. *)
Definition download_predict_results (job_name save_path : option string) : M unit :=
  s <- get_self ;;
  w <- get_world ;;
  let job_name :=
    if truthy job_name then job_name else registry_last (_batch_transform_jobs s) in
  match job_name with
  | None => raise (AssertionError no_job_msg)
  | Some job_name =>
    match registry_get (Some job_name) (_batch_transform_jobs s) with
    | None => raise (AssertionError (no_such_job_msg job_name))
    | Some job =>
      let result_path := get_output_path job w in
      py_assert (is_some result_path) no_results_msg ;;;
      let file_name := last_segment (fmt result_path) in
      let save_path := if truthy save_path then fmt save_path else local_output_path s in
      let results_save_path := results_dir (env w) save_path job_name in
      (if is_dir w results_save_path then ret tt
       else external (EvMakedirs results_save_path) ;;;
            modify_world (add_dir results_save_path)) ;;;
      let temp_results_save_path := path_join results_save_path [file_name] in
      file_name <-
        (if is_file w temp_results_save_path then
           emit (EvWarning rename_warning) ;;;
           ret (rename_file_with_uuid (env w) file_name)
         else ret file_name) ;;
      let results_save_path := path_join results_save_path [file_name] in
      '(results_bucket, results_key_prefix) <-
         helper (s3_path_to_bucket_prefix (env w) result_path) ;;
      download_s3_file results_bucket results_key_prefix results_save_path
    end
  end.

Definition get_batch_transform_job_status (job_name : option string) : M string :=
  s <- get_self ;;
  w <- get_world ;;
  let job_name :=
    if truthy job_name then job_name else registry_last (_batch_transform_jobs s) in
  match registry_get job_name (_batch_transform_jobs s) with
  | Some job => ret (status_str (get_job_status job w))
  | None => ret "NotCreated"
  end.

Definition not_deployed_msg : string := "There is no endpoint deployed yet".

Definition _delete_endpoint (delete_endpoint_config : bool) : M unit :=
  s <- get_self ;;
  py_assert (is_some (endpoint s)) not_deployed_msg ;;;
  emit (EvLog "Deleteing endpoint") ;;;
  external (EvDeleteEndpoint (fmt (endpoint_name s)) delete_endpoint_config) ;;;
  emit (EvLog "Endpoint deleted") ;;;
  modify_self (set_endpoint None).

Definition _delete_endpoint_model : M unit :=
  s <- get_self ;;
  py_assert (is_some (endpoint s)) not_deployed_msg ;;;
  emit (EvLog "Deleting endpoint model") ;;;
  external (EvDeleteModel (fmt (endpoint_name s))) ;;;
  emit (EvLog "Endpoint model deleted").

Definition cleanup_deployment : M unit :=
  _delete_endpoint_model ;;;
  _delete_endpoint true.

(** What the pickle file holds: the object as it is at that moment, its job
    handles without their sessions. *)
Definition pickle_snapshot (s : CloudPredictor) : CloudPredictor :=
  set_fit_job (pickled_job (_fit_job s))
    (set_batch_transform_jobs
       (map (fun nj => (fst nj, pickled_job (snd nj))) (_batch_transform_jobs s)) s).

(** [save_pkl.save(path=, object=self)] *)
Definition save_pkl_save (path : string) : M unit :=
  external (EvPickle path) ;;;
  s <- get_self ;;
  modify_world (add_pickle path (pickle_snapshot s)) ;;;
  modify_world (add_file path).

Definition class_name (c : PredictorClass) : string :=
  match c with
  | CloudPredictorCls => "CloudPredictor"
  | TabularCloudPredictorCls => "TabularCloudPredictor"
  | TextCloudPredictorCls => "TextCloudPredictor"
  end.

Definition save (silent : bool) : M unit :=
  s <- get_self ;;
  let path := local_output_path s in
  let file_name := predictor_file_name (cls s) in
  let temp_session := sagemaker_session s in
  let temp_region := _region s in
  modify_self (set_sagemaker_session None) ;;;
  modify_self (set_region None) ;;;
  temp_endpoint <-
    (match endpoint s with
     | Some e =>
         modify_self (set_endpoint_saved (Some (endpoint_name s))) ;;;
         modify_self (set_endpoint None) ;;;
         ret (Some e)
     | None => ret None
     end) ;;
  save_pkl_save (path_join path [file_name]) ;;;
  modify_self (set_sagemaker_session temp_session) ;;;
  modify_self (set_region temp_region) ;;;
  (match temp_endpoint with
   | Some e =>
       modify_self (set_endpoint (Some e)) ;;;
       modify_self (set_endpoint_saved (Some None))
   | None => ret tt
   end) ;;;
  if silent then ret tt
  else emit (EvLog (class_name (cls s) ++ " saved. To load, use: predictor = "
                    ++ class_name (cls s) ++ ".load(" ++ dquote ++ local_output_path s
                    ++ dquote ++ ")")).

(** [job.session = ...] where [job] is a [str]. *)
Definition str_setattr (obj attr : string) : M unit :=
  raise (AttributeError ("'str' object has no attribute '" ++ attr ++ "'")).

(** [_load_jobs]: the loop runs over the registry itself, that is over the
    job names. *)
Definition _load_jobs : M unit :=
  s <- get_self ;;
  modify_self (set_fit_job {| job_session := sagemaker_session s;
                              job_name := job_name (_fit_job s) |}) ;;;
  for_each (registry_keys (_batch_transform_jobs s))
    (fun job => str_setattr job "session").

(** The statements of [load] that follow unpickling, run on the unpickled
    object. *)
Definition load_restore : M unit :=
  session <- Session_new ;;
  modify_self (set_sagemaker_session (Some session)) ;;;
  modify_self (set_region (Some (boto_region_name session))) ;;;
  _load_jobs ;;;
  s <- get_self ;;
  match _endpoint_saved s with
  | Some saved =>
      if truthy saved then
        attach_endpoint (EndpointName (fmt saved)) ;;;
        modify_self (set_endpoint_saved (Some None))
      else ret tt
  | None => ret tt
  end.

(** [load], a class method: [c] is the class it is called on. *)
Definition load (c : PredictorClass) (path : option string) (verbosity : option nat)
    (w : World) : (PyExc + CloudPredictor) * World :=
  let w := match verbosity with
           | Some v => add_event (EvSetVerbosity v) w
           | None => w
           end in
  match path with
  | None => (inl (ValueError "path cannot be None in load()"), w)
  | Some path =>
      let path := setup_outputdir (env w) path in
      let file := path_join path [predictor_file_name c] in
      match faults (env w) (EvUnpickle file) with
      | Some what => (inl (CollaboratorError what), w)
      | None =>
          match dict_get file (pickles w) with
          | None => (inl (CollaboratorError "FileNotFoundError"), w)
          | Some predictor =>
              match load_restore predictor (add_event (EvUnpickle file) w) with
              | (inl e, _, w') => (inl e, w')
              | (inr _, predictor, w') => (inr predictor, w')
              end
          end
      end
  end.

(** ** A sample environment

    A concrete instance of the parameters, used to run the methods on
    concrete inputs. *)

Fixpoint starts_with (p s : string) : bool :=
  match p, s with
  | EmptyString, _ => true
  | String a p', String b s' => (Ascii.eqb a b && starts_with p' s')%bool
  | String _ _, EmptyString => false
  end.

Definition sample_is_s3_url (d : PyData) : string + bool :=
  match d with
  | Str s => inr (starts_with "s3://" s)
  | _ => inl "TypeError: object is not subscriptable"
  end.

Definition sample_s3_path_to_bucket_prefix (path : option string) : string + (string * string) :=
  match path with
  | None => inl "AttributeError: 'NoneType' object has no attribute 'split'"
  | Some p =>
      match String.index 0 "://" p with
      | None => inl "IndexError: list index out of range"
      | Some i =>
          let cleaned := String.substring (i + 3) (String.length p - (i + 3)) p in
          match String.index 0 "/" cleaned with
          | None => inl "ValueError: not enough values to unpack"
          | Some j =>
              inr (String.substring 0 j cleaned,
                   String.substring (j + 1) (String.length cleaned - (j + 1)) cleaned)
          end
      end
  end.

Definition sample_env : Env :=
  {| TRAIN_SCRIPT_PATH := "/pkg/scripts/train.py";
     TABULAR_SERVE_SCRIPT_PATH := "/pkg/scripts/tabular_serve.py";
     TEXT_SERVE_SCRIPT_PATH := "/pkg/scripts/text_serve.py";
     is_s3_url := sample_is_s3_url;
     s3_path_to_bucket_prefix := sample_s3_path_to_bucket_prefix;
     setup_outputdir := fun p => p;
     abspath := fun p => p;
     expanduser := fun p => p;
     utc_timestamp := "20220601_120000";
     sagemaker_timestamp := "2022-06-01-12-00-00-000";
     unique_name_from_base := fun base => base ++ "-1654084800-0a1b";
     retrieve_latest_framework_version := fun _ => "0.4.0";
     retrieve_available_framework_versions := fun _ => ["0.3.1"; "0.4.0"];
     created_role_arn := "arn:aws:iam::000000000000:role/ag_cloud_predictor_role";
     default_region := "us-east-1";
     converted_path := fun _ dir filename ty => path_join dir [filename ++ "." ++ ty];
     uploaded_uri := fun path bucket key_prefix =>
       match bucket with
       | BucketName b => "s3://" ++ b ++ "/" ++ key_prefix ++ "/" ++ last_segment path
       | BucketAndPrefix b _ => "s3://" ++ b ++ "/" ++ key_prefix ++ "/" ++ last_segment path
       end;
     loaded_frame := fun _ => {| df_id := 7; df_memory_usage := 1000 |};
     endpoint_response := fun _ df _ => df;
     rename_file_with_uuid := fun f => "0a1b2c3d-" ++ f;
     job_outcome := fun _ => Completed;
     wait_failure := fun _ => None;
     job_output_of := fun n => Some ("s3://ag-bucket/run/output/" ++ n ++ "/output/model.tar.gz");
     is_tarfile := fun _ => true;
     bucket_exists := fun _ => true;
     faults := fun _ => None |}.

Definition sample_world : World :=
  {| env := sample_env; events := [];
     job_status_of := fun _ => NotCreated;
     is_file := fun _ => false; is_dir := fun _ => false;
     pickles := []; session_counter := 0 |}.

(** [TabularCloudPredictor(role_arn='arn:role', local_output_path='/home/ag',
    cloud_output_path='ag-bucket/run')] *)
Definition sample_init : (PyExc + CloudPredictor) * World :=
  init TabularCloudPredictorCls (Some "arn:role") (Some "/home/ag") (Some "ag-bucket/run") 2
    sample_world.

Definition sample_predictor : CloudPredictor :=
  match fst sample_init with
  | inr p => p
  | inl _ =>
      {| cls := TabularCloudPredictorCls; verbosity := 2; role_arn := "";
         sagemaker_session := None; local_output_path := ""; cloud_output_path := "";
         endpoint := None; _region := None; _fit_job := new_job None;
         _batch_transform_jobs := []; predictor_type := None;
         _train_script_path := None; _serve_script_path := None;
         _endpoint_saved := None |}
  end.

Definition sample_world0 : World := snd sample_init.

Definition sample_frame : DataFrame := {| df_id := 1; df_memory_usage := 2048 |}.

Definition sample_fit_args : FitArgs :=
  {| predictor_init_args := [("label", Str "class")];
     predictor_fit_args := [("train_data", Frame sample_frame); ("time_limit", Str "60")];
     leaderboard := true;
     fit_framework_version := "latest";
     fit_job_name := None;
     fit_instance_type := "ml.m5.2xlarge";
     fit_instance_count := 1;
     fit_volume_size := 30;
     fit_wait := true;
     autogluon_sagemaker_estimator_kwargs := [];
     fit_kwargs := [] |}.


Definition sample_fit : Outcome unit := fit sample_fit_args sample_predictor sample_world0.

(** The sample predictor after [fit]. *)
Definition sample_fitted : CloudPredictor := self_after sample_fit.
Definition sample_world1 : World := world_after sample_fit.

Definition sample_predict_args : PredictArgs :=
  {| test_data := Frame sample_frame;
     predict_predictor_path := None;
     predict_framework_version := "latest";
     predict_job_name := None;
     predict_instance_type := "ml.m5.2xlarge";
     predict_instance_count := 1;
     predict_wait := true;
     predict_model_kwargs := [];
     transformer_kwargs := [];
     predict_kwargs := [] |}.

Definition sample_predict : Outcome unit := predict sample_predict_args sample_fitted sample_world1.

(** The sample predictor after [fit] and one [predict]. *)
Definition sample_predicted : CloudPredictor := self_after sample_predict.
Definition sample_world2 : World := world_after sample_predict.

Definition sample_deploy_args : DeployArgs :=
  {| deploy_predictor_path := None;
     deploy_endpoint_name := Some "ag-endpoint";
     deploy_framework_version := "latest";
     deploy_instance_type := "ml.m5.2xlarge";
     initial_instance_count := 1;
     deploy_wait := true;
     deploy_model_kwargs := [];
     deploy_kwargs := [] |}.

Definition sample_deploy : Outcome unit := deploy sample_deploy_args sample_fitted sample_world1.

(** The sample predictor after [fit] and [deploy]. *)
Definition sample_deployed : CloudPredictor := self_after sample_deploy.
Definition sample_world3 : World := world_after sample_deploy.

(** The sample predictor after [attach_endpoint('')]. *)
Definition sample_unnamed : CloudPredictor :=
  self_after (attach_endpoint (EndpointName "") sample_predictor sample_world0).

Definition sample_large_frame : DataFrame := {| df_id := 2; df_memory_usage := 6000000 |}.


(** * Specification vocabulary *)

(** The last character of a string. *)
Fixpoint last_char (s : string) : option ascii :=
  match s with
  | EmptyString => None
  | String c EmptyString => Some c
  | String _ rest => last_char rest
  end.

(** The name [fit] gives the training job. *)
Definition fit_job_name_of (a : FitArgs) (w : World) : string :=
  if truthy (fit_job_name a) then fmt (fit_job_name a)
  else unique_name_from_base (env w) "ag-CloudPredictor".

(** The name [predict] gives the batch-transform job. *)
Definition predict_job_name_of (a : PredictArgs) (w : World) : string :=
  if truthy (predict_job_name a) then fmt (predict_job_name a)
  else unique_name_from_base (env w) "ag-CloudPredictor-batch-transform".

(** [raises_only Q m]: whatever exception leaves [m] satisfies [Q]. *)
Definition raises_only {A} (Q : PyExc -> Prop) (m : M A) : Prop :=
  forall s w e, result (m s w) = inl e -> Q e.

(** [wp m s w Q]: running [m] from object [s] in world [w] ends in an
    outcome (value or exception, object, world) satisfying [Q]. *)
Definition wp {A} (m : M A) (s : CloudPredictor) (w : World)
    (Q : PyExc + A -> CloudPredictor -> World -> Prop) : Prop :=
  Q (result (m s w)) (self_after (m s w)) (world_after (m s w)).

(** [evolves P w w']: [w'] comes from [w] by effects that leave the
    environment, the job statuses and the pickle files alone and whose trace
    entries all satisfy [P]. *)
Definition evolves (P : Event -> Prop) (w w' : World) : Prop :=
  env w' = env w /\ job_status_of w' = job_status_of w /\ pickles w' = pickles w /\
  exists new, events w' = (events w ++ new)%list /\ Forall P new.

(** [quiet P m]: [m] never changes the object, and changes the world only
    as [evolves P] allows. *)
Definition quiet {A} (P : Event -> Prop) (m : M A) : Prop :=
  forall s w, self_after (m s w) = s /\ evolves P w (world_after (m s w)).

(** Uploads to the object store and submissions of a training job. *)
Definition is_upload_or_run (ev : Event) : bool :=
  match ev with
  | EvUpload _ _ _ | EvRunTraining _ => true
  | _ => false
  end.

Definition is_deploy (ev : Event) : bool :=
  match ev with
  | EvDeploy _ => true
  | _ => false
  end.

(** The events a call added to the trace. *)
Definition new_events (w w' : World) : list Event :=
  skipn (length (events w)) (events w').

(** The uploads [fit] makes for local data: the converted train file, the
    converted tune file when tuning data is given, then the configuration
    document. *)
Definition staged_uploads (e : Env) (s : CloudPredictor) (train tune : PyData)
    (bucket prefix : string) : list Event :=
  let utils := path_join (local_output_path s) ["utils"] in
  let key := prefix ++ "/utils" in
  (EvUpload (converted_path e train utils "train" "csv") (BucketName bucket) key
   :: match tune with
      | NoneVal => []
      | _ => [EvUpload (converted_path e tune utils "tune" "csv") (BucketName bucket) key]
      end
   ++ [EvUpload (path_join (local_output_path s) ["utils"; "config.yaml"])
         (BucketName bucket) key])%list.

(** The [tuning_data] entry of the fit arguments, [None] when absent. *)
Definition tuning_data_of (a : FitArgs) : PyData :=
  match dict_get "tuning_data" (predictor_fit_args a) with
  | Some d => d
  | None => NoneVal
  end.

(** The file [save] writes and [load] reads. *)
Definition pickle_path (s : CloudPredictor) : string :=
  path_join (local_output_path s) [predictor_file_name (cls s)].

(** The object as [save] pickles it: session and region cleared, and an
    attached endpoint replaced by its name in [_endpoint_saved]. *)
Definition saved_state (s : CloudPredictor) : CloudPredictor :=
  let cleared := set_region None (set_sagemaker_session None s) in
  pickle_snapshot
    match endpoint s with
    | Some _ => set_endpoint None (set_endpoint_saved (Some (endpoint_name s)) cleared)
    | None => cleared
    end.

(** The object [save] leaves in memory. *)
Definition after_save (s : CloudPredictor) : CloudPredictor :=
  match endpoint s with
  | Some _ => set_endpoint_saved (Some None) s
  | None => s
  end.

(** No stale endpoint name is waiting in [_endpoint_saved]. *)
Definition marker_clear (s : CloudPredictor) : Prop :=
  match _endpoint_saved s with
  | Some saved => truthy saved = false
  | None => True
  end.

(** The session [Session()] returns in world [w]. *)
Definition fresh_session (w : World) : Session :=
  {| session_id := session_counter w; boto_region_name := default_region (env w) |}.

(** The message [save] logs unless told to be silent. *)
Definition save_log (s : CloudPredictor) : string :=
  class_name (cls s) ++ " saved. To load, use: predictor = "
  ++ class_name (cls s) ++ ".load(" ++ dquote ++ local_output_path s ++ dquote ++ ")".

(** The object [load] returns for the unpickled object [snap] in world [w]. *)
Definition restored (snap : CloudPredictor) (w : World) : CloudPredictor :=
  let fresh := fresh_session w in
  let s1 :=
    set_fit_job {| job_session := Some fresh; job_name := job_name (_fit_job snap) |}
      (set_region (Some (boto_region_name fresh))
         (set_sagemaker_session (Some fresh) snap)) in
  match _endpoint_saved snap with
  | Some saved =>
      if truthy saved then
        set_endpoint_saved (Some None)
          (set_endpoint (Some {| endpoint_name_of := fmt saved;
                                 endpoint_session := Some fresh |}) s1)
      else s1
  | None => s1
  end.

(** The sessions the unpickled object gets, and its fit job handle. *)
Definition resumed (snap : CloudPredictor) (w : World) : CloudPredictor :=
  set_fit_job {| job_session := Some (fresh_session w);
                 job_name := job_name (_fit_job snap) |}
    (set_region (Some (boto_region_name (fresh_session w)))
       (set_sagemaker_session (Some (fresh_session w)) snap)).

(** [keeps f m]: [m] never changes what [f] reads off the object. *)
Definition keeps {A X} (f : CloudPredictor -> X) (m : M A) : Prop :=
  forall s w, f (self_after (m s w)) = f s.

(** A call of a public method on an instance. *)
Inductive Call : Type :=
| CallFit (a : FitArgs)
| CallAttachJob (job_name : string)
| CallGetFitJobStatus
| CallDownloadTrainedPredictor (save_path : option string)
| CallToLocalPredictor (save_path : option string)
| CallDeploy (a : DeployArgs)
| CallAttachEndpoint (ep : EndpointArg)
| CallDetachEndpoint
| CallPredictRealTime (test_data : PyData) (accept : string)
| CallPredict (a : PredictArgs)
| CallDownloadPredictResults (job_name save_path : option string)
| CallGetBatchTransformJobStatus (job_name : option string)
| CallCleanupDeployment
| CallSave (silent : bool).

(** Runs a call and forgets what it returns. *)
Definition call (c : Call) : M unit :=
  match c with
  | CallFit a => fit a
  | CallAttachJob job_name => attach_job job_name
  | CallGetFitJobStatus => _ <- get_fit_job_status ;; ret tt
  | CallDownloadTrainedPredictor save_path => _ <- download_trained_predictor save_path ;; ret tt
  | CallToLocalPredictor save_path => _ <- to_local_predictor save_path ;; ret tt
  | CallDeploy a => deploy a
  | CallAttachEndpoint ep => attach_endpoint ep
  | CallDetachEndpoint => _ <- detach_endpoint ;; ret tt
  | CallPredictRealTime test_data accept => _ <- predict_real_time test_data accept ;; ret tt
  | CallPredict a => predict a
  | CallDownloadPredictResults job_name save_path => download_predict_results job_name save_path
  | CallGetBatchTransformJobStatus job_name =>
      _ <- get_batch_transform_job_status job_name ;; ret tt
  | CallCleanupDeployment => cleanup_deployment
  | CallSave silent => save silent
  end.

(** The object after a series of calls, whether they return or raise; each
    call comes with the world it runs in, so the outside world may change at
    will between two calls. *)
Fixpoint run_calls (s : CloudPredictor) (cs : list (Call * World)) : CloudPredictor :=
  match cs with
  | [] => s
  | (c, w) :: rest => run_calls (self_after (call c s w)) rest
  end.

(** The calls that cannot take an attached endpoint away: anything but
    [detach_endpoint] and [cleanup_deployment]; of [save], the calls that
    return. *)
Definition leaves_endpoint (c : Call) (s : CloudPredictor) (w : World) : Prop :=
  match c with
  | CallDetachEndpoint | CallCleanupDeployment => False
  | CallSave silent => result (save silent s w) = inr tt
  | _ => True
  end.

Fixpoint all_leave_endpoint (s : CloudPredictor) (cs : list (Call * World)) : Prop :=
  match cs with
  | [] => True
  | (c, w) :: rest =>
      leaves_endpoint c s w /\ all_leave_endpoint (self_after (call c s w)) rest
  end.

(** ** More vocabulary *)


Definition is_transform_run (ev : Event) : bool :=
  match ev with
  | EvRunTransform _ => true
  | _ => false
  end.

Definition is_upload (ev : Event) : bool :=
  match ev with
  | EvUpload _ _ _ => true
  | _ => false
  end.

(** The configuration document [fit] writes for the arguments [a]: the fit
    arguments without the two data entries. *)
Definition fit_config (a : FitArgs) (s : CloudPredictor) : Config :=
  {| cfg_predictor_type := fmt (predictor_type s);
     cfg_predictor_init_args := predictor_init_args a;
     cfg_predictor_fit_args :=
       dict_remove "tuning_data" (dict_remove "train_data" (predictor_fit_args a));
     cfg_leaderboard := leaderboard a |}.

(** The estimator keyword arguments once [fit] has dropped [output_path]. *)
Definition estimator_kwargs_of (a : FitArgs) : PyDict string :=
  dict_remove "output_path" (autogluon_sagemaker_estimator_kwargs a).

(** What [fit] asks of [SageMakerFitJob.run]. *)
Definition fit_request_ok (a : FitArgs) (s : CloudPredictor) (w : World)
    (req : TrainingRequest) : Prop :=
  tr_role req = role_arn s /\
  tr_region req = _region s /\
  tr_output_path req = cloud_output_path s ++ "/output" /\
  tr_job_name req = fit_job_name_of a w /\
  tr_base_job_name req = "autogluon-cloudpredictor-train" /\
  tr_wait req = fit_wait a /\
  tr_kwargs req = fit_kwargs a /\
  let script := TRAIN_SCRIPT_PATH (env w) in
  if truthy (dict_get script (estimator_kwargs_of a)) then
    tr_entry_point req = fmt (dict_get script (estimator_kwargs_of a)) /\
    tr_estimator_kwargs req = dict_remove script (estimator_kwargs_of a)
  else
    tr_entry_point req = script /\
    tr_estimator_kwargs req
    = dict_remove "source_dir" (dict_remove script (estimator_kwargs_of a)).

(** The effects [fit] can have. *)
Definition fit_event_ok (a : FitArgs) (s : CloudPredictor) (w : World) (ev : Event) : Prop :=
  match ev with
  | EvWarning _ | EvLog _ | EvCreateBucket _ _ => True
  | EvConvert _ dir _ output_type =>
      dir = path_join (local_output_path s) ["utils"] /\ output_type = "csv"
  | EvWriteConfig path config =>
      path = path_join (local_output_path s) ["utils"; "config.yaml"] /\
      config = fit_config a s
  | EvUpload _ (BucketName _) _ => True
  | EvRunTraining req => fit_request_ok a s w req
  | _ => False
  end.

(** Submissions of a training job. *)
Definition is_training_run (ev : Event) : bool :=
  match ev with
  | EvRunTraining _ => true
  | _ => false
  end.

(** What [predict] asks of [SageMakerBatchTransformationJob.run], given the
    folder [base] the results go under. *)
Definition predict_request_ok (a : PredictArgs) (s : CloudPredictor) (w : World)
    (base : string) (req : TransformRequest) : Prop :=
  let given := predict_kwargs a in
  let model_given := predict_model_kwargs a in
  bt_role req = role_arn s /\
  bt_region req = _region s /\
  bt_output_path req
  = (base ++ "/batch_transform" ++ "/" ++ sagemaker_timestamp (env w)) ++ "/results" /\
  bt_job_name req = predict_job_name_of a w /\
  bt_instance_count req = predict_instance_count a /\
  bt_instance_type req = predict_instance_type a /\
  bt_wait req = predict_wait a /\
  bt_transformer_kwargs req = transformer_kwargs a /\
  bt_split_type req
  = (if truthy (dict_get "split_type" given) then fmt (dict_get "split_type" given)
     else "Line") /\
  bt_content_type req
  = (if truthy (dict_get "content_type" given) then fmt (dict_get "content_type" given)
     else "text/csv") /\
  bt_kwargs req = dict_remove "content_type" (dict_remove "split_type" given) /\
  bt_entry_point req
  = (if truthy (dict_get "entry_point" model_given)
     then fmt (dict_get "entry_point" model_given)
     else fmt (_serve_script_path s)) /\
  bt_predictor_cls req
  = (if truthy (dict_get "predictor_cls" (dict_remove "entry_point" model_given))
     then fmt (dict_get "predictor_cls" (dict_remove "entry_point" model_given))
     else "AutoGluonBatchPredictor") /\
  bt_model_kwargs req = dict_remove "predictor_cls" (dict_remove "entry_point" model_given).

(** What [__init__] fixes for the life of the object. *)
Definition configuration (s : CloudPredictor) :=
  (cls s, verbosity s, role_arn s, local_output_path s, cloud_output_path s,
   predictor_type s, _train_script_path s, _serve_script_path s).

(** The world [w] with the collaborators failing as [f] says. *)
Definition with_faults (f : Event -> option string) (w : World) : World :=
  let e := env w in
  {| env :=
       {| TRAIN_SCRIPT_PATH := TRAIN_SCRIPT_PATH e;
          TABULAR_SERVE_SCRIPT_PATH := TABULAR_SERVE_SCRIPT_PATH e;
          TEXT_SERVE_SCRIPT_PATH := TEXT_SERVE_SCRIPT_PATH e;
          is_s3_url := is_s3_url e;
          s3_path_to_bucket_prefix := s3_path_to_bucket_prefix e;
          setup_outputdir := setup_outputdir e;
          abspath := abspath e;
          expanduser := expanduser e;
          utc_timestamp := utc_timestamp e;
          sagemaker_timestamp := sagemaker_timestamp e;
          unique_name_from_base := unique_name_from_base e;
          retrieve_latest_framework_version := retrieve_latest_framework_version e;
          retrieve_available_framework_versions := retrieve_available_framework_versions e;
          created_role_arn := created_role_arn e;
          default_region := default_region e;
          converted_path := converted_path e;
          uploaded_uri := uploaded_uri e;
          loaded_frame := loaded_frame e;
          endpoint_response := endpoint_response e;
          rename_file_with_uuid := rename_file_with_uuid e;
          job_outcome := job_outcome e;
          wait_failure := wait_failure e;
          job_output_of := job_output_of e;
          is_tarfile := is_tarfile e;
          bucket_exists := bucket_exists e;
          faults := f |};
     events := events w; job_status_of := job_status_of w;
     is_file := is_file w; is_dir := is_dir w; pickles := pickles w;
     session_counter := session_counter w |}.

(** The sample world on a read-only disk. *)
Definition sample_world_read_only : World :=
  with_faults (fun ev => match ev with
                         | EvMakedirs _ | EvPickle _ => Some "PermissionError"
                         | _ => None
                         end) sample_world.

(** The sample world after [deploy], on a read-only disk. *)
Definition sample_world3_read_only : World :=
  with_faults (fun ev => match ev with
                         | EvMakedirs _ | EvPickle _ => Some "PermissionError"
                         | _ => None
                         end) sample_world3.

(** [fit] arguments that lack the train data. *)
Definition sample_fit_args_no_data : FitArgs :=
  {| predictor_init_args := [("label", Str "class")];
     predictor_fit_args := [("time_limit", Str "60")];
     leaderboard := true; fit_framework_version := "latest";
     fit_job_name := None; fit_instance_type := "ml.m5.2xlarge";
     fit_instance_count := 1; fit_volume_size := 100; fit_wait := true;
     autogluon_sagemaker_estimator_kwargs := []; fit_kwargs := [] |}.

(** [predict] arguments that name an [output_path]. *)
Definition sample_predict_args_output_path : PredictArgs :=
  {| test_data := Frame sample_frame;
     predict_predictor_path := None;
     predict_framework_version := "latest";
     predict_job_name := None;
     predict_instance_type := "ml.m5.2xlarge";
     predict_instance_count := 1;
     predict_wait := true;
     predict_model_kwargs := [];
     transformer_kwargs := [];
     predict_kwargs := [("output_path", "s3://ag-bucket/elsewhere")] |}.
(** * Reasoning about methods *)

(** ** Which exceptions a computation can raise *)

Section RaisesOnly.

Variable Q : PyExc -> Prop.

Lemma raises_only_ret {A} (a : A) : raises_only Q (ret a).
Proof. intros s w e H. discriminate H. Qed.

Lemma raises_only_raise {A} (e : PyExc) : Q e -> raises_only Q (@raise A e).
Proof. intros HQ s w e' H. injection H as <-. exact HQ. Qed.

Lemma raises_only_bind {A B} (m : M A) (k : A -> M B) :
  raises_only Q m -> (forall a, raises_only Q (k a)) -> raises_only Q (bind m k).
Proof.
  intros Hm Hk s w e. unfold bind, result.
  destruct (m s w) as [[r s'] w'] eqn:E.
  destruct r as [e' | a]; cbn.
  - intros H. injection H as <-. apply (Hm s w). unfold result. now rewrite E.
  - intros H. apply (Hk a s' w'). exact H.
Qed.

Lemma raises_only_get_self : raises_only Q get_self.
Proof. intros s w e H. discriminate H. Qed.

Lemma raises_only_get_world : raises_only Q get_world.
Proof. intros s w e H. discriminate H. Qed.

Lemma raises_only_modify_self f : raises_only Q (modify_self f).
Proof. intros s w e H. discriminate H. Qed.

Lemma raises_only_modify_world f : raises_only Q (modify_world f).
Proof. intros s w e H. discriminate H. Qed.

Lemma raises_only_emit ev : raises_only Q (emit ev).
Proof. intros s w e H. discriminate H. Qed.

Lemma raises_only_assert cond msg :
  (cond = false -> Q (AssertionError msg)) -> raises_only Q (py_assert cond msg).
Proof.
  intros H. unfold py_assert. destruct cond.
  - apply raises_only_ret.
  - apply raises_only_raise. now apply H.
Qed.

Hypothesis Q_collaborator : forall what, Q (CollaboratorError what).

Lemma raises_only_external ev : raises_only Q (external ev).
Proof.
  intros s w e. unfold external, result.
  destruct (faults (env w) ev); cbn; intros H; [| discriminate H].
  injection H as <-. apply Q_collaborator.
Qed.

Lemma raises_only_helper {A} (r : string + A) : raises_only Q (helper r).
Proof.
  destruct r; cbn.
  - apply raises_only_raise, Q_collaborator.
  - apply raises_only_ret.
Qed.

Lemma raises_only_handle_session : raises_only Q handle_session.
Proof. intros s w e H. discriminate H. Qed.

Lemma raises_only_Session_new : raises_only Q Session_new.
Proof.
  apply raises_only_bind; [apply raises_only_external | intros _].
  apply raises_only_handle_session.
Qed.

End RaisesOnly.

(** Walks through the structure of a method body. *)
Ltac raises_step :=
  match goal with
  | |- raises_only _ (bind _ _) => apply raises_only_bind; [| intros ?]
  | |- raises_only _ (ret _) => apply raises_only_ret
  | |- raises_only _ get_self => apply raises_only_get_self
  | |- raises_only _ get_world => apply raises_only_get_world
  | |- raises_only _ (modify_self _) => apply raises_only_modify_self
  | |- raises_only _ (modify_world _) => apply raises_only_modify_world
  | |- raises_only _ (emit _) => apply raises_only_emit
  | |- raises_only _ Session_new => apply raises_only_Session_new
  | |- raises_only _ handle_session => apply raises_only_handle_session
  | |- raises_only _ (external _) => apply raises_only_external
  | |- raises_only _ (helper _) => apply raises_only_helper
  | |- raises_only _ (py_assert _ _) => apply raises_only_assert; intros ?
  | |- raises_only _ (raise _) => apply raises_only_raise
  | |- raises_only _ (match ?x with _ => _ end) => destruct x
  | |- raises_only _ (let '(_, _) := ?x in _) => destruct x
  end.

Create HintDb methods.

#[global] Hint Unfold _parse_framework_version _construct_config _setup_bucket
  _prepare_data upload_data is_local _upload_fit_artifact the_session
  SageMakerFitJob_run call_kwargs wait_for download_s3_file _download_predictor
  _upload_predictor : methods.

Ltac raises_auto :=
  repeat (first [ raises_step | progress autounfold with methods ]).

(** ** Unfolding the first statements of a body *)

Lemma bind_get_self {A} (k : CloudPredictor -> M A) s w :
  bind get_self k s w = k s s w.
Proof. reflexivity. Qed.

Lemma bind_get_world {A} (k : World -> M A) s w :
  bind get_world k s w = k w s w.
Proof. reflexivity. Qed.

Lemma bind_assert_true {A} msg (k : unit -> M A) s w :
  bind (py_assert true msg) k s w = k tt s w.
Proof. reflexivity. Qed.

Lemma bind_assert_false {A} msg (k : unit -> M A) s w :
  bind (py_assert false msg) k s w = (inl (AssertionError msg), s, w).
Proof. reflexivity. Qed.

(** ** Strings *)

Lemma last_char_app (x y : string) :
  y <> EmptyString -> last_char (x ++ y) = last_char y.
Proof.
  intros Hy. induction x as [| c x IH]; [reflexivity |].
  cbn [append last_char]. rewrite IH.
  destruct (x ++ y) eqn:E; [| reflexivity].
  destruct x; cbn in E; [contradiction | discriminate].
Qed.

Lemma append_nonempty_r (x y : string) : y <> EmptyString -> x ++ y <> EmptyString.
Proof. intros Hy. destruct x; cbn; [exact Hy | discriminate]. Qed.

Lemma py_repr_list_last (l : list string) : last_char (py_repr_list l) = Some "]"%char.
Proof.
  unfold py_repr_list. rewrite last_char_app.
  - rewrite last_char_app; [reflexivity | discriminate].
  - apply append_nonempty_r. discriminate.
Qed.

Lemma framework_msg_not_already_fit (v : string) (l : list string) :
  v ++ " is not a valid option. Options are: " ++ py_repr_list l <> already_fit_msg.
Proof.
  intros H. apply (f_equal last_char) in H.
  rewrite last_char_app in H.
  - rewrite last_char_app in H.
    + rewrite py_repr_list_last in H. discriminate H.
    + intros E. apply (f_equal last_char) in E. rewrite py_repr_list_last in E. discriminate E.
  - apply append_nonempty_r.
    intros E. apply (f_equal last_char) in E. rewrite py_repr_list_last in E. discriminate E.
Qed.

(** ** Outcomes of a computation *)

Lemma wp_ret {A} (a : A) s w Q : Q (inr a) s w -> wp (ret a) s w Q.
Proof. exact (fun H => H). Qed.

Lemma wp_raise {A} (e : PyExc) s w (Q : PyExc + A -> _) :
  Q (inl e) s w -> wp (raise e) s w Q.
Proof. exact (fun H => H). Qed.

Lemma wp_bind {A B} (m : M A) (k : A -> M B) s w Q :
  wp m s w (fun r s' w' =>
              match r with
              | inl e => Q (inl e) s' w'
              | inr a => wp (k a) s' w' Q
              end) ->
  wp (bind m k) s w Q.
Proof.
  unfold wp, bind, result, self_after, world_after.
  destruct (m s w) as [[[e | a] s'] w']; cbn; exact (fun H => H).
Qed.

Lemma wp_get_self s w Q : Q (inr s) s w -> wp get_self s w Q.
Proof. exact (fun H => H). Qed.

Lemma wp_get_world s w Q : Q (inr w) s w -> wp get_world s w Q.
Proof. exact (fun H => H). Qed.

Lemma wp_modify_self f s w Q : Q (inr tt) (f s) w -> wp (modify_self f) s w Q.
Proof. exact (fun H => H). Qed.

Lemma wp_modify_world f s w Q : Q (inr tt) s (f w) -> wp (modify_world f) s w Q.
Proof. exact (fun H => H). Qed.

Lemma wp_emit ev s w Q : Q (inr tt) s (add_event ev w) -> wp (emit ev) s w Q.
Proof. exact (fun H => H). Qed.

Lemma wp_assert cond msg s w Q :
  (cond = false -> Q (inl (AssertionError msg)) s w) ->
  (cond = true -> Q (inr tt) s w) ->
  wp (py_assert cond msg) s w Q.
Proof. destruct cond; intros H1 H2; [apply H2 | apply H1]; reflexivity. Qed.

Lemma wp_external ev s w Q :
  (forall what, faults (env w) ev = Some what -> Q (inl (CollaboratorError what)) s w) ->
  (faults (env w) ev = None -> Q (inr tt) s (add_event ev w)) ->
  wp (external ev) s w Q.
Proof.
  unfold wp, external, result, self_after, world_after.
  destruct (faults (env w) ev); cbn; intros H1 H2; [apply H1 | apply H2]; reflexivity.
Qed.

Lemma wp_helper {A} (r : string + A) s w Q :
  (forall what, r = inl what -> Q (inl (CollaboratorError what)) s w) ->
  (forall a, r = inr a -> Q (inr a) s w) ->
  wp (helper r) s w Q.
Proof. destruct r; intros H1 H2; [apply H1 | apply H2]; reflexivity. Qed.

Lemma wp_handle_session s w Q :
  Q (inr {| session_id := session_counter w; boto_region_name := default_region (env w) |})
    s (bump_sessions w) ->
  wp handle_session s w Q.
Proof. exact (fun H => H). Qed.

Lemma wp_Session_new s w Q :
  (forall what, faults (env w) EvSession = Some what ->
                Q (inl (CollaboratorError what)) s w) ->
  (faults (env w) EvSession = None ->
   Q (inr {| session_id := session_counter w; boto_region_name := default_region (env w) |})
     s (bump_sessions (add_event EvSession w))) ->
  wp Session_new s w Q.
Proof.
  unfold wp, Session_new, handle_session, bind, external, get_world, modify_world, ret,
    result, self_after, world_after.
  destruct (faults (env w) EvSession); cbn; intros H1 H2; [apply H1 | apply H2]; reflexivity.
Qed.

Lemma wp_wait_for wait name s w Q :
  (forall what, wait = true -> wait_failure (env w) name = Some what ->
                Q (inl (CollaboratorError what)) s w) ->
  Q (inr tt) s w ->
  wp (wait_for wait name) s w Q.
Proof.
  unfold wp, wait_for. destruct wait; [| exact (fun _ H => H)].
  unfold bind, get_world, helper, result, self_after, world_after. cbn.
  destruct (wait_failure (env w) name) as [what |]; cbn; intros H1 H2;
    [now apply H1 | exact H2].
Qed.

Lemma wp_elim {A} (m : M A) s w Q :
  wp m s w Q -> Q (result (m s w)) (self_after (m s w)) (world_after (m s w)).
Proof. exact (fun H => H). Qed.

Lemma wp_intro {A} (m : M A) s w (Q : PyExc + A -> _) :
  Q (result (m s w)) (self_after (m s w)) (world_after (m s w)) -> wp m s w Q.
Proof. exact (fun H => H). Qed.

#[global] Hint Unfold fit attach_job get_fit_job_status download_trained_predictor
  _get_local_predictor_cls to_local_predictor deploy attach_endpoint
  detach_endpoint predict_real_time predict download_predict_results
  get_batch_transform_job_status _delete_endpoint _delete_endpoint_model
  cleanup_deployment save_pkl_save save str_setattr _load_jobs load_restore
  SageMakerBatchTransformationJob_run SageMakerFitJob_attach : methods.

Ltac wp_step :=
  lazymatch goal with
  | |- wp (bind _ _) _ _ _ => apply wp_bind
  | |- wp (ret _) _ _ _ => apply wp_ret
  | |- wp (raise _) _ _ _ => apply wp_raise
  | |- wp get_self _ _ _ => apply wp_get_self
  | |- wp get_world _ _ _ => apply wp_get_world
  | |- wp (modify_self _) _ _ _ => apply wp_modify_self
  | |- wp (modify_world _) _ _ _ => apply wp_modify_world
  | |- wp (emit _) _ _ _ => apply wp_emit
  | |- wp Session_new _ _ _ => apply wp_Session_new; [intros ? ? | intros ?]
  | |- wp handle_session _ _ _ => apply wp_handle_session
  | |- wp (wait_for _ _) _ _ _ => apply wp_wait_for; [intros ? ? ? |]
  | |- wp (py_assert _ _) _ _ _ => apply wp_assert; intros ?
  | |- wp (external _) _ _ _ => apply wp_external; [intros ? ? | intros ?]
  | |- wp (helper _) _ _ _ => apply wp_helper; intros ? ?
  | |- wp (match ?x with _ => _ end) _ _ _ => destruct x eqn:?
  | |- wp (let '(_, _) := ?x in _) _ _ _ => destruct x eqn:?
  end; cbv beta iota.

Ltac wp_run := repeat wp_step.

(** ** Computations that leave the object alone *)

Lemma evolves_refl P w : evolves P w w.
Proof.
  repeat split. exists []. split; [now rewrite app_nil_r | constructor].
Qed.

Lemma evolves_trans P w1 w2 w3 : evolves P w1 w2 -> evolves P w2 w3 -> evolves P w1 w3.
Proof.
  intros (E1 & J1 & K1 & n1 & V1 & F1) (E2 & J2 & K2 & n2 & V2 & F2).
  repeat split; try congruence.
  exists (n1 ++ n2)%list. split.
  - rewrite V2, V1, app_assoc. reflexivity.
  - apply Forall_app. now split.
Qed.

Lemma evolves_add_event (P : Event -> Prop) ev w : P ev -> evolves P w (add_event ev w).
Proof.
  intros H. repeat split. exists [ev]. split; [reflexivity | now constructor].
Qed.

Lemma evolves_add_file P path w : evolves P w (add_file path w).
Proof. repeat split. exists []. split; [cbn; now rewrite app_nil_r | constructor]. Qed.

Lemma evolves_add_dir P path w : evolves P w (add_dir path w).
Proof. repeat split. exists []. split; [cbn; now rewrite app_nil_r | constructor]. Qed.

Lemma evolves_bump_sessions P w : evolves P w (bump_sessions w).
Proof. repeat split. exists []. split; [cbn; now rewrite app_nil_r | constructor]. Qed.

Lemma evolves_weaken (P P' : Event -> Prop) w w' :
  (forall ev, P ev -> P' ev) -> evolves P w w' -> evolves P' w w'.
Proof.
  intros HP (E & J & K & n & V & F). repeat split; trivial.
  exists n. split; [exact V |]. eapply Forall_impl; eauto.
Qed.

Section Quiet.

Variable P : Event -> Prop.

Lemma quiet_ret {A} (a : A) : quiet P (ret a).
Proof. intros s w. split; [reflexivity | apply evolves_refl]. Qed.

Lemma quiet_raise {A} (e : PyExc) : quiet P (@raise A e).
Proof. intros s w. split; [reflexivity | apply evolves_refl]. Qed.

Lemma quiet_bind {A B} (m : M A) (k : A -> M B) :
  quiet P m -> (forall a, quiet P (k a)) -> quiet P (bind m k).
Proof.
  intros Hm Hk s w. specialize (Hm s w).
  unfold bind, self_after, world_after in *.
  destruct (m s w) as [[[e | a] s'] w']; cbn in *; [exact Hm |].
  destruct Hm as [-> Hw]. specialize (Hk a s w').
  unfold self_after, world_after in Hk.
  destruct (k a s w') as [[r s''] w'']; cbn in *.
  destruct Hk as [-> Hw']. split; [reflexivity |]. eapply evolves_trans; eauto.
Qed.

Lemma quiet_get_self : quiet P get_self.
Proof. intros s w. split; [reflexivity | apply evolves_refl]. Qed.

Lemma quiet_get_world : quiet P get_world.
Proof. intros s w. split; [reflexivity | apply evolves_refl]. Qed.

Lemma quiet_assert cond msg : quiet P (py_assert cond msg).
Proof. destruct cond; [apply quiet_ret | apply quiet_raise]. Qed.

Lemma quiet_helper {A} (r : string + A) : quiet P (helper r).
Proof. destruct r; [apply quiet_raise | apply quiet_ret]. Qed.

Lemma quiet_emit ev : P ev -> quiet P (emit ev).
Proof. intros H s w. split; [reflexivity | now apply evolves_add_event]. Qed.

Lemma quiet_external ev : P ev -> quiet P (external ev).
Proof.
  intros H s w. unfold external, self_after, world_after.
  destruct (faults (env w) ev); cbn.
  - split; [reflexivity | apply evolves_refl].
  - split; [reflexivity | now apply evolves_add_event].
Qed.

Lemma quiet_add_file path : quiet P (modify_world (add_file path)).
Proof. intros s w. split; [reflexivity | apply evolves_add_file]. Qed.

Lemma quiet_add_dir path : quiet P (modify_world (add_dir path)).
Proof. intros s w. split; [reflexivity | apply evolves_add_dir]. Qed.

Lemma quiet_handle_session : quiet P handle_session.
Proof. intros s w. split; [reflexivity | apply evolves_bump_sessions]. Qed.

Lemma quiet_Session_new : P EvSession -> quiet P Session_new.
Proof.
  intros H. apply quiet_bind; [now apply quiet_external | intros _].
  apply quiet_handle_session.
Qed.

End Quiet.

Lemma wp_quiet {A} P (m : M A) s w (Q : PyExc + A -> _) :
  quiet P m ->
  (forall r w', evolves P w w' -> Q r s w') ->
  wp m s w Q.
Proof.
  intros Hq H. unfold wp. destruct (Hq s w) as [E Hw].
  rewrite E. apply H. exact Hw.
Qed.

Ltac quiet_step :=
  lazymatch goal with
  | |- quiet _ (bind _ _) => apply quiet_bind; [| intros ?]
  | |- quiet _ (ret _) => apply quiet_ret
  | |- quiet _ (raise _) => apply quiet_raise
  | |- quiet _ get_self => apply quiet_get_self
  | |- quiet _ get_world => apply quiet_get_world
  | |- quiet _ (py_assert _ _) => apply quiet_assert
  | |- quiet _ (helper _) => apply quiet_helper
  | |- quiet _ (emit _) => apply quiet_emit
  | |- quiet _ (external _) => apply quiet_external
  | |- quiet _ (modify_world (add_file _)) => apply quiet_add_file
  | |- quiet _ (modify_world (add_dir _)) => apply quiet_add_dir
  | |- quiet _ Session_new => apply quiet_Session_new
  | |- quiet _ handle_session => apply quiet_handle_session
  | |- quiet _ (match ?x with _ => _ end) => destruct x
  | |- quiet _ (let '(_, _) := ?x in _) => destruct x
  | |- quiet _ _ => progress autounfold with methods
  end.

Ltac quiet_auto := repeat quiet_step.

(** Skips a quiet statement at the head of a body. *)
Ltac wp_skip P :=
  apply wp_bind; apply (wp_quiet P);
  [ solve [quiet_auto; first [exact I | reflexivity]]
  | intros [? | ?] ? ? ].

Ltac merge_evolves :=
  repeat match goal with
         | H1 : evolves ?P ?a ?b, H2 : evolves ?P ?b ?c |- _ =>
             pose proof (evolves_trans P a b c H1 H2); clear H1 H2
         end.

Ltac wp_top P :=
  lazymatch goal with
  | |- wp (bind get_self _) _ _ _ => apply wp_bind; apply wp_get_self
  | |- wp (bind get_world _) _ _ _ => apply wp_bind; apply wp_get_world
  | |- wp (bind (py_assert _ _) _) _ _ _ => apply wp_bind; apply wp_assert; intros ?
  | |- wp (bind (_construct_config _ _ _) _) _ _ _ => fail
  | |- wp (bind _ _) _ _ _ => wp_skip P
  | |- wp (let '(_, _) := ?x in _) _ _ _ => destruct x eqn:?
  | |- wp (match ?x with _ => _ end) _ _ _ => destruct x eqn:?
  end; cbv beta iota; merge_evolves.
(** ** fit: one fit per instance *)

Lemma fit_completed (a : FitArgs) (s : CloudPredictor) (w : World) :
  is_fit s w = true ->
  fit a s w = (inl (AssertionError already_fit_msg), s, w).
Proof.
  intros H. unfold is_fit in H. unfold fit.
  rewrite bind_get_self, bind_get_world, H. reflexivity.
Qed.

Lemma fit_not_completed (a : FitArgs) (s : CloudPredictor) (w : World) :
  is_fit s w = false ->
  result (fit a s w) <> inl (AssertionError already_fit_msg).
Proof.
  intros H. unfold is_fit in H. unfold fit.
  rewrite bind_get_self, bind_get_world, H. cbn [negb].
  rewrite bind_assert_true.
  match goal with
  | |- result (?m s w) <> _ =>
      assert (Hr : raises_only (fun e => e <> AssertionError already_fit_msg) m)
  end.
  { raises_auto; try discriminate.
    intros E. injection E as E. revert E. apply framework_msg_not_already_fit. }
  intros E. exact (Hr s w _ E eq_refl).
Qed.

(** C1: [fit] is rejected with the "already fit" assertion exactly when the
    instance's fit job is in the Completed state; in particular a further
    call of [fit] on an instance whose job did not complete is not rejected,
    and one on an instance whose job completed is. *)
Theorem fit_rejected_iff_completed (a : FitArgs) (s : CloudPredictor) (w : World) :
  result (fit a s w) = inl (AssertionError already_fit_msg) <-> is_fit s w = true.
Proof.
  split.
  - intros H. destruct (is_fit s w) eqn:E; [reflexivity |].
    exfalso. exact (fit_not_completed a s w E H).
  - intros H. rewrite (fit_completed a s w H). reflexivity.
Qed.


Ltac use_evolves :=
  repeat match goal with
         | H : evolves _ _ _ |- _ => destruct H as (? & ? & ? & ? & ? & ?)
         end.

(** What a call of [fit] that returns leaves behind: the handle carries the
    job's name, and the service reports the job as the run left it. *)
Lemma fit_returns (a : FitArgs) (s : CloudPredictor) (w : World) :
  result (fit a s w) = inr tt ->
  _fit_job (self_after (fit a s w)) =
    {| job_session := job_session (_fit_job s); job_name := Some (fit_job_name_of a w) |} /\
  env (world_after (fit a s w)) = env w /\
  job_status_of (world_after (fit a s w)) (fit_job_name_of a w) =
    (if fit_wait a then job_outcome (env w) (fit_job_name_of a w) else InProgress).
Proof.
  apply (wp_elim (fit a) s w
           (fun r s' w' => r = inr tt ->
              _fit_job s' = {| job_session := job_session (_fit_job s);
                               job_name := Some (fit_job_name_of a w) |} /\
              env w' = env w /\
              job_status_of w' (fit_job_name_of a w) =
                (if fit_wait a then job_outcome (env w) (fit_job_name_of a w) else InProgress))).
  unfold fit.
  repeat (first [wp_top (fun _ : Event => True) | wp_skip (fun _ : Event => True)]);
    merge_evolves; try discriminate.
  unfold SageMakerFitJob_run, call_kwargs. wp_run; try discriminate.
  intros _. use_evolves. cbn. unfold fit_job_name_of, status_after_run. cbn.
  rewrite String.eqb_refl.
  repeat split; try congruence.
  match goal with H : env ?x = env w |- context [env ?x] => now rewrite H end.
Qed.

(** A blocking [fit] whose job completed: the next call is rejected. *)
Lemma fit_twice_rejected (a a' : FitArgs) (s : CloudPredictor) (w : World) :
  result (fit a s w) = inr tt ->
  fit_wait a = true ->
  job_outcome (env w) (fit_job_name_of a w) = Completed ->
  result (fit a' (self_after (fit a s w)) (world_after (fit a s w)))
  = inl (AssertionError already_fit_msg).
Proof.
  intros Hr Hw Hc. destruct (fit_returns a s w Hr) as (Hj & _ & Hs).
  rewrite fit_completed; [reflexivity |].
  unfold is_fit, job_completed. rewrite Hj. cbn [job_name]. rewrite Hs, Hw, Hc. reflexivity.
Qed.

(** A blocking [fit] whose job ended in another state (it failed, say): the
    next call is not rejected. *)
Lemma fit_again_after_failure (a a' : FitArgs) (s : CloudPredictor) (w : World) :
  result (fit a s w) = inr tt ->
  fit_wait a = true ->
  job_outcome (env w) (fit_job_name_of a w) <> Completed ->
  result (fit a' (self_after (fit a s w)) (world_after (fit a s w)))
  <> inl (AssertionError already_fit_msg).
Proof.
  intros Hr Hw Hc. destruct (fit_returns a s w Hr) as (Hj & _ & Hs).
  apply fit_not_completed.
  unfold is_fit, job_completed. rewrite Hj. cbn [job_name]. rewrite Hs, Hw.
  destruct (job_outcome (env w) (fit_job_name_of a w)); try reflexivity.
  now elim Hc.
Qed.

(** ** Endpoint: at most one attached *)

Lemma is_some_not_None {A} (o : option A) : o <> None -> is_some o = true.
Proof. destruct o; [reflexivity | intros H; now elim H]. Qed.

Lemma deploy_attached (a : DeployArgs) (s : CloudPredictor) (w : World) :
  endpoint s <> None ->
  deploy a s w = (inl (AssertionError endpoint_attached_msg), s, w).
Proof.
  intros H. unfold deploy.
  rewrite bind_get_self, bind_get_world, (is_some_not_None _ H). reflexivity.
Qed.

Lemma attach_endpoint_attached (ep : EndpointArg) (s : CloudPredictor) (w : World) :
  endpoint s <> None ->
  attach_endpoint ep s w = (inl (AssertionError endpoint_attached_msg), s, w).
Proof.
  intros H. unfold attach_endpoint.
  rewrite bind_get_self, (is_some_not_None _ H). reflexivity.
Qed.

(** A call of [deploy] that returns has stored an endpoint handle. *)
Lemma deploy_returns (a : DeployArgs) (s : CloudPredictor) (w : World) :
  result (deploy a s w) = inr tt -> endpoint (self_after (deploy a s w)) <> None.
Proof.
  apply (wp_elim (deploy a) s w (fun r s' w' => r = inr tt -> endpoint s' <> None)).
  unfold deploy. repeat wp_top (fun _ : Event => True); try discriminate.
Qed.

(** While an endpoint is attached, [deploy] and [attach_endpoint] both fail
    with the "already attached" assertion and change nothing; in
    particular, right after a call of [deploy] that returned, the next call
    of [deploy] is rejected, whatever the service did in the meantime. *)
Lemma at_most_one_endpoint (s : CloudPredictor) (w : World) :
  (endpoint s <> None ->
   (forall a, deploy a s w = (inl (AssertionError endpoint_attached_msg), s, w)) /\
   (forall ep, attach_endpoint ep s w = (inl (AssertionError endpoint_attached_msg), s, w))) /\
  (forall a, result (deploy a s w) = inr tt ->
   forall a' w',
     deploy a' (self_after (deploy a s w)) w'
     = (inl (AssertionError endpoint_attached_msg), self_after (deploy a s w), w')).
Proof.
  split.
  - intros H. split; intros; [now apply deploy_attached | now apply attach_endpoint_attached].
  - intros a Hr a' w'. apply deploy_attached. now apply deploy_returns.
Qed.

(** ** download_trained_predictor: no check for a completed fit *)

Lemma get_output_path_unfit (s : CloudPredictor) (w : World) :
  is_fit s w = false -> get_output_path (_fit_job s) w = None.
Proof.
  unfold is_fit, job_completed, get_output_path.
  destruct (job_name (_fit_job s)); [| reflexivity].
  intros ->. reflexivity.
Qed.

(** When the fit job never completed, the method hands [None] to
    [_download_predictor] as the remote path. *)
Lemma download_trained_predictor_unfit (save_path : option string)
    (s : CloudPredictor) (w : World) :
  is_fit s w = false ->
  download_trained_predictor save_path s w
  = _download_predictor None
      (if truthy save_path then fmt save_path else local_output_path s) s w.
Proof.
  intros H. unfold download_trained_predictor.
  rewrite bind_get_self, bind_get_world, (get_output_path_unfit s w H). reflexivity.
Qed.

(** The sibling paths do check: [deploy] without a predictor path on an
    instance whose fit never completed fails with the "no model" assertion
    before anything else happens. *)
Lemma deploy_unfit (a : DeployArgs) (s : CloudPredictor) (w : World) :
  endpoint s = None ->
  truthy (deploy_predictor_path a) = false ->
  is_fit s w = false ->
  deploy a s w = (inl (AssertionError no_model_msg), s, w).
Proof.
  intros He Hp Hf. unfold deploy.
  rewrite bind_get_self, bind_get_world, He. cbn [is_some negb].
  rewrite bind_assert_true, Hp, (get_output_path_unfit s w Hf). reflexivity.
Qed.

Lemma predict_unfit (a : PredictArgs) (s : CloudPredictor) (w : World) :
  truthy (predict_predictor_path a) = false ->
  is_fit s w = false ->
  predict a s w = (inl (AssertionError no_model_msg), s, w).
Proof.
  intros Hp Hf. unfold predict.
  rewrite bind_get_self, bind_get_world, Hp, (get_output_path_unfit s w Hf). reflexivity.
Qed.

(** C4: [download_trained_predictor] contains no check that the fit
    completed.  Whatever exception leaves it was raised inside a collaborator
    (the S3 helpers, the download, the unpacking); it never raises an error
    of its own saying that no trained model exists. *)
Theorem download_trained_predictor_never_checks (save_path : option string)
    (s : CloudPredictor) (w : World) (e : PyExc) :
  result (download_trained_predictor save_path s w) = inl e ->
  exists what, e = CollaboratorError what.
Proof.
  revert s w e.
  change (raises_only (fun e => exists what, e = CollaboratorError what)
            (download_trained_predictor save_path)).
  unfold download_trained_predictor. raises_auto; eauto.
Qed.

(** ** predict_real_time *)

Lemma accept_msg_differs : no_endpoint_msg <> invalid_accept_msg.
Proof. intros H. vm_compute in H. discriminate H. Qed.

Lemma existsb_eqb_In (x : string) (l : list string) :
  existsb (String.eqb x) l = true <-> In x l.
Proof.
  rewrite existsb_exists. split.
  - intros (y & Hy & E). apply String.eqb_eq in E. now subst.
  - intros H. exists x. split; [exact H | apply String.eqb_refl].
Qed.

Lemma predict_real_time_bad_accept (test_data : PyData) (accept : string)
    (s : CloudPredictor) (w : World) :
  endpoint s <> None ->
  ~ In accept VALID_ACCEPT ->
  predict_real_time test_data accept s w = (inl (AssertionError invalid_accept_msg), s, w).
Proof.
  intros He Ha. unfold predict_real_time.
  rewrite bind_get_self, (is_some_not_None _ He), bind_assert_true.
  destruct (existsb (String.eqb accept) VALID_ACCEPT) eqn:E; [| reflexivity].
  apply existsb_eqb_In in E. contradiction.
Qed.

Lemma predict_real_time_good_accept (test_data : PyData) (accept : string)
    (s : CloudPredictor) (w : World) :
  endpoint s <> None ->
  In accept VALID_ACCEPT ->
  result (predict_real_time test_data accept s w) <> inl (AssertionError invalid_accept_msg).
Proof.
  intros He Ha. unfold predict_real_time.
  rewrite bind_get_self, (is_some_not_None _ He), bind_assert_true.
  apply existsb_eqb_In in Ha. rewrite Ha, bind_assert_true.
  match goal with
  | |- result (?m s w) <> _ =>
      assert (Hr : raises_only (fun e => e <> AssertionError invalid_accept_msg) m)
  end.
  { raises_auto; discriminate. }
  intros E. exact (Hr s w _ E eq_refl).
Qed.

(** C5: with an endpoint attached, [predict_real_time] fails with the
    "invalid accept type" assertion, before doing anything, for every accept
    string outside the allow-list, and never fails with it for one inside. *)
Theorem predict_real_time_accept (test_data : PyData) (accept : string)
    (s : CloudPredictor) (w : World) :
  endpoint s <> None ->
  (~ In accept VALID_ACCEPT ->
   predict_real_time test_data accept s w = (inl (AssertionError invalid_accept_msg), s, w)) /\
  (In accept VALID_ACCEPT ->
   result (predict_real_time test_data accept s w) <> inl (AssertionError invalid_accept_msg)).
Proof.
  intros He. split; intros Ha.
  - now apply predict_real_time_bad_accept.
  - now apply predict_real_time_good_accept.
Qed.

(** The call of the endpoint that ends [predict_real_time]. *)
Lemma predict_real_time_large (df : DataFrame) (accept : string)
    (s : CloudPredictor) (w : World) (e : AutoGluonRealtimePredictor) :
  endpoint s = Some e ->
  In accept VALID_ACCEPT ->
  (5000000 < df_memory_usage df)%N ->
  predict_real_time (Frame df) accept s w
  = let w' := add_event (EvWarning large_data_hint)
                (add_event (EvWarningLargeData (df_memory_usage df)) w) in
    match faults (env w) (EvInvokeEndpoint (endpoint_name_of e) df accept) with
    | Some what => (inl (CollaboratorError what), s, w')
    | None =>
        (inr (endpoint_response (env w) (endpoint_name_of e) df accept), s,
         add_event (EvInvokeEndpoint (endpoint_name_of e) df accept) w')
    end.
Proof.
  intros He Ha Hm. unfold predict_real_time.
  rewrite bind_get_self, He. cbn [is_some]. rewrite bind_assert_true.
  apply existsb_eqb_In in Ha. rewrite Ha, bind_assert_true.
  apply N.ltb_lt in Hm.
  unfold bind at 1. cbn [ret].
  unfold bind at 1. cbn [ret].
  unfold bind at 1. unfold exceeds_5e6. rewrite Hm.
  unfold endpoint_name. rewrite He. cbn [fmt].
  unfold bind, emit, modify_world, external, get_world, ret. cbn.
  destruct (faults (env w) (EvInvokeEndpoint (endpoint_name_of e) df accept)); reflexivity.
Qed.

(** C6: with an endpoint attached and an allowed accept type, a frame of
    more than 5 MB (5e6 bytes) makes [predict_real_time] log its two
    warnings and then call the endpoint all the same: the result is the
    endpoint's answer, and the only failure left is one of the endpoint call
    itself. *)
Theorem predict_real_time_large_frame (df : DataFrame) (accept : string)
    (s : CloudPredictor) (w : World) (e : AutoGluonRealtimePredictor) :
  endpoint s = Some e ->
  In accept VALID_ACCEPT ->
  (5000000 < df_memory_usage df)%N ->
  let out := predict_real_time (Frame df) accept s w in
  let call := EvInvokeEndpoint (endpoint_name_of e) df accept in
  let warned :=
    (events w ++ [EvWarningLargeData (df_memory_usage df); EvWarning large_data_hint])%list in
  match faults (env w) call with
  | None =>
      result out = inr (endpoint_response (env w) (endpoint_name_of e) df accept) /\
      events (world_after out) = (warned ++ [call])%list
  | Some what =>
      result out = inl (CollaboratorError what) /\
      events (world_after out) = warned
  end.
Proof.
  intros He Ha Hm. cbv zeta.
  rewrite (predict_real_time_large df accept s w e He Ha Hm). cbv zeta.
  destruct (faults (env w) (EvInvokeEndpoint (endpoint_name_of e) df accept)); cbn.
  - split; [reflexivity |]. now rewrite <- app_assoc.
  - split; [reflexivity |]. now rewrite <- !app_assoc.
Qed.

(** ** Batch-transform jobs: registry and results *)

Lemma registry_last_put (name : string) (job : SageMakerJob) (d : MostRecentInsertedOrderedDict) :
  registry_last (registry_put name job d) = Some name.
Proof. unfold registry_last, registry_put. rewrite rev_app_distr. reflexivity. Qed.

Lemma dict_get_remove_same {V} (k : string) (d : PyDict V) : dict_get k (dict_remove k d) = None.
Proof.
  induction d as [| [k' v] d IH]; [reflexivity |]. cbn.
  destruct (String.eqb k k') eqn:E; [exact IH |]. cbn. now rewrite E.
Qed.

Lemma dict_get_app {V} (k : string) (d1 d2 : PyDict V) :
  dict_get k (d1 ++ d2)%list =
  match dict_get k d1 with Some v => Some v | None => dict_get k d2 end.
Proof.
  induction d1 as [| [k' v] d1 IH]; [reflexivity |]. cbn.
  destruct (String.eqb k k'); [reflexivity | exact IH].
Qed.

Lemma registry_get_put (name : string) (job : SageMakerJob) (d : MostRecentInsertedOrderedDict) :
  registry_get (Some name) (registry_put name job d) = Some job.
Proof.
  unfold registry_get, registry_put. rewrite dict_get_app, dict_get_remove_same.
  cbn. now rewrite String.eqb_refl.
Qed.



Lemma download_predict_results_no_job (job_name save_path : option string)
    (s : CloudPredictor) (w : World) :
  truthy job_name = false ->
  _batch_transform_jobs s = [] ->
  download_predict_results job_name save_path s w = (inl (AssertionError no_job_msg), s, w).
Proof.
  intros Hj Hr. unfold download_predict_results.
  rewrite bind_get_self, bind_get_world, Hj, Hr. reflexivity.
Qed.







(** ** fit: what is uploaded, and when *)

Lemma wp_conseq {A} (m : M A) s w (Q1 Q2 : PyExc + A -> CloudPredictor -> World -> Prop) :
  wp m s w Q1 -> (forall r s' w', Q1 r s' w' -> Q2 r s' w') -> wp m s w Q2.
Proof. unfold wp. intros H HQ. now apply HQ. Qed.

Lemma dict_get_remove_other {V} (k k' : string) (d : PyDict V) :
  String.eqb k k' = false -> dict_get k (dict_remove k' d) = dict_get k d.
Proof.
  intros Hk. induction d as [| [k0 v] d IH]; [reflexivity |]. cbn.
  destruct (String.eqb k' k0) eqn:E.
  - apply String.eqb_eq in E. subst k0. now rewrite Hk.
  - cbn. destruct (String.eqb k k0); [reflexivity | exact IH].
Qed.

Ltac trace_simpl :=
  cbn [events add_event env job_status_of set_job_status add_file add_dir
       bump_sessions add_pickle];
  rewrite <- ?app_assoc; cbn [app].

(** [_upload_fit_artifact] on a local train frame, with no tuning data or a
    local tuning frame. *)
Lemma upload_fit_artifact_frames (train : DataFrame) (tune : PyData) (config : string)
    (s : CloudPredictor) (w : World) :
  (tune = NoneVal \/ exists d, tune = Frame d) ->
  wp (_upload_fit_artifact (Frame train) tune config) s w
    (fun r s' w' =>
       s' = s /\ env w' = env w /\ job_status_of w' = job_status_of w /\
       forall v, r = inr v ->
         exists bucket prefix new,
           s3_path_to_bucket_prefix (env w) (Some (cloud_output_path s)) = inr (bucket, prefix) /\
           events w' = (events w ++ new)%list /\
           filter is_upload_or_run new
           = (EvUpload (converted_path (env w) (Frame train)
                          (path_join (local_output_path s) ["utils"]) "train" "csv")
                (BucketName bucket) (prefix ++ "/utils")
              :: match tune with
                 | NoneVal => []
                 | _ => [EvUpload (converted_path (env w) tune
                                     (path_join (local_output_path s) ["utils"]) "tune" "csv")
                           (BucketName bucket) (prefix ++ "/utils")]
                 end
              ++ [EvUpload config (BucketName bucket) (prefix ++ "/utils")])%list).
Proof.
  intros Ht. unfold _upload_fit_artifact, is_local, _prepare_data, upload_data, the_session.
  destruct Ht as [-> | [d ->]]; wp_run;
    (split; [reflexivity | split; [reflexivity | split; [reflexivity |]]]);
    intros v Hv; try discriminate Hv.
  all: cbn in *; try discriminate.
  all: do 3 eexists; split; [eassumption |]; split;
    [trace_simpl; reflexivity | reflexivity].
Qed.

Lemma filter_quiet (new : list Event) :
  Forall (fun ev => is_upload_or_run ev = false) new -> filter is_upload_or_run new = [].
Proof.
  induction 1 as [| ev new Hev _ IH]; [reflexivity |]. cbn. now rewrite Hev.
Qed.

Lemma new_events_app (w w' : World) (new : list Event) :
  events w' = (events w ++ new)%list -> new_events w w' = new.
Proof.
  intros H. unfold new_events. rewrite H, skipn_app, skipn_all, Nat.sub_diag. reflexivity.
Qed.

(** [_construct_config] returns the path of the document it wrote. *)
Lemma construct_config_spec (init_args fit_args : PyDict PyData) (lb : bool)
    (s : CloudPredictor) (w : World) :
  wp (_construct_config init_args fit_args lb) s w
    (fun r s' w' =>
       s' = s /\ evolves (fun ev => is_upload_or_run ev = false) w w' /\
       forall v, r = inr v ->
         v = path_join (local_output_path s) ["utils"; "config.yaml"]).
Proof.
  unfold _construct_config. wp_run.
  all: split; [reflexivity |]; split;
    [first [apply evolves_refl | now apply evolves_add_event] |].
  all: intros v Hv; congruence.
Qed.

(** A call of [fit] on local frames that returns has made exactly the
    staged uploads, in order, and submitted the job as its last effect. *)
Lemma fit_returns_staged (a : FitArgs) (s : CloudPredictor) (w : World)
    (train : DataFrame) :
  dict_get "train_data" (predictor_fit_args a) = Some (Frame train) ->
  (tuning_data_of a = NoneVal \/ exists d, tuning_data_of a = Frame d) ->
  result (fit a s w) = inr tt ->
  exists bucket prefix req,
    s3_path_to_bucket_prefix (env w) (Some (cloud_output_path s)) = inr (bucket, prefix) /\
    filter is_upload_or_run (new_events w (world_after (fit a s w)))
    = (staged_uploads (env w) s (Frame train) (tuning_data_of a) bucket prefix
       ++ [EvRunTraining req])%list /\
    last (new_events w (world_after (fit a s w))) (EvLog "") = EvRunTraining req.
Proof.
  intros Htrain Htune.
  apply (wp_elim (fit a) s w
           (fun r s' w' => r = inr tt ->
              exists bucket prefix req,
                s3_path_to_bucket_prefix (env w) (Some (cloud_output_path s))
                = inr (bucket, prefix) /\
                filter is_upload_or_run (new_events w w')
                = (staged_uploads (env w) s (Frame train) (tuning_data_of a) bucket prefix
                   ++ [EvRunTraining req])%list /\
                last (new_events w w') (EvLog "") = EvRunTraining req)).
  unfold fit.
  apply wp_bind, wp_get_self. apply wp_bind, wp_get_world.
  apply wp_bind, wp_assert; [discriminate | intros _].
  unfold dict_pop at 1 2. cbv beta iota zeta.
  rewrite Htrain.
  rewrite (dict_get_remove_other "tuning_data" "train_data" _ eq_refl).
  fold (tuning_data_of a).
  apply wp_bind, wp_ret.
  repeat wp_top (fun ev : Event => is_upload_or_run ev = false); try discriminate.
  apply wp_bind.
  eapply wp_conseq; [apply construct_config_spec |].
  intros r s' w1 (-> & Hcfg & Hv).
  destruct r as [e | config]; [discriminate |].
  rewrite (Hv _ eq_refl). clear Hv. merge_evolves.
  apply wp_bind.
  eapply wp_conseq; [apply (upload_fit_artifact_frames train _ _ _ _ Htune) |].
  intros r s' w2 (-> & Henv & _ & Hup).
  destruct r as [e | [[train_input tune_input] config_input]]; [discriminate |].
  destruct (Hup _ eq_refl) as (bucket & prefix & up & Hb & Hev & Hf).
  apply wp_bind, wp_get_self.
  unfold SageMakerFitJob_run, call_kwargs. wp_run; try discriminate.
  intros _.
  match goal with
  | H : evolves _ w ?w1 |- _ => destruct H as (E1 & _ & _ & pre & Hpre & Fpre)
  end.
  rewrite E1 in Hb.
  match goal with
  | |- context [new_events w ?wf] =>
      assert (Hn : exists req, new_events w wf = (pre ++ up ++ [EvRunTraining req])%list)
  end.
  { eexists. apply new_events_app. trace_simpl. rewrite Hev, Hpre.
    rewrite <- !app_assoc. reflexivity. }
  destruct Hn as (req & Hn). rewrite Hn.
  exists bucket, prefix, req. split; [exact Hb |]. split.
  - rewrite !filter_app, (filter_quiet _ Fpre), Hf. cbn [app filter is_upload_or_run].
    unfold staged_uploads. rewrite E1. cbn [app]. rewrite <- !app_assoc.
    reflexivity.
  - rewrite !app_assoc. apply last_last.
Qed.

(** [_upload_fit_artifact] on local frames, whatever its outcome: the
    uploads made so far are the first ones of the expected list. *)
Lemma upload_fit_artifact_prefix (train : DataFrame) (tune : PyData) (config : string)
    (s : CloudPredictor) (w : World) :
  (tune = NoneVal \/ exists d, tune = Frame d) ->
  wp (_upload_fit_artifact (Frame train) tune config) s w
    (fun r s' w' =>
       exists new,
         events w' = (events w ++ new)%list /\
         (filter is_upload_or_run new = [] \/
          exists bucket prefix rest,
            s3_path_to_bucket_prefix (env w) (Some (cloud_output_path s)) = inr (bucket, prefix) /\
            (EvUpload (converted_path (env w) (Frame train)
                         (path_join (local_output_path s) ["utils"]) "train" "csv")
               (BucketName bucket) (prefix ++ "/utils")
             :: match tune with
                | NoneVal => []
                | _ => [EvUpload (converted_path (env w) tune
                                    (path_join (local_output_path s) ["utils"]) "tune" "csv")
                          (BucketName bucket) (prefix ++ "/utils")]
                end
             ++ [EvUpload config (BucketName bucket) (prefix ++ "/utils")])%list
            = (filter is_upload_or_run new ++ rest)%list)).
Proof.
  intros Ht. unfold _upload_fit_artifact, is_local, _prepare_data, upload_data, the_session.
  destruct Ht as [-> | [d ->]]; wp_run.
  all: eexists; (split; [trace_simpl; first [reflexivity | symmetry; apply app_nil_r] |]).
  all: cbn [filter is_upload_or_run app].
  all: first [ left; reflexivity
             | right; do 3 eexists; split; [eassumption | reflexivity] ].
Qed.

(** Whatever the outcome of [fit] on local frames, nothing is uploaded twice
    or out of order, and no job is submitted before the configuration
    document is uploaded: either the uploads made are the first entries of
    the list "train, tune if any, configuration" and no job was submitted,
    or all of them were made and the submission followed. *)
Lemma fit_effects_in_order (a : FitArgs) (s : CloudPredictor) (w : World)
    (train : DataFrame) :
  dict_get "train_data" (predictor_fit_args a) = Some (Frame train) ->
  (tuning_data_of a = NoneVal \/ exists d, tuning_data_of a = Frame d) ->
  let done := filter is_upload_or_run (new_events w (world_after (fit a s w))) in
  done = [] \/
  exists bucket prefix,
    s3_path_to_bucket_prefix (env w) (Some (cloud_output_path s)) = inr (bucket, prefix) /\
    let staged := staged_uploads (env w) s (Frame train) (tuning_data_of a) bucket prefix in
    (exists rest, staged = (done ++ rest)%list) \/
    (exists req, done = (staged ++ [EvRunTraining req])%list).
Proof.
  intros Htrain Htune. cbv zeta.
  apply (wp_elim (fit a) s w
           (fun r s' w' =>
              filter is_upload_or_run (new_events w w') = [] \/
              exists bucket prefix,
                s3_path_to_bucket_prefix (env w) (Some (cloud_output_path s))
                = inr (bucket, prefix) /\
                ((exists rest,
                    staged_uploads (env w) s (Frame train) (tuning_data_of a) bucket prefix
                    = (filter is_upload_or_run (new_events w w') ++ rest)%list) \/
                 (exists req,
                    filter is_upload_or_run (new_events w w')
                    = (staged_uploads (env w) s (Frame train) (tuning_data_of a) bucket prefix
                       ++ [EvRunTraining req])%list)))).
  assert (Hquiet : forall w1, evolves (fun ev => is_upload_or_run ev = false) w w1 ->
                              filter is_upload_or_run (new_events w w1) = []).
  { intros w1 (_ & _ & _ & pre & Hpre & Fpre).
    rewrite (new_events_app _ _ _ Hpre). now apply filter_quiet. }
  unfold fit.
  apply wp_bind, wp_get_self. apply wp_bind, wp_get_world.
  apply wp_bind, wp_assert; [intros _; left; apply (Hquiet w), evolves_refl | intros _].
  unfold dict_pop at 1 2. cbv beta iota zeta.
  rewrite Htrain.
  rewrite (dict_get_remove_other "tuning_data" "train_data" _ eq_refl).
  fold (tuning_data_of a).
  apply wp_bind, wp_ret.
  repeat wp_top (fun ev : Event => is_upload_or_run ev = false);
    try (left; now apply Hquiet).
  apply wp_bind.
  eapply wp_conseq; [apply construct_config_spec |].
  intros r s' w1 (-> & Hcfg & Hv). merge_evolves.
  destruct r as [e | config]; [left; now apply Hquiet |].
  rewrite (Hv _ eq_refl). clear Hv.
  match goal with
  | H : evolves _ w w1 |- _ => destruct H as (E1 & _ & _ & pre & Hpre & Fpre)
  end.
  apply wp_bind.
  pose proof (upload_fit_artifact_frames train (tuning_data_of a)
                (path_join (local_output_path s) ["utils"; "config.yaml"]) s w1 Htune) as Hfull.
  pose proof (upload_fit_artifact_prefix train (tuning_data_of a)
                (path_join (local_output_path s) ["utils"; "config.yaml"]) s w1 Htune) as Hpart.
  unfold wp in Hfull, Hpart. unfold wp at 1.
  destruct Hfull as (-> & Henv & _ & Hfull).
  destruct Hpart as (up & Hev & Hpart).
  rewrite E1 in Hfull, Hpart.
  set (out := _upload_fit_artifact (Frame train) (tuning_data_of a)
              (path_join (local_output_path s) ["utils"; "config.yaml"]) s w1) in *.
  assert (Hnew : new_events w (world_after out) = (pre ++ up)%list).
  { apply new_events_app. rewrite Hev, Hpre, app_assoc. reflexivity. }
  assert (Hsofar : filter is_upload_or_run (new_events w (world_after out))
                   = filter is_upload_or_run up).
  { rewrite Hnew, filter_app, (filter_quiet _ Fpre). reflexivity. }
  destruct (result out) as [e | [[train_input tune_input] config_input]].
  - rewrite Hsofar. destruct Hpart as [Hnone | (bucket & prefix & rest & Hb & Hrest)].
    + now left.
    + right. exists bucket, prefix. split; [exact Hb |]. left. exists rest. exact Hrest.
  - destruct (Hfull _ eq_refl) as (bucket & prefix & up' & Hb & Hev' & Hf).
    assert (up' = up) by (rewrite Hev in Hev'; now apply app_inv_head in Hev').
    subst up'.
    apply wp_bind, wp_get_self.
    unfold SageMakerFitJob_run, call_kwargs. wp_run.
    all: right; exists bucket, prefix; (split; [exact Hb |]).
    all: unfold staged_uploads; cbn [app].
    1-2: left; exists []; rewrite app_nil_r; trace_simpl; rewrite Hsofar, Hf; reflexivity.
    all: match goal with
         | |- context [new_events _ ?wf] =>
             assert (Hn : exists req,
                       new_events w wf = (pre ++ up ++ [EvRunTraining req])%list)
               by (eexists; apply new_events_app; trace_simpl; rewrite Hev, Hpre;
                   rewrite <- !app_assoc; reflexivity)
         end.
    all: destruct Hn as (req & Hn); right; exists req; rewrite Hn.
    all: rewrite !filter_app, (filter_quiet _ Fpre), Hf; cbn [app filter is_upload_or_run].
    all: rewrite <- !app_assoc; reflexivity.
Qed.

(** C8: [fit] given a local frame as train data (and no tuning data, or a
    local frame).  A call that returns has uploaded exactly one file per
    dataset and then the configuration document, in this order, and has
    submitted the training job after that, as its last effect.  Whatever
    the outcome, nothing is uploaded twice or out of order and no job is
    submitted before the configuration document is uploaded. *)
Theorem fit_stages_then_submits (a : FitArgs) (s : CloudPredictor) (w : World)
    (train : DataFrame) :
  dict_get "train_data" (predictor_fit_args a) = Some (Frame train) ->
  (tuning_data_of a = NoneVal \/ exists d, tuning_data_of a = Frame d) ->
  let effects := new_events w (world_after (fit a s w)) in
  let done := filter is_upload_or_run effects in
  (result (fit a s w) = inr tt ->
   exists bucket prefix req,
     s3_path_to_bucket_prefix (env w) (Some (cloud_output_path s)) = inr (bucket, prefix) /\
     done = (staged_uploads (env w) s (Frame train) (tuning_data_of a) bucket prefix
             ++ [EvRunTraining req])%list /\
     last effects (EvLog "") = EvRunTraining req) /\
  (done = [] \/
   exists bucket prefix,
     s3_path_to_bucket_prefix (env w) (Some (cloud_output_path s)) = inr (bucket, prefix) /\
     let staged := staged_uploads (env w) s (Frame train) (tuning_data_of a) bucket prefix in
     (exists rest, staged = (done ++ rest)%list) \/
     (exists req, done = (staged ++ [EvRunTraining req])%list)).
Proof.
  intros Htrain Htune. cbv zeta. split.
  - intros Hr. now apply (fit_returns_staged a s w train).
  - now apply (fit_effects_in_order a s w train).
Qed.

(** ** save and load *)

Lemma dict_get_set {V} (k : string) (v : V) (d : PyDict V) :
  dict_get k (dict_set k v d) = Some v.
Proof.
  induction d as [| [k' v'] d IH]; cbn.
  - now rewrite String.eqb_refl.
  - destruct (String.eqb k k') eqn:E; cbn.
    + now rewrite String.eqb_refl.
    + now rewrite E.
Qed.

(** What a call of [save] that returns has done. *)
Lemma save_returns (silent : bool) (s : CloudPredictor) (w : World) :
  result (save silent s w) = inr tt ->
  self_after (save silent s w) = after_save s /\
  env (world_after (save silent s w)) = env w /\
  session_counter (world_after (save silent s w)) = session_counter w /\
  pickles (world_after (save silent s w))
  = dict_set (pickle_path s) (saved_state s) (pickles w) /\
  events (world_after (save silent s w))
  = (events w ++ EvPickle (pickle_path s)
       :: if silent then [] else [EvLog (save_log s)])%list.
Proof.
  apply (wp_elim (save silent) s w
           (fun r s' w' => r = inr tt ->
              s' = after_save s /\ env w' = env w /\
              session_counter w' = session_counter w /\
              pickles w' = dict_set (pickle_path s) (saved_state s) (pickles w) /\
              events w' = (events w ++ EvPickle (pickle_path s)
                             :: if silent then [] else [EvLog (save_log s)])%list)).
  unfold save, save_pkl_save, after_save, saved_state, pickle_path, save_log, endpoint_name.
  wp_run; try discriminate.
  all: intros _; repeat split; try (trace_simpl; reflexivity).
  all: destruct s; cbn in *; subst; reflexivity.
Qed.

(** C9: a call of [save] that returns leaves the object as it found it:
    session, region and endpoint hold their earlier values again and no
    other attribute has changed, except that [_endpoint_saved] is [None] when
    an endpoint was attached.  The pickled copy is the one with the session
    and the region cleared. *)
Theorem save_leaves_instance_unchanged (silent : bool) (s : CloudPredictor) (w : World) :
  result (save silent s w) = inr tt ->
  let s' := self_after (save silent s w) in
  s' = match endpoint s with
       | Some _ => set_endpoint_saved (Some None) s
       | None => s
       end /\
  sagemaker_session s' = sagemaker_session s /\
  _region s' = _region s /\
  endpoint s' = endpoint s /\
  exists snapshot,
    dict_get (pickle_path s) (pickles (world_after (save silent s w))) = Some snapshot /\
    sagemaker_session snapshot = None /\ _region snapshot = None /\
    endpoint snapshot = None.
Proof.
  intros Hr. destruct (save_returns silent s w Hr) as (Hs & _ & _ & Hp & _).
  cbv zeta. rewrite Hs, Hp. unfold after_save.
  split; [reflexivity |].
  split; [destruct (endpoint s); reflexivity |].
  split; [destruct (endpoint s); reflexivity |].
  split; [destruct (endpoint s) eqn:E; cbn; congruence |].
  exists (saved_state s). split; [apply dict_get_set |].
  unfold saved_state. destruct (endpoint s) eqn:E; cbn; rewrite ?E; repeat split; reflexivity.
Qed.
(** The statements of [load] after unpickling, on an object without
    registered jobs: [Session()] may fail, and so may the making of the
    endpoint handle when a name was saved; otherwise the object is restored. *)
Lemma load_restore_spec (snap : CloudPredictor) (w : World) :
  _batch_transform_jobs snap = [] ->
  endpoint snap = None ->
  load_restore snap w
  = match faults (env w) EvSession with
    | Some what => (inl (CollaboratorError what), snap, w)
    | None =>
        let w1 := bump_sessions (add_event EvSession w) in
        match _endpoint_saved snap with
        | Some saved =>
            if truthy saved then
              match faults (env w) (EvEndpointHandle (fmt saved)) with
              | Some what => (inl (CollaboratorError what), resumed snap w, w1)
              | None =>
                  (inr tt, restored snap w, add_event (EvEndpointHandle (fmt saved)) w1)
              end
            else (inr tt, restored snap w, w1)
        | None => (inr tt, restored snap w, w1)
        end
    end.
Proof.
  intros Hj He.
  unfold load_restore, restored, resumed, _load_jobs, attach_endpoint, fresh_session.
  cbv beta iota zeta delta [bind Session_new handle_session external get_world get_self
                             modify_world modify_self ret].
  destruct (faults (env w) EvSession) as [what |]; [reflexivity |].
  cbn. rewrite Hj. cbn.
  destruct (_endpoint_saved snap) as [saved |]; [| reflexivity].
  destruct (truthy saved); [| reflexivity].
  cbn. rewrite He. cbn.
  destruct (faults (env w) (EvEndpointHandle (fmt saved))); reflexivity.
Qed.

(** [load] stops in [_load_jobs] when a batch-transform job is registered:
    the loop variable is a job name, and a [str] takes no attribute. *)
Lemma load_restore_with_jobs (snap : CloudPredictor) (w : World) :
  _batch_transform_jobs snap <> [] ->
  result (load_restore snap w)
  = match faults (env w) EvSession with
    | Some what => inl (CollaboratorError what)
    | None => inl (AttributeError "'str' object has no attribute 'session'")
    end.
Proof.
  intros Hj. unfold load_restore, _load_jobs, result.
  cbv beta iota zeta delta [bind Session_new handle_session external get_world get_self
                             modify_world modify_self ret].
  destruct (faults (env w) EvSession) as [what |]; [reflexivity |].
  cbn. destruct (_batch_transform_jobs snap) as [| [n j] rest]; [now elim Hj |].
  reflexivity.
Qed.

Lemma truthy_nonempty (x : string) : x <> "" -> truthy (Some x) = true.
Proof. destruct x; [intros H; now elim H | reflexivity]. Qed.

(** C3, as the code has it: an object with no registered batch-transform
    job is saved and then loaded from a path that leads to the file it was
    saved to.  The pickled copy holds no session and no region.  [load]
    fails only when a collaborator does (reading the file, [Session()],
    making the endpoint handle), and returns when none does.  The object it
    returns has a new session and region.  Saved with no endpoint (and no
    stale saved name) it comes back with none; saved with an endpoint whose
    name is not empty it comes back with an endpoint handle of that name,
    made from the name alone: nothing is deployed.  Saved with an endpoint
    whose name is the empty string it comes back with no endpoint. *)
Theorem save_load_roundtrip (silent : bool) (s : CloudPredictor) (w : World)
    (path : string) (verbosity : option nat) :
  _batch_transform_jobs s = [] ->
  (endpoint s = None -> marker_clear s) ->
  result (save silent s w) = inr tt ->
  path_join (setup_outputdir (env w) path) [predictor_file_name (cls s)] = pickle_path s ->
  let w1 := world_after (save silent s w) in
  let fresh := fresh_session w in
  let out := load (cls s) (Some path) verbosity w1 in
  (exists snapshot,
     dict_get (pickle_path s) (pickles w1) = Some snapshot /\
     sagemaker_session snapshot = None /\ _region snapshot = None /\
     job_session (_fit_job snapshot) = None) /\
  (forall e, fst out = inl e -> exists what, e = CollaboratorError what) /\
  (faults (env w) (EvUnpickle (pickle_path s)) = None ->
   faults (env w) EvSession = None ->
   (forall e, endpoint s = Some e ->
              faults (env w) (EvEndpointHandle (endpoint_name_of e)) = None) ->
   exists loaded, fst out = inr loaded) /\
  (forall loaded, fst out = inr loaded ->
     sagemaker_session loaded = Some fresh /\
     _region loaded = Some (default_region (env w)) /\
     job_session (_fit_job loaded) = Some fresh /\
     endpoint loaded
     = match endpoint s with
       | None => None
       | Some e =>
           if String.eqb (endpoint_name_of e) "" then None
           else Some {| endpoint_name_of := endpoint_name_of e;
                        endpoint_session := Some fresh |}
       end /\
     Forall (fun ev => is_deploy ev = false) (new_events w (snd out))).
Proof.
  intros Hj Hm Hr Hp. cbv zeta.
  destruct (save_returns silent s w Hr) as (_ & He & Hc & Hk & Hv).
  set (w1 := world_after (save silent s w)) in *.
  set (wv := match verbosity with
             | Some v => add_event (EvSetVerbosity v) w1
             | None => w1
             end).
  assert (Ew : env wv = env w) by (unfold wv; destruct verbosity; cbn; exact He).
  assert (Pw : pickles wv = pickles w1) by (unfold wv; destruct verbosity; reflexivity).
  assert (Cw : session_counter wv = session_counter w)
    by (unfold wv; destruct verbosity; cbn; exact Hc).
  assert (Vw : exists mid, events wv = (events w ++ mid)%list /\
                           Forall (fun ev => is_deploy ev = false) mid).
  { unfold wv. destruct verbosity, silent; cbn [events add_event]; rewrite Hv;
      eexists; (split; [rewrite <- ?app_assoc; cbn [app]; reflexivity
                       | repeat constructor]). }
  destruct Vw as (mid & Vw & Fmid).
  assert (Hsnap : _batch_transform_jobs (saved_state s) = [] /\
                  endpoint (saved_state s) = None).
  { unfold saved_state. destruct (endpoint s) eqn:E; cbn; rewrite Hj; now split. }
  destruct Hsnap as (Sj & Se).
  assert (Hl : load (cls s) (Some path) verbosity w1
               = match faults (env w) (EvUnpickle (pickle_path s)) with
                 | Some what => (inl (CollaboratorError what), wv)
                 | None =>
                     match load_restore (saved_state s)
                             (add_event (EvUnpickle (pickle_path s)) wv) with
                     | (inl e, _, w') => (inl e, w')
                     | (inr _, predictor, w') => (inr predictor, w')
                     end
                 end).
  { unfold load. fold wv. rewrite Ew, Hp, Pw, Hk, dict_get_set.
    reflexivity. }
  rewrite Hl. clear Hl.
  rewrite (load_restore_spec _ _ Sj Se).
  cbn [env add_event]. rewrite Ew.
  assert (Hsaved : _endpoint_saved (saved_state s)
                   = match endpoint s with
                     | Some e => Some (Some (endpoint_name_of e))
                     | None => _endpoint_saved s
                     end).
  { unfold saved_state, endpoint_name. destruct (endpoint s); reflexivity. }
  assert (Hfresh : fresh_session (add_event (EvUnpickle (pickle_path s)) wv)
                   = fresh_session w).
  { unfold fresh_session. cbn [session_counter env add_event]. now rewrite Cw, Ew. }
  split.
  { exists (saved_state s). split; [rewrite Hk; apply dict_get_set |].
    unfold saved_state. destruct (endpoint s); cbn; repeat split. }
  assert (Hdeploy : forall extra,
            Forall (fun ev => is_deploy ev = false) extra ->
            forall w',
              events w' = (events wv ++ extra)%list ->
              Forall (fun ev => is_deploy ev = false) (new_events w w')).
  { intros extra Fe w' Hw'. rewrite (new_events_app w w' (mid ++ extra)).
    - apply Forall_app. now split.
    - rewrite Hw', Vw, app_assoc. reflexivity. }
  assert (Hgood : forall loaded w',
            loaded = restored (saved_state s) (add_event (EvUnpickle (pickle_path s)) wv) ->
            (exists extra, events w' = (events wv ++ extra)%list /\
                           Forall (fun ev => is_deploy ev = false) extra) ->
            sagemaker_session loaded = Some (fresh_session w) /\
            _region loaded = Some (default_region (env w)) /\
            job_session (_fit_job loaded) = Some (fresh_session w) /\
            endpoint loaded
            = match endpoint s with
              | None => None
              | Some e =>
                  if String.eqb (endpoint_name_of e) "" then None
                  else Some {| endpoint_name_of := endpoint_name_of e;
                               endpoint_session := Some (fresh_session w) |}
              end /\
            Forall (fun ev => is_deploy ev = false) (new_events w w')).
  { intros loaded w' -> (extra & Hw' & Fe).
    pose proof (Hdeploy extra Fe w' Hw') as Hd.
    unfold restored. rewrite Hfresh, Hsaved.
    destruct (endpoint s) as [e |] eqn:Ee.
    - destruct (endpoint_name_of e) eqn:En; cbn.
      + unfold saved_state. rewrite ?Ee. cbn. repeat split; first [exact Hd | exact Ee].
      + unfold saved_state. rewrite ?Ee. cbn. repeat split; first [exact Hd | exact Ee].
    - specialize (Hm eq_refl). unfold marker_clear in Hm.
      destruct (_endpoint_saved s) as [saved |]; cbn; [rewrite Hm |]; cbn.
      all: unfold saved_state; rewrite ?Ee; cbn; repeat split; first [exact Hd | exact Ee]. }
  destruct (faults (env w) (EvUnpickle (pickle_path s))) as [what |] eqn:Fu.
  { cbn [fst snd]. split; [| split].
    - intros e H. injection H as <-. now exists what.
    - discriminate.
    - discriminate. }
  destruct (faults (env w) EvSession) as [what |] eqn:Fs.
  { cbn [fst snd]. split; [| split].
    - intros e H. injection H as <-. now exists what.
    - discriminate.
    - discriminate. }
  cbv zeta. rewrite Hsaved.
  assert (Hok : forall w',
            (exists extra, events w' = (events wv ++ extra)%list /\
                           Forall (fun ev => is_deploy ev = false) extra) ->
            let out := (@inr PyExc CloudPredictor
                          (restored (saved_state s)
                             (add_event (EvUnpickle (pickle_path s)) wv)), w') in
            (forall e, fst out = inl e -> exists what, e = CollaboratorError what) /\
            (None = @None string -> None = @None string ->
             (forall e, endpoint s = Some e ->
                        faults (env w) (EvEndpointHandle (endpoint_name_of e)) = None) ->
             exists loaded, fst out = inr loaded) /\
            (forall loaded, fst out = inr loaded ->
               sagemaker_session loaded = Some (fresh_session w) /\
               _region loaded = Some (default_region (env w)) /\
               job_session (_fit_job loaded) = Some (fresh_session w) /\
               endpoint loaded
               = match endpoint s with
                 | None => None
                 | Some e =>
                     if String.eqb (endpoint_name_of e) "" then None
                     else Some {| endpoint_name_of := endpoint_name_of e;
                                  endpoint_session := Some (fresh_session w) |}
                 end /\
               Forall (fun ev => is_deploy ev = false) (new_events w (snd out)))).
  { intros w' Hw'. cbv zeta. cbn [fst snd]. split; [discriminate |]. split.
    - intros _ _ _. eexists. reflexivity.
    - intros loaded H. injection H as <-. now apply Hgood. }
  destruct (endpoint s) as [e |] eqn:Ee.
  - destruct (truthy (Some (endpoint_name_of e))) eqn:Tn.
    + cbn [fmt].
      destruct (faults (env w) (EvEndpointHandle (endpoint_name_of e))) as [what |] eqn:Fh.
      * cbn [fst snd]. split; [| split].
        -- intros e0 H. injection H as <-. now exists what.
        -- intros _ _ H. specialize (H e eq_refl). congruence.
        -- discriminate.
      * apply Hok. eexists. split; [trace_simpl; reflexivity | repeat constructor].
    + apply Hok. eexists. split; [trace_simpl; reflexivity | repeat constructor].
  - destruct (_endpoint_saved s) as [saved |] eqn:Es.
    + specialize (Hm eq_refl). unfold marker_clear in Hm. rewrite Es in Hm. rewrite Hm.
      apply Hok. eexists. split; [trace_simpl; reflexivity | repeat constructor].
    + apply Hok. eexists. split; [trace_simpl; reflexivity | repeat constructor].
Qed.

Lemma status_of_unknown (job_name : option string) (s : CloudPredictor) (w : World) :
  registry_get job_name (_batch_transform_jobs s) = None ->
  truthy job_name = true \/ _batch_transform_jobs s = [] ->
  get_batch_transform_job_status job_name s w = (inr "NotCreated", s, w).
Proof.
  intros Hg Hc. unfold get_batch_transform_job_status.
  rewrite bind_get_self, bind_get_world.
  destruct Hc as [Ht | He].
  - rewrite Ht, Hg. reflexivity.
  - rewrite He. destruct (truthy job_name); [| reflexivity].
    destruct job_name; reflexivity.
Qed.

(** With an unset job name the status is that of the most recent job. *)
Lemma status_of_unset_job (job_name : option string) (s : CloudPredictor) (w : World)
    (name : string) (job : SageMakerJob) :
  truthy job_name = false ->
  registry_last (_batch_transform_jobs s) = Some name ->
  registry_get (Some name) (_batch_transform_jobs s) = Some job ->
  get_batch_transform_job_status job_name s w
  = (inr (status_str (get_job_status job w)), s, w).
Proof.
  intros Ht Hl Hg. unfold get_batch_transform_job_status.
  rewrite bind_get_self, bind_get_world, Ht, Hl, Hg. reflexivity.
Qed.

(** C10, as the code has it: [get_batch_transform_job_status] returns
    'NotCreated', and changes nothing, for every non-empty job name that has
    no entry in the registry, and for an unset job name ([None] or the empty
    string) when the registry is empty.  An unset job name with a non-empty
    registry stands for the most recent job and is answered with its
    status. *)
Theorem status_of_unknown_job (job_name : option string) (s : CloudPredictor) (w : World) :
  (registry_get job_name (_batch_transform_jobs s) = None ->
   truthy job_name = true \/ _batch_transform_jobs s = [] ->
   get_batch_transform_job_status job_name s w = (inr "NotCreated", s, w)) /\
  (forall name job,
     truthy job_name = false ->
     registry_last (_batch_transform_jobs s) = Some name ->
     registry_get (Some name) (_batch_transform_jobs s) = Some job ->
     get_batch_transform_job_status job_name s w
     = (inr (status_str (get_job_status job w)), s, w)).
Proof.
  split.
  - apply status_of_unknown.
  - intros name job. apply status_of_unset_job.
Qed.

(** ** Attributes a computation does not touch *)

Section Keeps.

Context {X : Type}.
Variable f : CloudPredictor -> X.

Lemma keeps_ret {A} (a : A) : keeps f (ret a).
Proof. intros s w. reflexivity. Qed.

Lemma keeps_raise {A} (e : PyExc) : keeps f (@raise A e).
Proof. intros s w. reflexivity. Qed.

Lemma keeps_bind {A B} (m : M A) (k : A -> M B) :
  keeps f m -> (forall a, keeps f (k a)) -> keeps f (bind m k).
Proof.
  intros Hm Hk s w. specialize (Hm s w).
  unfold bind, self_after in *.
  destruct (m s w) as [[[e | a] s'] w']; cbn in *; [exact Hm |].
  rewrite <- Hm. apply (Hk a s' w').
Qed.

Lemma keeps_get_self : keeps f get_self.
Proof. intros s w. reflexivity. Qed.

Lemma keeps_get_world : keeps f get_world.
Proof. intros s w. reflexivity. Qed.

Lemma keeps_modify_world g : keeps f (modify_world g).
Proof. intros s w. reflexivity. Qed.

Lemma keeps_modify_self g : (forall s, f (g s) = f s) -> keeps f (modify_self g).
Proof. intros H s w. apply H. Qed.

Lemma keeps_emit ev : keeps f (emit ev).
Proof. intros s w. reflexivity. Qed.

Lemma keeps_assert cond msg : keeps f (py_assert cond msg).
Proof. destruct cond; intros s w; reflexivity. Qed.

Lemma keeps_helper {A} (r : string + A) : keeps f (helper r).
Proof. destruct r; intros s0 w0; reflexivity. Qed.

Lemma keeps_external ev : keeps f (external ev).
Proof.
  intros s w. unfold external, self_after.
  destruct (faults (env w) ev); reflexivity.
Qed.

Lemma keeps_handle_session : keeps f handle_session.
Proof. intros s w. reflexivity. Qed.

Lemma keeps_Session_new : keeps f Session_new.
Proof.
  apply keeps_bind; [apply keeps_external | intros _]. apply keeps_handle_session.
Qed.

Lemma keeps_for_each {A} (xs : list A) (body : A -> M unit) :
  (forall x, keeps f (body x)) -> keeps f (for_each xs body).
Proof.
  intros Hb. induction xs as [| x xs IH]; cbn [for_each].
  - apply keeps_ret.
  - apply keeps_bind; [apply Hb | intros _; exact IH].
Qed.

End Keeps.

Ltac keeps_step :=
  lazymatch goal with
  | |- keeps _ (bind _ _) => apply keeps_bind; [| intros ?]
  | |- keeps _ (ret _) => apply keeps_ret
  | |- keeps _ (raise _) => apply keeps_raise
  | |- keeps _ get_self => apply keeps_get_self
  | |- keeps _ get_world => apply keeps_get_world
  | |- keeps _ (modify_world _) => apply keeps_modify_world
  | |- keeps _ (modify_self _) => apply keeps_modify_self; intros ?; reflexivity
  | |- keeps _ (emit _) => apply keeps_emit
  | |- keeps _ (py_assert _ _) => apply keeps_assert
  | |- keeps _ (helper _) => apply keeps_helper
  | |- keeps _ (external _) => apply keeps_external
  | |- keeps _ Session_new => apply keeps_Session_new
  | |- keeps _ handle_session => apply keeps_handle_session
  | |- keeps _ (for_each _ _) => apply keeps_for_each; intros ?
  | |- keeps _ (match ?x with _ => _ end) => destruct x
  | |- keeps _ (let '(_, _) := ?x in _) => destruct x
  | |- keeps _ _ => progress autounfold with methods
  end.

Ltac keeps_auto := repeat keeps_step.

(** ** The endpoint across a series of calls *)

Lemma fit_keeps_endpoint a : keeps endpoint (fit a).
Proof. keeps_auto. Qed.

Lemma attach_job_keeps_endpoint n : keeps endpoint (attach_job n).
Proof. keeps_auto. Qed.

Lemma get_fit_job_status_keeps_endpoint : keeps endpoint get_fit_job_status.
Proof. keeps_auto. Qed.

Lemma download_trained_predictor_keeps_endpoint sp :
  keeps endpoint (download_trained_predictor sp).
Proof. keeps_auto. Qed.

Lemma to_local_predictor_keeps_endpoint sp : keeps endpoint (to_local_predictor sp).
Proof. keeps_auto. Qed.

Lemma predict_real_time_keeps_endpoint d acc : keeps endpoint (predict_real_time d acc).
Proof. keeps_auto. Qed.

Lemma predict_keeps_endpoint a : keeps endpoint (predict a).
Proof. keeps_auto. Qed.

Lemma download_predict_results_keeps_endpoint j sp :
  keeps endpoint (download_predict_results j sp).
Proof. keeps_auto. Qed.

Lemma get_batch_transform_job_status_keeps_endpoint j :
  keeps endpoint (get_batch_transform_job_status j).
Proof. keeps_auto. Qed.

Lemma keeps_discard {A X} (f : CloudPredictor -> X) (m : M A) :
  keeps f m -> keeps f (_ <- m ;; ret tt).
Proof. intros H. apply keeps_bind; [exact H | intros _; apply keeps_ret]. Qed.

(** A call other than [detach_endpoint] and [cleanup_deployment], and other
    than a [save] that fails, leaves an attached endpoint attached. *)
Lemma call_leaves_endpoint (c : Call) (s : CloudPredictor) (w : World) :
  endpoint s <> None ->
  leaves_endpoint c s w ->
  endpoint (self_after (call c s w)) = endpoint s.
Proof.
  intros He Hc. destruct c; cbn [call leaves_endpoint] in *; try contradiction.
  - apply fit_keeps_endpoint.
  - apply attach_job_keeps_endpoint.
  - apply (keeps_discard endpoint), get_fit_job_status_keeps_endpoint.
  - apply (keeps_discard endpoint), download_trained_predictor_keeps_endpoint.
  - apply (keeps_discard endpoint), to_local_predictor_keeps_endpoint.
  - now rewrite deploy_attached.
  - now rewrite attach_endpoint_attached.
  - apply (keeps_discard endpoint), predict_real_time_keeps_endpoint.
  - apply predict_keeps_endpoint.
  - apply download_predict_results_keeps_endpoint.
  - apply (keeps_discard endpoint), get_batch_transform_job_status_keeps_endpoint.
  - destruct (save_returns silent s w Hc) as (-> & _).
    unfold after_save. destruct (endpoint s) eqn:E; cbn; congruence.
Qed.

Lemma calls_leave_endpoint (cs : list (Call * World)) (s : CloudPredictor) :
  endpoint s <> None ->
  all_leave_endpoint s cs ->
  endpoint (run_calls s cs) = endpoint s.
Proof.
  revert s. induction cs as [| [c w] cs IH]; intros s He Hcs; [reflexivity |].
  cbn [run_calls all_leave_endpoint] in *. destruct Hcs as [Hc Hcs].
  pose proof (call_leaves_endpoint c s w He Hc) as E.
  rewrite IH; [exact E | congruence | exact Hcs].
Qed.

(** X19: after a [deploy] that returned, and any calls but [detach_endpoint],
    [cleanup_deployment] and a failing [save], [deploy] is rejected. *)
Lemma deploy_rejected_later (a a' : DeployArgs) (s : CloudPredictor) (w w' : World)
    (cs : list (Call * World)) :
  result (deploy a s w) = inr tt ->
  all_leave_endpoint (self_after (deploy a s w)) cs ->
  result (deploy a' (run_calls (self_after (deploy a s w)) cs) w')
  = inl (AssertionError endpoint_attached_msg).
Proof.
  intros Hr Hcs. rewrite deploy_attached; [reflexivity |].
  rewrite (calls_leave_endpoint cs _ (deploy_returns a s w Hr) Hcs).
  now apply deploy_returns.
Qed.

(** X18: a [save] that fails while writing the file leaves the object without
    its endpoint, session and region: they are put back only after the
    write. *)
Lemma save_failure_drops_endpoint (silent : bool) (s : CloudPredictor) (w : World)
    (what : string) :
  faults (env w) (EvPickle (pickle_path s)) = Some what ->
  result (save silent s w) = inl (CollaboratorError what) /\
  endpoint (self_after (save silent s w)) = None /\
  sagemaker_session (self_after (save silent s w)) = None /\
  _region (self_after (save silent s w)) = None.
Proof.
  intros Hf.
  apply (wp_elim (save silent) s w
           (fun r s' w' =>
              r = inl (CollaboratorError what) /\ endpoint s' = None /\
              sagemaker_session s' = None /\ _region s' = None)).
  unfold save, save_pkl_save, pickle_path in *. wp_run; try congruence.
  all: repeat split; solve [congruence | assumption].
Qed.

(** ** A second endpoint after a failed save *)

Lemma framework_msg_not_endpoint_attached (v : string) (l : list string) :
  v ++ " is not a valid option. Options are: " ++ py_repr_list l <> endpoint_attached_msg.
Proof.
  intros H. apply (f_equal last_char) in H.
  rewrite last_char_app in H.
  - rewrite last_char_app in H.
    + rewrite py_repr_list_last in H. discriminate H.
    + intros E. apply (f_equal last_char) in E. rewrite py_repr_list_last in E. discriminate E.
  - apply append_nonempty_r.
    intros E. apply (f_equal last_char) in E. rewrite py_repr_list_last in E. discriminate E.
Qed.

(** Without an endpoint [deploy] gets past its first assertion: whatever
    else happens, it is not rejected for an endpoint being attached. *)
Lemma deploy_not_attached (a : DeployArgs) (s : CloudPredictor) (w : World) :
  endpoint s = None ->
  result (deploy a s w) <> inl (AssertionError endpoint_attached_msg).
Proof.
  intros H. unfold deploy.
  rewrite bind_get_self, bind_get_world, H. cbn [is_some negb].
  rewrite bind_assert_true.
  match goal with
  | |- result (?m s w) <> _ =>
      assert (Hr : raises_only (fun e => e <> AssertionError endpoint_attached_msg) m)
  end.
  { raises_auto; try discriminate.
    intros E. injection E as E. revert E. apply framework_msg_not_endpoint_attached. }
  intros E. exact (Hr s w _ E eq_refl).
Qed.

Lemma attach_endpoint_not_attached (ep : EndpointArg) (s : CloudPredictor) (w : World) :
  endpoint s = None ->
  result (attach_endpoint ep s w) <> inl (AssertionError endpoint_attached_msg).
Proof.
  intros H. unfold attach_endpoint.
  rewrite bind_get_self, H. cbn [is_some negb]. rewrite bind_assert_true.
  match goal with
  | |- result (?m s w) <> _ =>
      assert (Hr : raises_only (fun e => e <> AssertionError endpoint_attached_msg) m)
  end.
  { raises_auto; discriminate. }
  intros E. exact (Hr s w _ E eq_refl).
Qed.

(** C2, where the code breaks it: [deploy] and [attach_endpoint] do refuse
    a second endpoint while one is attached, but [save] takes the endpoint
    off the object while it writes the file and puts it back only after the
    write.  After a [deploy] that returned and a [save] that fails while
    writing, the object has no endpoint although none was detached or
    cleaned up, and neither a second [deploy] nor [attach_endpoint] is
    rejected for an endpoint being attached. *)
Theorem second_deploy_after_failed_save (silent : bool) (a a' : DeployArgs)
    (s : CloudPredictor) (w w1 w2 : World) (what : string) :
  result (deploy a s w) = inr tt ->
  let deployed := self_after (deploy a s w) in
  faults (env w1) (EvPickle (pickle_path deployed)) = Some what ->
  let saved := save silent deployed w1 in
  endpoint deployed <> None /\
  result saved = inl (CollaboratorError what) /\
  endpoint (self_after saved) = None /\
  result (deploy a' (self_after saved) w2) <> inl (AssertionError endpoint_attached_msg) /\
  (forall ep, result (attach_endpoint ep (self_after saved) w2)
              <> inl (AssertionError endpoint_attached_msg)).
Proof.
  intros Hd deployed Hf saved.
  assert (Hs : result saved = inl (CollaboratorError what) /\
               endpoint (self_after saved) = None).
  { unfold saved.
    apply (wp_elim (save silent) deployed w1
             (fun r s' _ => r = inl (CollaboratorError what) /\ endpoint s' = None)).
    unfold save, save_pkl_save, pickle_path in *. wp_run; try congruence.
    all: repeat split; solve [congruence | assumption]. }
  destruct Hs as (Hr & He).
  split; [now apply deploy_returns |].
  split; [exact Hr |]. split; [exact He |].
  split; [now apply deploy_not_attached |].
  intros ep. now apply attach_endpoint_not_attached.
Qed.

(** ** The saved-endpoint marker is clear between calls *)

Lemma call_keeps_endpoint_saved (c : Call) :
  (forall silent, c <> CallSave silent) -> keeps _endpoint_saved (call c).
Proof.
  intros Hc. destruct c; cbn [call]; try (keeps_auto; fail).
  now elim (Hc silent).
Qed.

(** Every call keeps the marker clear, a [save] that fails excepted. *)
Lemma call_keeps_marker_clear (c : Call) (s : CloudPredictor) (w : World) :
  (forall silent, c = CallSave silent -> result (save silent s w) = inr tt) ->
  marker_clear s ->
  marker_clear (self_after (call c s w)).
Proof.
  intros Hc Hm.
  assert (Hcase : (forall silent, c <> CallSave silent) \/ exists silent, c = CallSave silent).
  { destruct c; try (left; intros; discriminate). right. eauto. }
  destruct Hcase as [Hn | [silent ->]].
  - unfold marker_clear. now rewrite (call_keeps_endpoint_saved c Hn s w).
  - cbn [call]. destruct (save_returns silent s w (Hc silent eq_refl)) as (-> & _).
    unfold after_save. destruct (endpoint s); [reflexivity | exact Hm].
Qed.

Lemma init_marker_clear c role_arn local cloud verbosity (w : World) (s : CloudPredictor) :
  fst (init c role_arn local cloud verbosity w) = inr s -> marker_clear s.
Proof.
  unfold init.
  match goal with
  | |- fst (match ?m ?b w with _ => _ end) = _ -> _ =>
      assert (H : wp m b w (fun r _ _ => forall p, r = inr p -> marker_clear p));
        [| unfold wp, result in H; destruct (m b w) as [[r s'] w'];
           cbn in *; intros Hr; exact (H s Hr)]
  end.
  unfold _setup_local_output_path, _setup_cloud_output_path.
  wp_run; intros obj Hobj; try discriminate Hobj.
  all: injection Hobj as <-; exact I.
Qed.

Lemma restored_marker_clear (snap : CloudPredictor) (w : World) :
  marker_clear (restored snap w).
Proof.
  unfold restored, marker_clear.
  destruct (_endpoint_saved snap) as [saved |] eqn:E; cbn.
  - destruct (truthy saved) eqn:T; cbn; [reflexivity | now rewrite E].
  - now rewrite E.
Qed.

(** * Further properties of the code *)

(** ** A new instance *)

(** What [__init__] leaves in the object it builds. *)
Lemma init_returns c role local cloud verb (w : World) (s : CloudPredictor) :
  fst (init c role local cloud verb w) = inr s ->
  cls s = c /\ endpoint s = None /\ _batch_transform_jobs s = [] /\
  job_name (_fit_job s) = None /\ _endpoint_saved s = None /\
  is_some (sagemaker_session s) = true.
Proof.
  unfold init.
  match goal with
  | |- fst (match ?m ?b w with _ => _ end) = _ -> _ =>
      assert (H : wp m b w
                    (fun r _ _ => forall p, r = inr p ->
                       cls p = c /\ endpoint p = None /\ _batch_transform_jobs p = [] /\
                       job_name (_fit_job p) = None /\ _endpoint_saved p = None /\
                       is_some (sagemaker_session p) = true));
        [| unfold wp, result in H; destruct (m b w) as [[r s'] w'];
           cbn in *; intros Hr; exact (H s Hr)]
  end.
  unfold _setup_local_output_path, _setup_cloud_output_path.
  wp_run; intros obj Hobj; try discriminate Hobj.
  all: injection Hobj as <-; repeat split.
Qed.

(** X1: a new instance fails closed: whatever the world, it is not fit and has
    no endpoint and no job, so [deploy] and [predict] without a predictor
    path, [predict_real_time], [detach_endpoint], [cleanup_deployment] and
    [download_predict_results] without a job name each stop at their first
    assertion and change nothing, and both status queries answer
    'NotCreated'. *)
Theorem new_instance_fails_closed c role local cloud verb (w0 : World)
    (s : CloudPredictor) (w : World) :
  fst (init c role local cloud verb w0) = inr s ->
  is_fit s w = false /\
  get_fit_job_status s w = (inr "NotCreated", s, w) /\
  (forall j, get_batch_transform_job_status j s w = (inr "NotCreated", s, w)) /\
  (forall a, truthy (deploy_predictor_path a) = false ->
             deploy a s w = (inl (AssertionError no_model_msg), s, w)) /\
  (forall a, truthy (predict_predictor_path a) = false ->
             predict a s w = (inl (AssertionError no_model_msg), s, w)) /\
  (forall d accept,
     predict_real_time d accept s w = (inl (AssertionError no_endpoint_msg), s, w)) /\
  detach_endpoint s w = (inl (AssertionError ""), s, w) /\
  cleanup_deployment s w = (inl (AssertionError not_deployed_msg), s, w) /\
  (forall j sp, truthy j = false ->
                download_predict_results j sp s w = (inl (AssertionError no_job_msg), s, w)).
Proof.
  intros Hi. destruct (init_returns _ _ _ _ _ _ _ Hi) as (_ & He & Hr & Hj & _ & _).
  assert (Hf : is_fit s w = false) by (unfold is_fit, job_completed; now rewrite Hj).
  split; [exact Hf |].
  split.
  { unfold get_fit_job_status. rewrite bind_get_self, bind_get_world.
    unfold get_job_status. now rewrite Hj. }
  split.
  { intros j. unfold get_batch_transform_job_status.
    rewrite bind_get_self, bind_get_world, Hr.
    destruct (truthy j); [destruct j |]; reflexivity. }
  split; [intros a Ha; now apply deploy_unfit |].
  split; [intros a Ha; now apply predict_unfit |].
  split.
  { intros d accept. unfold predict_real_time. rewrite bind_get_self, He. reflexivity. }
  split.
  { unfold detach_endpoint. rewrite bind_get_self, He. reflexivity. }
  split.
  { unfold cleanup_deployment, _delete_endpoint_model.
    unfold bind at 1. rewrite bind_get_self, He. reflexivity. }
  intros j sp Hjn. now apply download_predict_results_no_job.
Qed.

(** X2: [__init__] normalises the cloud output path: a given path loses one
    trailing slash and gets the prefix [s3://] unless [is_s3_url] accepts it
    already, and a missing one becomes a time-stamped default.  If
    [is_s3_url] accepts whatever starts with [s3://], it accepts the
    result. *)
Theorem cloud_output_path_normalised c role local cloud verb (w : World)
    (s : CloudPredictor) :
  fst (init c role local cloud verb w) = inr s ->
  match cloud with
  | None => cloud_output_path s = "s3://ag-cloud-predictor/" ++ sagemaker_timestamp (env w)
  | Some p =>
      let q := if ends_with_slash p then drop_last p else p in
      (is_s3_url (env w) (Str q) = inr true /\ cloud_output_path s = q) \/
      (is_s3_url (env w) (Str q) = inr false /\ cloud_output_path s = "s3://" ++ q)
  end /\
  ((forall x, is_s3_url (env w) (Str ("s3://" ++ x)) = inr true) ->
   is_s3_url (env w) (Str (cloud_output_path s)) = inr true).
Proof.
  unfold init.
  match goal with
  | |- fst (match ?m ?b w with _ => _ end) = _ -> _ =>
      assert (H : wp m b w
                    (fun r _ _ => forall p, r = inr p ->
                       match cloud with
                       | None => cloud_output_path p
                                 = "s3://ag-cloud-predictor/" ++ sagemaker_timestamp (env w)
                       | Some p0 =>
                           let q := if ends_with_slash p0 then drop_last p0 else p0 in
                           (is_s3_url (env w) (Str q) = inr true /\ cloud_output_path p = q) \/
                           (is_s3_url (env w) (Str q) = inr false /\
                            cloud_output_path p = "s3://" ++ q)
                       end));
        [| unfold wp, result in H; destruct (m b w) as [[r s'] w'];
           cbn [fst snd] in *; intros Hr; specialize (H s Hr) ]
  end.
  - unfold _setup_local_output_path, _setup_cloud_output_path.
    wp_run; intros obj Hobj; try discriminate Hobj.
    all: injection Hobj as <-; cbn in *; auto.
  - split; [exact H |]. intros Hs.
    destruct cloud as [p |].
    + cbv zeta in H. destruct H as [[H1 ->] | [H1 ->]]; [exact H1 | apply Hs].
    + rewrite H. apply Hs.
Qed.

(** X3: [__init__] has no precondition of its own: whatever makes it fail
    was raised by a collaborator (creating the role, [Session()], creating
    the directory, [is_s3_url]). *)
Theorem init_raises_only_collaborator_errors c role local cloud verb
    (w : World) (e : PyExc) :
  fst (init c role local cloud verb w) = inl e ->
  exists what, e = CollaboratorError what.
Proof.
  unfold init.
  match goal with
  | |- fst (match ?m ?b w with _ => _ end) = _ -> _ =>
      assert (H : raises_only (fun e => exists what, e = CollaboratorError what) m);
        [| specialize (H b w e); unfold result in H;
           destruct (m b w) as [[r s'] w']; exact H ]
  end.
  unfold _setup_local_output_path, _setup_cloud_output_path.
  raises_auto; eauto.
Qed.

(** ** fit without train data *)

(** X4: [fit] without train data.  When the fit arguments have no
    [train_data] entry, [fit] does nothing at all: on an instance that is
    fit it raises the already-fit assertion, on any other
    [KeyError('train_data')], and in both cases the object and the world
    are untouched. *)
Theorem fit_checks_arguments_first (a : FitArgs) (s : CloudPredictor) (w : World) :
  dict_get "train_data" (predictor_fit_args a) = None ->
  fit a s w
  = (inl (if is_fit s w then AssertionError already_fit_msg else KeyError "train_data"),
     s, w).
Proof.
  intros Ht. unfold is_fit, fit.
  rewrite bind_get_self, bind_get_world.
  destruct (job_completed (_fit_job s) w); cbn [negb].
  - reflexivity.
  - rewrite bind_assert_true.
    unfold dict_pop at 1. cbv beta iota zeta. rewrite Ht. reflexivity.
Qed.

(** ** What fit does, and to what *)

Lemma dict_get_remove {V} (k k' : string) (d : PyDict V) :
  dict_get k (dict_remove k' d) = if String.eqb k k' then None else dict_get k d.
Proof.
  destruct (String.eqb k k') eqn:E.
  - apply String.eqb_eq in E. subst k'. apply dict_get_remove_same.
  - now apply dict_get_remove_other.
Qed.

Lemma filter_none {A} (f : A -> bool) (l : list A) :
  Forall (fun x => f x = false) l -> filter f l = [].
Proof.
  induction 1 as [| x l Hx _ IH]; [reflexivity |]. cbn. now rewrite Hx.
Qed.

Ltac wp_skip_with P tac :=
  apply wp_bind; apply (wp_quiet P);
  [ solve [quiet_auto; tac] | intros [? | ?] ? ? ].

(** Like [wp_top], with a tactic for the trace entries, and stopping at a
    branch on a truth value. *)
Ltac wp_top_with P tac :=
  lazymatch goal with
  | |- wp (bind get_self _) _ _ _ => apply wp_bind; apply wp_get_self
  | |- wp (bind get_world _) _ _ _ => apply wp_bind; apply wp_get_world
  | |- wp (bind (py_assert _ _) _) _ _ _ => apply wp_bind; apply wp_assert; intros ?
  | |- wp (bind (if truthy _ then _ else _) _) _ _ _ => fail
  | |- wp (bind _ _) _ _ _ => wp_skip_with P tac
  | |- wp (let '(_, _) := ?x in _) _ _ _ => destruct x eqn:?
  | |- wp (match ?x with _ => _ end) _ _ _ => destruct x eqn:?
  end; cbv beta iota; merge_evolves.

Lemma events_after (P : Event -> Prop) (w w1 w2 : World) (new : list Event) :
  evolves P w w1 -> events w2 = (events w1 ++ new)%list -> Forall P new ->
  Forall P (new_events w w2).
Proof.
  intros (_ & _ & _ & pre & Hpre & Fpre) Hev Hnew.
  rewrite (new_events_app w w2 (pre ++ new)).
  - apply Forall_app. now split.
  - rewrite Hev, Hpre, app_assoc. reflexivity.
Qed.

Ltac evolves_events :=
  lazymatch goal with
  | |- evolves _ ?w ?w => apply evolves_refl
  | |- evolves ?P ?w (add_event ?ev ?w1) =>
      apply (evolves_trans P w w1); [evolves_events | apply evolves_add_event]
  end.

(** The effects of [_construct_config]: at most the one document. *)
Lemma construct_config_events (a : FitArgs) (s0 : CloudPredictor) (w0 : World)
    (s : CloudPredictor) (w : World) :
  local_output_path s = local_output_path s0 -> predictor_type s = predictor_type s0 ->
  wp (_construct_config (predictor_init_args a)
        (dict_remove "tuning_data" (dict_remove "train_data" (predictor_fit_args a)))
        (leaderboard a)) s w
    (fun _ s' w' => s' = s /\ evolves (fit_event_ok a s0 w0) w w').
Proof.
  intros Hl Hp. unfold _construct_config. wp_run.
  all: split; [reflexivity |]; first [apply evolves_refl | apply evolves_add_event].
  cbn. unfold fit_config. rewrite Hl, Hp. now split.
Qed.

(** The effects of [_upload_fit_artifact]: conversions into the utility
    directory, uploads to a named bucket, log lines. *)
Lemma upload_fit_artifact_events (a : FitArgs) (s0 : CloudPredictor) (w0 : World)
    (train tune : PyData) (config : string) (s : CloudPredictor) (w : World) :
  local_output_path s = local_output_path s0 ->
  wp (_upload_fit_artifact train tune config) s w
    (fun _ s' w' => s' = s /\ evolves (fit_event_ok a s0 w0) w w').
Proof.
  intros Hl.
  unfold _upload_fit_artifact, is_local, _prepare_data, upload_data, the_session.
  wp_run.
  all: split; [reflexivity |]; evolves_events.
  all: cbn; rewrite ?Hl; auto.
Qed.

(** Every trace entry of a call of [fit], whatever its outcome, is one of
    its own effects. *)
Lemma fit_events_ok (a : FitArgs) (s : CloudPredictor) (w : World) :
  Forall (fit_event_ok a s w) (new_events w (world_after (fit a s w))).
Proof.
  apply (wp_elim (fit a) s w
           (fun _ _ w' => Forall (fit_event_ok a s w) (new_events w w'))).
  assert (Hq : forall w1, evolves (fit_event_ok a s w) w w1 ->
                          Forall (fit_event_ok a s w) (new_events w w1)).
  { intros w1 (_ & _ & _ & pre & Hpre & Fpre). now rewrite (new_events_app _ _ _ Hpre). }
  unfold fit.
  apply wp_bind, wp_get_self. apply wp_bind, wp_get_world.
  apply wp_bind, wp_assert; [intros _; apply (Hq w), evolves_refl | intros _].
  unfold dict_pop. cbv beta iota zeta.
  fold (estimator_kwargs_of a).
  repeat wp_top_with (fit_event_ok a s w) ltac:(exact I);
    try (now apply Hq).
  apply wp_bind.
  assert (Htail : forall entry_point estimator_kwargs w2,
            evolves (fit_event_ok a s w) w w2 ->
            (if truthy (dict_get (TRAIN_SCRIPT_PATH (env w)) (estimator_kwargs_of a))
             then entry_point
                  = fmt (dict_get (TRAIN_SCRIPT_PATH (env w)) (estimator_kwargs_of a)) /\
                  estimator_kwargs
                  = dict_remove (TRAIN_SCRIPT_PATH (env w)) (estimator_kwargs_of a)
             else entry_point = TRAIN_SCRIPT_PATH (env w) /\
                  estimator_kwargs
                  = dict_remove "source_dir"
                      (dict_remove (TRAIN_SCRIPT_PATH (env w)) (estimator_kwargs_of a))) ->
            wp (_setup_bucket s1;;;
                config <-
                _construct_config (predictor_init_args a)
                  (dict_remove "tuning_data"
                     (dict_remove "train_data" (predictor_fit_args a)))
                  (leaderboard a);;
                x0 <-
                _upload_fit_artifact p
                  match
                    dict_get "tuning_data"
                      (dict_remove "train_data" (predictor_fit_args a))
                  with
                  | Some d => d
                  | None => NoneVal
                  end config;;
                (let (p1, config_input) := x0 in
                 let (train_input, tune_input) := p1 in
                 s3 <- get_self;;
                 SageMakerFitJob_run
                   {|
                     tr_role := role_arn s3;
                     tr_entry_point := entry_point;
                     tr_region := _region s3;
                     tr_instance_type := fit_instance_type a;
                     tr_instance_count := fit_instance_count a;
                     tr_volume_size := fit_volume_size a;
                     tr_framework_version := s0;
                     tr_base_job_name := "autogluon-cloudpredictor-train";
                     tr_output_path := cloud_output_path s ++ "/output";
                     tr_inputs :=
                       if data_truthy tune_input
                       then
                        dict_set "tune" tune_input
                          [("config", Str config_input); ("train", train_input)]
                       else [("config", Str config_input); ("train", train_input)];
                     tr_wait := fit_wait a;
                     tr_job_name :=
                       if truthy (fit_job_name a)
                       then fmt (fit_job_name a)
                       else unique_name_from_base (env w) "ag-CloudPredictor";
                     tr_estimator_kwargs := estimator_kwargs;
                     tr_kwargs := fit_kwargs a
                   |})) s w2
              (fun _ _ w3 => Forall (fit_event_ok a s w) (new_events w w3))).
  { intros entry_point estimator_kwargs w2 Hw2 Hep.
    wp_skip_with (fit_event_ok a s w) ltac:(exact I); merge_evolves;
      [now apply Hq |].
    apply wp_bind.
    eapply wp_conseq; [apply (construct_config_events a s w); reflexivity |].
    intros r s' w3 (-> & Hw3). merge_evolves.
    destruct r as [e | config]; [now apply Hq |].
    apply wp_bind.
    eapply wp_conseq; [apply (upload_fit_artifact_events a s w); reflexivity |].
    intros r s' w4 (-> & Hw4). merge_evolves.
    destruct r as [e | [[train_input tune_input] config_input]]; [now apply Hq |].
    apply wp_bind, wp_get_self.
    unfold SageMakerFitJob_run, call_kwargs. wp_run.
    1-2: now apply Hq.
    all: match goal with
         | H : evolves _ _ _ |- _ =>
             eapply (events_after _ _ _ _ _ H); [trace_simpl; reflexivity |]
         end.
    all: constructor; [| constructor].
    all: cbn [fit_event_ok]; unfold fit_request_ok;
      cbn [tr_role tr_region tr_output_path tr_job_name tr_base_job_name tr_wait
           tr_kwargs tr_entry_point tr_estimator_kwargs].
    all: repeat (split; [reflexivity |]).
    all: cbv zeta; exact Hep. }
  destruct (truthy (dict_get (TRAIN_SCRIPT_PATH (env w)) (estimator_kwargs_of a))) eqn:Ht.
  - apply wp_bind, wp_emit. apply wp_ret. apply Htail.
    + eapply evolves_trans; [eassumption |]. now apply evolves_add_event.
    + rewrite ?Ht. now split.
  - apply wp_ret. apply Htail; [assumption |]. rewrite ?Ht. now split.
Qed.

(** X5: the configuration document [fit] writes never holds the data.
    Whatever the outcome of the call, a document written by it goes to
    [<local_output_path>/utils/config.yaml], has neither a [train_data] nor
    a [tuning_data] entry among its fit arguments, and carries every other
    fit argument, the init arguments and the leaderboard flag as given. *)
Theorem fit_config_excludes_data (a : FitArgs) (s : CloudPredictor) (w : World)
    (path : string) (config : Config) :
  In (EvWriteConfig path config) (new_events w (world_after (fit a s w))) ->
  path = path_join (local_output_path s) ["utils"; "config.yaml"] /\
  dict_get "train_data" (cfg_predictor_fit_args config) = None /\
  dict_get "tuning_data" (cfg_predictor_fit_args config) = None /\
  (forall k, k <> "train_data" -> k <> "tuning_data" ->
             dict_get k (cfg_predictor_fit_args config) = dict_get k (predictor_fit_args a)) /\
  cfg_predictor_init_args config = predictor_init_args a /\
  cfg_leaderboard config = leaderboard a /\
  cfg_predictor_type config = fmt (predictor_type s).
Proof.
  intros Hin.
  pose proof (proj1 (Forall_forall _ _) (fit_events_ok a s w) _ Hin) as [-> ->].
  cbn [fit_config cfg_predictor_fit_args cfg_predictor_init_args cfg_leaderboard
       cfg_predictor_type].
  split; [reflexivity |].
  split; [rewrite dict_get_remove; cbn; apply dict_get_remove_same |].
  split; [apply dict_get_remove_same |].
  split; [| repeat split].
  intros k H1 H2. rewrite !dict_get_remove.
  destruct (String.eqb k "tuning_data") eqn:E2; [apply String.eqb_eq in E2; contradiction |].
  destruct (String.eqb k "train_data") eqn:E1; [apply String.eqb_eq in E1; contradiction |].
  reflexivity.
Qed.

(** X6: the training job [fit] submits.  Whatever the outcome of the call,
    a job it submitted writes to [<cloud_output_path>/output] under the role
    and region of the object, and an [output_path] given among the estimator
    arguments is dropped.  The entry point is looked up under the key that
    is the path of the packaged training script, not under [entry_point]:
    without a (non-empty) entry under that key the packaged script is used
    and [source_dir] is dropped as well; with one, its value is the entry
    point.  Every other estimator argument is passed on as given. *)
Theorem fit_training_request (a : FitArgs) (s : CloudPredictor) (w : World)
    (req : TrainingRequest) :
  In (EvRunTraining req) (new_events w (world_after (fit a s w))) ->
  let script := TRAIN_SCRIPT_PATH (env w) in
  let given := autogluon_sagemaker_estimator_kwargs a in
  let custom := if String.eqb script "output_path" then None else dict_get script given in
  tr_output_path req = cloud_output_path s ++ "/output" /\
  tr_role req = role_arn s /\ tr_region req = _region s /\
  tr_job_name req = fit_job_name_of a w /\
  dict_get "output_path" (tr_estimator_kwargs req) = None /\
  dict_get script (tr_estimator_kwargs req) = None /\
  (if truthy custom
   then tr_entry_point req = fmt custom
   else tr_entry_point req = script /\
        dict_get "source_dir" (tr_estimator_kwargs req) = None) /\
  (forall k, k <> "output_path" -> k <> script -> k <> "source_dir" ->
             dict_get k (tr_estimator_kwargs req) = dict_get k given).
Proof.
  intros Hin script given custom.
  pose proof (proj1 (Forall_forall _ _) (fit_events_ok a s w) _ Hin) as H.
  cbn [fit_event_ok] in H.
  destruct H as (Hrole & Hreg & Hout & Hname & _ & _ & _ & Hep).
  cbv zeta in Hep. fold script in Hep.
  assert (Hc : dict_get script (estimator_kwargs_of a) = custom).
  { unfold estimator_kwargs_of, custom. apply dict_get_remove. }
  rewrite Hc in Hep.
  assert (Hother : forall k, k <> "output_path" -> k <> script ->
            dict_get k (dict_remove script (estimator_kwargs_of a)) = dict_get k given).
  { intros k H1 H2. unfold estimator_kwargs_of. rewrite !dict_get_remove.
    destruct (String.eqb k script) eqn:E1; [apply String.eqb_eq in E1; contradiction |].
    destruct (String.eqb k "output_path") eqn:E2; [apply String.eqb_eq in E2; contradiction |].
    reflexivity. }
  assert (Hno : forall k, dict_get "output_path" (dict_remove k (estimator_kwargs_of a)) = None).
  { intros k. rewrite dict_get_remove. destruct (String.eqb "output_path" k); [reflexivity |].
    apply dict_get_remove_same. }
  repeat (split; [assumption |]).
  destruct (truthy custom); destruct Hep as (Hentry & Hkw); rewrite Hkw.
  - split; [apply Hno |]. split; [apply dict_get_remove_same |].
    split; [exact Hentry |]. intros k H1 H2 _. now apply Hother.
  - split; [rewrite dict_get_remove; cbn; apply Hno |].
    split; [rewrite dict_get_remove; destruct (String.eqb script "source_dir");
            [reflexivity | apply dict_get_remove_same] |].
    split; [split; [exact Hentry | apply dict_get_remove_same] |].
    intros k H1 H2 H3. rewrite dict_get_remove.
    destruct (String.eqb k "source_dir") eqn:E; [apply String.eqb_eq in E; contradiction |].
    now apply Hother.
Qed.

(** A call of [fit] submits a training job last, if at all. *)
Lemma fit_submits_last (a : FitArgs) (s : CloudPredictor) (w : World) :
  let effects := new_events w (world_after (fit a s w)) in
  filter is_training_run effects = [] \/
  exists before req,
    effects = (before ++ [EvRunTraining req])%list /\
    filter is_training_run before = [].
Proof.
  cbv zeta.
  apply (wp_elim (fit a) s w
           (fun _ _ w' =>
              filter is_training_run (new_events w w') = [] \/
              exists before req,
                new_events w w' = (before ++ [EvRunTraining req])%list /\
                filter is_training_run before = [])).
  assert (Hq : forall w1, evolves (fun ev => is_training_run ev = false) w w1 ->
                          filter is_training_run (new_events w w1) = []).
  { intros w1 (_ & _ & _ & pre & Hpre & Fpre).
    rewrite (new_events_app _ _ _ Hpre). now apply filter_none. }
  unfold fit.
  repeat (first [wp_top (fun ev : Event => is_training_run ev = false)
                | wp_skip (fun ev : Event => is_training_run ev = false); merge_evolves]);
    try (left; first [now apply Hq | apply (Hq w), evolves_refl]).
  wp_run; [left; now apply Hq | |].
  all: right.
  all: match goal with
       | H : evolves _ _ _ |- _ => destruct H as (_ & _ & _ & pre & Hpre & Fpre)
       end.
  all: exists pre; eexists; split;
    [ apply new_events_app; trace_simpl; rewrite Hpre, <- app_assoc; reflexivity
    | now apply filter_none ].
Qed.

(** X7: what [fit] never does.  Whatever its arguments and its outcome, a
    call of [fit] deploys nothing, starts no batch transformation, invokes no
    endpoint, downloads, unpacks and deletes nothing, and writes no snapshot
    of the object; what it uploads goes to a bucket given by name.  It
    submits at most one training job, and that as its last effect. *)
Theorem fit_effect_footprint (a : FitArgs) (s : CloudPredictor) (w : World) :
  let effects := new_events w (world_after (fit a s w)) in
  (forall ev, In ev effects ->
     match ev with
     | EvWarning _ | EvLog _ | EvCreateBucket _ _ | EvConvert _ _ _ _
     | EvWriteConfig _ _ | EvUpload _ (BucketName _) _ | EvRunTraining _ => True
     | _ => False
     end) /\
  length (filter is_training_run effects) <= 1 /\
  (forall req, In (EvRunTraining req) effects -> last effects (EvLog "") = EvRunTraining req).
Proof.
  cbv zeta. split; [| split].
  - intros ev Hin.
    pose proof (proj1 (Forall_forall _ _) (fit_events_ok a s w) _ Hin) as H.
    destruct ev; first [exact I | exact H].
  - destruct (fit_submits_last a s w) as [-> | (before & req & -> & Hb)].
    + cbn. apply Nat.le_0_l.
    + rewrite filter_app, Hb. cbn. apply Nat.le_refl.
  - intros req Hin.
    destruct (fit_submits_last a s w) as [Hnone | (before & r & He & Hb)].
    + assert (Hf : In (EvRunTraining req)
                     (filter is_training_run (new_events w (world_after (fit a s w))))).
      { apply filter_In. now split. }
      rewrite Hnone in Hf. destruct Hf.
    + rewrite He in Hin |- *. rewrite last_last.
      apply in_app_or in Hin. destruct Hin as [Hin | [Hin | []]].
      * assert (Hf : In (EvRunTraining req) (filter is_training_run before)).
        { apply filter_In. now split. }
        rewrite Hb in Hf. destruct Hf.
      * exact Hin.
Qed.

(** ** Batch prediction *)

Lemma dict_get_in {V} (k : string) (d : PyDict V) :
  dict_get k d <> None -> In k (map fst d).
Proof.
  induction d as [| [k' v] d IH]; cbn; [congruence |].
  destruct (String.eqb k k') eqn:E.
  - apply String.eqb_eq in E. now left.
  - intros H. right. now apply IH.
Qed.

(** A keyword given both by name and in the dictionary stops the call. *)
Lemma call_kwargs_duplicate (f : string) (named : list string) (kw : PyDict string)
    (k : string) :
  In k named -> dict_get k kw <> None ->
  exists k', call_kwargs f named kw
             = raise (TypeError (f ++ "() got multiple values for keyword argument '"
                                 ++ k' ++ "'")).
Proof.
  intros Hn Hk. unfold call_kwargs.
  destruct (find (fun k0 => existsb (String.eqb k0) named) (map fst kw)) as [k' |] eqn:E.
  - now exists k'.
  - pose proof (find_none _ _ E k (dict_get_in k kw Hk)) as H. cbn beta in H.
    assert (existsb (String.eqb k) named = true) as Ht.
    { apply existsb_exists. exists k. split; [exact Hn | apply String.eqb_refl]. }
    congruence.
Qed.

(** X8: [predict] cannot be given an [output_path].  The method reads
    [output_path] from its extra keyword arguments but leaves it among them,
    and names [output_path] again when it calls [run]: whenever the key is
    present the call fails, whatever else holds, before any transformation
    job is submitted, and the object is left as it was (no job is
    registered). *)
Theorem predict_output_path_kwarg (a : PredictArgs) (s : CloudPredictor) (w : World) :
  dict_get "output_path" (predict_kwargs a) <> None ->
  (exists e, result (predict a s w) = inl e) /\
  self_after (predict a s w) = s /\
  filter is_transform_run (new_events w (world_after (predict a s w))) = [].
Proof.
  intros Hk.
  apply (wp_elim (predict a) s w
           (fun r s' w' =>
              (exists e, r = inl e) /\ s' = s /\
              filter is_transform_run (new_events w w') = [])).
  assert (Hq : forall e w1, evolves (fun ev => is_transform_run ev = false) w w1 ->
                 (exists e0, @inl PyExc unit e = inl e0) /\ s = s /\
                 filter is_transform_run (new_events w w1) = []).
  { intros e w1 (_ & _ & _ & pre & Hpre & Fpre). split; [now exists e |].
    split; [reflexivity |].
    rewrite (new_events_app _ _ _ Hpre). now apply filter_none. }
  unfold predict.
  repeat (first [wp_top (fun ev : Event => is_transform_run ev = false)
                | wp_skip (fun ev : Event => is_transform_run ev = false); merge_evolves]);
    try (first [now apply Hq | apply (Hq _ w), evolves_refl]).
  unfold dict_pop in *.
  repeat match goal with
         | H : (_, _) = (_, _) |- _ => injection H as <- <-
         end.
  apply wp_bind. unfold SageMakerBatchTransformationJob_run.
  match goal with
  | |- context [call_kwargs ?f ?named ?kw] =>
      destruct (call_kwargs_duplicate f named kw "output_path") as (k' & ->)
  end.
  - cbn. tauto.
  - cbn [bt_kwargs]. rewrite !dict_get_remove. cbn. exact Hk.
  - apply wp_bind, wp_raise. now apply Hq.
Qed.

(** A call whose dictionary passes shares no key with the named keywords. *)
Lemma kwargs_disjoint (named : list string) (kw : PyDict string) (k : string) :
  find (fun k0 => existsb (String.eqb k0) named) (map fst kw) = None ->
  In k named -> dict_get k kw = None.
Proof.
  intros Hf Hn. destruct (dict_get k kw) eqn:E; [| reflexivity].
  assert (Hin : In k (map fst kw)) by (apply dict_get_in; congruence).
  pose proof (find_none _ _ Hf k Hin) as H. cbn beta in H.
  assert (existsb (String.eqb k) named = true) as Ht.
  { apply existsb_exists. exists k. split; [exact Hn | apply String.eqb_refl]. }
  congruence.
Qed.

Ltac absorb_event P :=
  lazymatch goal with
  | |- wp _ _ (add_event ?ev ?w1) _ =>
      pose proof (evolves_add_event P ev w1 eq_refl); merge_evolves;
      generalize dependent (add_event ev w1); intros
  end.

(** The three ways a call of [predict] can end: it fails before any
    transformation job is submitted; it submits one job, as its last
    recorded effect, and the blocking wait for it fails; or it submits one
    job, registers the handle under the job's name and returns.  Only in
    the last case is the object changed. *)
Lemma predict_submits_last (a : PredictArgs) (s : CloudPredictor) (w : World) :
  let out := predict a s w in
  let effects := new_events w (world_after out) in
  ((exists e, result out = inl e) /\ self_after out = s /\
   filter is_transform_run effects = []) \/
  (exists before req,
     effects = (before ++ [EvRunTransform req])%list /\
     filter is_transform_run before = [] /\
     predict_request_ok a s w (cloud_output_path s) req /\
     ((exists what, result out = inl (CollaboratorError what) /\
                    predict_wait a = true /\
                    wait_failure (env w) (bt_job_name req) = Some what /\
                    self_after out = s) \/
      (result out = inr tt /\
       self_after out
       = set_batch_transform_jobs
           (registry_put (bt_job_name req)
              {| job_session := sagemaker_session s; job_name := Some (bt_job_name req) |}
              (_batch_transform_jobs s)) s))).
Proof.
  cbv zeta.
  apply (wp_elim (predict a) s w
           (fun r s' w' =>
              ((exists e, r = inl e) /\ s' = s /\
               filter is_transform_run (new_events w w') = []) \/
              (exists before req,
                 new_events w w' = (before ++ [EvRunTransform req])%list /\
                 filter is_transform_run before = [] /\
                 predict_request_ok a s w (cloud_output_path s) req /\
                 ((exists what, r = inl (CollaboratorError what) /\
                                predict_wait a = true /\
                                wait_failure (env w) (bt_job_name req) = Some what /\
                                s' = s) \/
                  (r = inr tt /\
                   s' = set_batch_transform_jobs
                          (registry_put (bt_job_name req)
                             {| job_session := sagemaker_session s;
                                job_name := Some (bt_job_name req) |}
                             (_batch_transform_jobs s)) s))))).
  assert (Hq : forall e w1, evolves (fun ev => is_transform_run ev = false) w w1 ->
                 (exists e0, @inl PyExc unit e = inl e0) /\ s = s /\
                 filter is_transform_run (new_events w w1) = []).
  { intros e w1 (_ & _ & _ & pre & Hpre & Fpre). split; [now exists e |].
    split; [reflexivity |].
    rewrite (new_events_app _ _ _ Hpre). now apply filter_none. }
  unfold predict.
  apply wp_bind, wp_get_self. apply wp_bind, wp_get_world.
  wp_skip (fun ev : Event => is_transform_run ev = false); [left; now apply Hq |].
  unfold dict_pop. cbv beta iota zeta.
  repeat wp_top_with (fun ev : Event => is_transform_run ev = false) ltac:(reflexivity);
    try (left; now apply Hq).
  apply wp_bind.
  destruct (truthy (dict_get "predictor_cls"
                      (dict_remove "entry_point" (predict_model_kwargs a)))) eqn:Hcls;
    [apply wp_bind, wp_emit; absorb_event (fun ev : Event => is_transform_run ev = false);
     apply wp_ret
    | apply wp_ret].
  all: apply wp_bind, wp_get_self.
  all: apply wp_bind; unfold SageMakerBatchTransformationJob_run, call_kwargs.
  all: match goal with
       | |- context [find ?f ?l] => destruct (find f l) eqn:Hfind
       end.
  all: wp_run; try (left; now apply Hq).
  all: right.
  all: match goal with
       | H : evolves _ _ _ |- _ => destruct H as (Henv & _ & _ & pre & Hpre & Fpre)
       end.
  all: exists pre; eexists.
  all: split; [apply new_events_app; trace_simpl; rewrite Hpre, <- ?app_assoc; reflexivity |].
  all: split; [now apply filter_none |].
  all: match goal with
       | H : find _ _ = None |- _ =>
           cbn [bt_kwargs] in H;
           pose proof (kwargs_disjoint _ _ "output_path" H) as Hno
       end.
  all: rewrite !dict_get_remove in Hno; cbn in Hno.
  all: rewrite Hno in * by tauto.
  all: split;
    [ unfold predict_request_ok; cbv zeta;
      cbn [bt_role bt_region bt_output_path bt_job_name bt_instance_count bt_instance_type
           bt_wait bt_transformer_kwargs bt_split_type bt_content_type bt_kwargs
           bt_entry_point bt_predictor_cls bt_model_kwargs];
      rewrite ?Hcls, ?(dict_get_remove "content_type" "split_type");
      repeat split; reflexivity
    | ].
  all: cbn [bt_wait bt_job_name env add_event] in *.
  all: try match goal with
           | H : wait_failure _ _ = _ |- _ => rewrite Henv in H
           end.
  all: first [ right; split; reflexivity
             | left; eexists; repeat split; solve [eassumption | reflexivity] ].
Qed.

(** X9: the transformation job [predict] submits.  A call of [predict]
    submits at most one job.  The results of a submitted job go to
    [<cloud_output_path>/batch_transform/<timestamp>/results] (never under
    an [output_path] of the caller), the split type and the content type
    default to [Line] and [text/csv], both are taken out of the extra
    keyword arguments, and the entry point and predictor class are the
    packaged ones unless given.  The handle of a submitted job is
    registered, under the job's name and as the most recent one, exactly
    when the call returns: when the blocking wait for the job fails, the
    call raises that failure and the object is left as it was, without the
    job. *)
Theorem predict_transform_request (a : PredictArgs) (s : CloudPredictor) (w : World)
    (req : TransformRequest) :
  let out := predict a s w in
  let effects := new_events w (world_after out) in
  In (EvRunTransform req) effects ->
  length (filter is_transform_run effects) = 1 /\
  predict_request_ok a s w (cloud_output_path s) req /\
  ((result out = inr tt /\
    registry_get (Some (predict_job_name_of a w)) (_batch_transform_jobs (self_after out))
    = Some {| job_session := sagemaker_session s;
              job_name := Some (predict_job_name_of a w) |} /\
    registry_last (_batch_transform_jobs (self_after out))
    = Some (predict_job_name_of a w)) \/
   (exists what,
      result out = inl (CollaboratorError what) /\ predict_wait a = true /\
      wait_failure (env w) (predict_job_name_of a w) = Some what /\
      self_after out = s)).
Proof.
  cbv zeta. intros Hin.
  destruct (predict_submits_last a s w)
    as [(_ & _ & Hnone) | (before & r & He & Hb & Hreq & Hout)].
  - assert (Hf : In (EvRunTransform req)
                   (filter is_transform_run (new_events w (world_after (predict a s w))))).
    { apply filter_In. now split. }
    rewrite Hnone in Hf. destruct Hf.
  - rewrite He in Hin |- *.
    apply in_app_or in Hin. destruct Hin as [Hin | [Hin | []]].
    + assert (Hf : In (EvRunTransform req) (filter is_transform_run before)).
      { apply filter_In. now split. }
      rewrite Hb in Hf. destruct Hf.
    + injection Hin as ->.
      split; [rewrite filter_app, Hb; reflexivity |].
      split; [exact Hreq |].
      assert (Hname : bt_job_name req = predict_job_name_of a w)
        by (destruct Hreq as (_ & _ & _ & Hn & _); exact Hn).
      destruct Hout as [(what & Hr & Hw & Hwf & Hs) | (Hr & Hs)].
      * right. exists what. rewrite <- Hname. now repeat split.
      * left. split; [exact Hr |]. rewrite Hs.
        cbn [_batch_transform_jobs set_batch_transform_jobs]. rewrite Hname.
        split; [apply registry_get_put | apply registry_last_put].
Qed.

(** X10: a call of [predict] that raises registers nothing: the object is
    left exactly as it was.  A transformation job has been submitted by
    then only if the call was a blocking one and it was the wait for the
    job that failed; that job is unknown to the object. *)
Theorem predict_failure_leaves_object (a : PredictArgs) (s : CloudPredictor) (w : World)
    (e : PyExc) :
  let out := predict a s w in
  let effects := new_events w (world_after out) in
  result out = inl e ->
  self_after out = s /\
  (filter is_transform_run effects = [] \/
   exists what,
     e = CollaboratorError what /\ predict_wait a = true /\
     wait_failure (env w) (predict_job_name_of a w) = Some what).
Proof.
  cbv zeta. intros Hr.
  destruct (predict_submits_last a s w)
    as [(_ & Hs & Hnone) | (before & r & _ & _ & Hreq & Hout)].
  - split; [exact Hs | now left].
  - destruct Hout as [(what & Hr' & Hw & Hwf & Hs) | (Hr' & _)]; [| congruence].
    assert (e = CollaboratorError what) by congruence. subst e.
    assert (Hname : bt_job_name r = predict_job_name_of a w)
      by (destruct Hreq as (_ & _ & _ & Hn & _); exact Hn).
    split; [exact Hs |]. right. exists what. rewrite <- Hname. now repeat split.
Qed.

(** ** The endpoint: attaching, detaching, cleaning up *)

(** X11: attaching and detaching are inverse to each other.  On an object
    with no endpoint, [attach_endpoint] with a handle stores it and calls
    nothing; with a name its one call is the making of the handle, of that
    name and over the object's own session, and when that fails nothing is
    attached; with anything else it raises [ValueError].  After an
    [attach_endpoint] that returned, [detach_endpoint] returns the handle
    attached and leaves the object exactly as it was before the two
    calls. *)
Theorem attach_detach_roundtrip (ep : EndpointArg) (s : CloudPredictor) (w w' : World) :
  endpoint s = None ->
  let attached := attach_endpoint ep s w in
  let detached handle :=
    endpoint (self_after attached) = Some handle /\
    detach_endpoint (self_after attached) w' = (inr handle, s, w') in
  match ep with
  | EndpointObject e =>
      result attached = inr tt /\ world_after attached = w /\ detached e
  | EndpointName name =>
      match faults (env w) (EvEndpointHandle name) with
      | Some what => attached = (inl (CollaboratorError what), s, w)
      | None =>
          result attached = inr tt /\
          world_after attached = add_event (EvEndpointHandle name) w /\
          detached {| endpoint_name_of := name; endpoint_session := sagemaker_session s |}
      end
  | EndpointOther =>
      attached
      = (inl (ValueError "Please provide either an endpoint name or an endpoint of type `AutoGluonRealtimePredictor`"),
         s, w)
  end.
Proof.
  intros He. destruct s. cbn in He. subst.
  unfold attach_endpoint, detach_endpoint.
  cbv beta iota zeta delta [bind get_self py_assert external modify_self ret raise
                             result self_after world_after].
  destruct ep as [name | e |]; cbn.
  - destruct (faults (env w) (EvEndpointHandle name)); cbn; repeat split; reflexivity.
  - repeat split; reflexivity.
  - reflexivity.
Qed.

(** X12: [cleanup_deployment] deletes the model first and the endpoint, with
    its configuration, second, both under the attached endpoint's name, and
    forgets the endpoint only after both deletions went through.  When the
    model cannot be deleted nothing else is tried; when the endpoint cannot
    be deleted its model is gone already; in both cases the endpoint stays
    attached. *)
Theorem cleanup_deployment_steps (s : CloudPredictor) (w : World)
    (e : AutoGluonRealtimePredictor) :
  endpoint s = Some e ->
  let name := endpoint_name_of e in
  let out := cleanup_deployment s w in
  let effects := new_events w (world_after out) in
  match faults (env w) (EvDeleteModel name),
        faults (env w) (EvDeleteEndpoint name true) with
  | Some what, _ =>
      result out = inl (CollaboratorError what) /\ self_after out = s /\
      effects = [EvLog "Deleting endpoint model"]
  | None, Some what =>
      result out = inl (CollaboratorError what) /\ self_after out = s /\
      effects = [EvLog "Deleting endpoint model"; EvDeleteModel name;
                 EvLog "Endpoint model deleted"; EvLog "Deleteing endpoint"]
  | None, None =>
      result out = inr tt /\ self_after out = set_endpoint None s /\
      effects = [EvLog "Deleting endpoint model"; EvDeleteModel name;
                 EvLog "Endpoint model deleted"; EvLog "Deleteing endpoint";
                 EvDeleteEndpoint name true; EvLog "Endpoint deleted"]
  end.
Proof.
  intros He. cbv zeta.
  apply (wp_elim cleanup_deployment s w
           (fun r s' w' =>
              match faults (env w) (EvDeleteModel (endpoint_name_of e)),
                    faults (env w) (EvDeleteEndpoint (endpoint_name_of e) true) with
              | Some what, _ =>
                  r = inl (CollaboratorError what) /\ s' = s /\
                  new_events w w' = [EvLog "Deleting endpoint model"]
              | None, Some what =>
                  r = inl (CollaboratorError what) /\ s' = s /\
                  new_events w w'
                  = [EvLog "Deleting endpoint model"; EvDeleteModel (endpoint_name_of e);
                     EvLog "Endpoint model deleted"; EvLog "Deleteing endpoint"]
              | None, None =>
                  r = inr tt /\ s' = set_endpoint None s /\
                  new_events w w'
                  = [EvLog "Deleting endpoint model"; EvDeleteModel (endpoint_name_of e);
                     EvLog "Endpoint model deleted"; EvLog "Deleteing endpoint";
                     EvDeleteEndpoint (endpoint_name_of e) true; EvLog "Endpoint deleted"]
              end)).
  unfold cleanup_deployment, _delete_endpoint_model, _delete_endpoint, endpoint_name.
  wp_run.
  all: rewrite ?He in *; cbn [fmt is_some env add_event] in *; try discriminate.
  all: repeat match goal with
              | H : faults _ _ = _ |- _ => rewrite H; clear H
              end.
  all: repeat split.
  all: apply new_events_app; trace_simpl; reflexivity.
Qed.

(** ** Downloading the trained predictor *)

(** X13: where [download_trained_predictor] puts the model.  Once the fit
    job has an output, the tarball is downloaded to [<dir>/model.tar.gz] and
    unpacked into [<dir>/AutogluonModels], which is what the call returns;
    [<dir>] is the given [save_path], or [local_output_path] when none or
    the empty string is given.  The object is not changed, and nothing else
    happens. *)
Theorem download_trained_predictor_steps (save_path : option string)
    (s : CloudPredictor) (w : World) (path bucket key : string) :
  get_output_path (_fit_job s) w = Some path ->
  s3_path_to_bucket_prefix (env w) (Some path) = inr (bucket, key) ->
  let dir := if truthy save_path then fmt save_path else local_output_path s in
  let tarball := path_join dir ["model.tar.gz"] in
  let models := path_join dir ["AutogluonModels"] in
  let out := download_trained_predictor save_path s w in
  let effects := new_events w (world_after out) in
  self_after out = s /\
  (result out = inr models \/ exists what, result out = inl (CollaboratorError what)) /\
  (result out = inr models ->
   effects = [EvLog "Downloading trained models to local directory";
              EvDownload bucket key tarball;
              EvLog "Extracting the trained model tarball";
              EvUnzip tarball models] /\
   is_file (world_after out) tarball = true) /\
  (forall ev, In ev effects ->
     match ev with
     | EvLog _ => True
     | EvDownload b k file => b = bucket /\ k = key /\ file = tarball
     | EvUnzip file d => file = tarball /\ d = models
     | _ => False
     end).
Proof.
  intros Hp Hb. cbv zeta.
  set (dir := if truthy save_path then fmt save_path else local_output_path s).
  apply (wp_elim (download_trained_predictor save_path) s w
           (fun r s' w' =>
              s' = s /\
              (r = inr (path_join dir ["AutogluonModels"])
               \/ exists what, r = inl (CollaboratorError what)) /\
              (r = inr (path_join dir ["AutogluonModels"]) ->
               new_events w w'
               = [EvLog "Downloading trained models to local directory";
                  EvDownload bucket key (path_join dir ["model.tar.gz"]);
                  EvLog "Extracting the trained model tarball";
                  EvUnzip (path_join dir ["model.tar.gz"])
                    (path_join dir ["AutogluonModels"])] /\
               is_file w' (path_join dir ["model.tar.gz"]) = true) /\
              (forall ev, In ev (new_events w w') ->
                 match ev with
                 | EvLog _ => True
                 | EvDownload b k file =>
                     b = bucket /\ k = key /\ file = path_join dir ["model.tar.gz"]
                 | EvUnzip file d =>
                     file = path_join dir ["model.tar.gz"] /\
                     d = path_join dir ["AutogluonModels"]
                 | _ => False
                 end))).
  unfold download_trained_predictor, _download_predictor, download_s3_file.
  apply wp_bind, wp_get_self. apply wp_bind, wp_get_world.
  rewrite Hp. fold dir.
  wp_run.
  all: cbn [env add_event add_file] in *.
  all: try match goal with
           | H : s3_path_to_bucket_prefix _ _ = _ |- _ => rewrite Hb in H; inversion H; subst
           end.
  all: split; [reflexivity |].
  all: split; [first [left; reflexivity | right; eexists; reflexivity] |].
  all: erewrite !new_events_app by (trace_simpl; first [reflexivity | symmetry; apply app_nil_r]).
  all: split;
    [ first [discriminate
            | intros _; split; [reflexivity | cbn; now rewrite String.eqb_refl]]
    | intros ev Hin; cbn [In] in Hin;
      repeat match goal with
             | H : _ \/ _ |- _ => destruct H as [<- | H]
             | H : False |- _ => destruct H
             end; auto ].
Qed.

(** X14: [to_local_predictor] by class.  On the base class it raises
    [NotImplementedError] at once: nothing is imported or downloaded and
    nothing changes.  On the two subclasses it first imports the local
    predictor class ([TabularPredictor] from [autogluon.tabular],
    [TextPredictor] from [autogluon.text]); when the import fails, the call
    fails with that error and downloads nothing.  After the import it
    downloads the trained predictor as [download_trained_predictor] does
    and, as its last effect, loads the class from the directory that call
    returned; when the download fails, so does the call, with the same
    error and nothing loaded. *)
Theorem to_local_predictor_by_class (save_path : option string)
    (s : CloudPredictor) (w : World) :
  let out := to_local_predictor save_path s w in
  match cls s with
  | CloudPredictorCls => out = (inl NotImplementedError, s, w)
  | c =>
      let module_name :=
        match c with
        | TextCloudPredictorCls => "autogluon.text"
        | _ => "autogluon.tabular"
        end in
      let local_cls :=
        match c with
        | TextCloudPredictorCls => "TextPredictor"
        | _ => "TabularPredictor"
        end in
      match faults (env w) (EvImport module_name) with
      | Some what => out = (inl (CollaboratorError what), s, w)
      | None =>
          let download :=
            download_trained_predictor save_path s (add_event (EvImport module_name) w) in
          match result download with
          | inl e => out = (inl e, self_after download, world_after download)
          | inr dir =>
              self_after out = self_after download /\
              match faults (env (world_after download)) (EvLoadPredictor local_cls dir) with
              | Some what =>
                  result out = inl (CollaboratorError what) /\
                  world_after out = world_after download
              | None =>
                  result out = inr (local_cls, dir) /\
                  world_after out
                  = add_event (EvLoadPredictor local_cls dir) (world_after download)
              end
          end
      end
  end.
Proof.
  cbv zeta.
  unfold to_local_predictor, _get_local_predictor_cls.
  cbv beta iota zeta delta [bind get_self raise ret external result self_after world_after].
  destruct (cls s); [reflexivity | |].
  all: match goal with
       | |- context [faults ?e (EvImport ?m)] =>
           destruct (faults e (EvImport m)); [reflexivity |]
       end.
  all: match goal with
       | |- context [download_trained_predictor ?p ?s0 ?w1] =>
           destruct (download_trained_predictor p s0 w1) as [[[e | dir] s'] w']
       end; cbn [fst snd]; [reflexivity |].
  all: destruct (faults (env w') _); cbn; repeat split; reflexivity.
Qed.

(** ** What no call changes *)

Lemma call_keeps_configuration (c : Call) : keeps configuration (call c).
Proof. destruct c; cbn [call]; keeps_auto. Qed.

(** X15: the configuration is fixed at construction.  No series of calls of
    the public methods, returning or failing, changes the class, the
    verbosity, the role, the local and the cloud output path, the predictor
    type or the script paths of the object. *)
Theorem calls_keep_configuration (s : CloudPredictor) (cs : list (Call * World)) :
  configuration (run_calls s cs) = configuration s.
Proof.
  revert s. induction cs as [| [c w] cs IH]; intros s; [reflexivity |].
  cbn [run_calls]. rewrite IH. apply call_keeps_configuration.
Qed.









(** ** Saving and loading with registered jobs *)

(** X17: an object with a registered batch-transformation job cannot be
    loaded back.  It is saved without complaint, but a [load] from a path
    that leads to the saved file never returns an object: unless reading the
    file or [Session()] fails first, it stops in [_load_jobs], whose loop
    runs over the registry itself, that is over the job names, and assigns
    [session] on each name, which raises the [AttributeError] of [str]. *)
Theorem load_fails_with_registered_jobs (silent : bool) (s : CloudPredictor) (w : World)
    (path : string) (verbosity : option nat) :
  _batch_transform_jobs s <> [] ->
  result (save silent s w) = inr tt ->
  path_join (setup_outputdir (env w) path) [predictor_file_name (cls s)] = pickle_path s ->
  let out := load (cls s) (Some path) verbosity (world_after (save silent s w)) in
  fst out
  = match faults (env w) (EvUnpickle (pickle_path s)), faults (env w) EvSession with
    | Some what, _ => inl (CollaboratorError what)
    | None, Some what => inl (CollaboratorError what)
    | None, None => inl (AttributeError "'str' object has no attribute 'session'")
    end.
Proof.
  intros Hj Hr Hp. cbv zeta.
  destruct (save_returns silent s w Hr) as (_ & He & _ & Hk & _).
  unfold load.
  assert (Ew : forall w0, env match verbosity with
                              | Some v => add_event (EvSetVerbosity v) w0
                              | None => w0
                              end = env w0) by (intros; destruct verbosity; reflexivity).
  assert (Pw : forall w0, pickles match verbosity with
                                  | Some v => add_event (EvSetVerbosity v) w0
                                  | None => w0
                                  end = pickles w0) by (intros; destruct verbosity; reflexivity).
  rewrite Ew, Pw, He, Hp.
  destruct (faults (env w) (EvUnpickle (pickle_path s))) as [what |]; [reflexivity |].
  rewrite Hk, dict_get_set.
  match goal with
  | |- context [load_restore ?snap ?w1] =>
      pose proof (load_restore_with_jobs snap w1) as Hl;
      unfold result in Hl; destruct (load_restore snap w1) as [[r s'] w'];
      assert (Hw1 : env w1 = env w) by (cbn [env add_event]; now rewrite Ew)
  end.
  cbn [fst] in Hl. rewrite Hw1 in Hl. rewrite Hl.
  - destruct (faults (env w) EvSession); reflexivity.
  - unfold saved_state, pickle_snapshot.
    destruct (_batch_transform_jobs s) as [| nj rest] eqn:E; [now elim Hj |].
    destruct (endpoint s); cbn; rewrite E; discriminate.
Qed.

(** * The sample session *)

Example sample_fit_returns : result sample_fit = inr tt.
Proof. vm_compute. reflexivity. Qed.

Example sample_fit_twice :
  result (fit sample_fit_args sample_fitted sample_world1)
  = inl (AssertionError already_fit_msg).
Proof. vm_compute. reflexivity. Qed.

(** [fit] again after a non-blocking first call is not rejected. *)
Example sample_fit_again_while_running :
  let first := fit {| predictor_init_args := [];
                      predictor_fit_args := [("train_data", Frame sample_frame)];
                      leaderboard := true; fit_framework_version := "latest";
                      fit_job_name := Some "job-1"; fit_instance_type := "ml.m5.2xlarge";
                      fit_instance_count := 1; fit_volume_size := 30; fit_wait := false;
                      autogluon_sagemaker_estimator_kwargs := []; fit_kwargs := [] |}
                 sample_predictor sample_world0 in
  result first = inr tt /\
  get_job_status (_fit_job (self_after first)) (world_after first) = InProgress /\
  result (fit sample_fit_args (self_after first) (world_after first)) = inr tt.
Proof. vm_compute. repeat split. Qed.

Lemma at_most_one_endpoint_witness :
  deploy sample_deploy_args sample_deployed sample_world3
  = (inl (AssertionError endpoint_attached_msg), sample_deployed, sample_world3) /\
  attach_endpoint (EndpointName "other") sample_deployed sample_world3
  = (inl (AssertionError endpoint_attached_msg), sample_deployed, sample_world3).
Proof.
  split.
  - apply (proj2 (at_most_one_endpoint sample_fitted sample_world1) sample_deploy_args).
    vm_compute. reflexivity.
  - apply (proj1 (at_most_one_endpoint sample_deployed sample_world3)).
    vm_compute. discriminate.
Defined.

(** The sample session, with the disk turning read-only after [deploy]:
    [save] fails, and the second [deploy] goes through. *)
Lemma second_deploy_after_failed_save_witness :
  result (save false sample_deployed sample_world3_read_only)
  = inl (CollaboratorError "PermissionError") /\
  endpoint (self_after (save false sample_deployed sample_world3_read_only)) = None /\
  result (deploy sample_deploy_args
            (self_after (save false sample_deployed sample_world3_read_only))
            sample_world3)
  = inr tt /\
  result (deploy sample_deploy_args
            (self_after (save false sample_deployed sample_world3_read_only))
            sample_world3)
  <> inl (AssertionError endpoint_attached_msg).
Proof.
  assert (H1 : result (deploy sample_deploy_args sample_fitted sample_world1) = inr tt)
    by (vm_compute; reflexivity).
  pose proof (second_deploy_after_failed_save false sample_deploy_args sample_deploy_args
                sample_fitted sample_world1 sample_world3_read_only sample_world3
                "PermissionError" H1) as H.
  cbv zeta in H.
  destruct H as (_ & Hs & He & Hd & _).
  - vm_compute. reflexivity.
  - split; [exact Hs |]. split; [exact He |]. split; [vm_compute; reflexivity | exact Hd].
Defined.

(** C3 fails as stated: an endpoint attached under the empty name is saved
    as the name [''], which [load] takes for "no endpoint". *)
Lemma save_load_empty_name_counterexample :
  endpoint sample_unnamed
  = Some {| endpoint_name_of := "";
            endpoint_session := sagemaker_session sample_predictor |} /\
  result (save false sample_unnamed sample_world0) = inr tt /\
  exists loaded,
    fst (load TabularCloudPredictorCls (Some "/home/ag") None
           (world_after (save false sample_unnamed sample_world0)))
    = inr loaded /\
    endpoint loaded = None.
Proof.
  split; [vm_compute; reflexivity |].
  split; [vm_compute; reflexivity |].
  eexists. split; [vm_compute; reflexivity | reflexivity].
Qed.

Lemma save_load_roundtrip_witness :
  exists loaded,
    fst (load TabularCloudPredictorCls (Some "/home/ag/") None
           (world_after (save false sample_deployed sample_world3)))
    = inr loaded /\
    endpoint loaded
    = Some {| endpoint_name_of := "ag-endpoint";
              endpoint_session := Some (fresh_session sample_world3) |}.
Proof.
  destruct (save_load_roundtrip false sample_deployed sample_world3 "/home/ag/" None)
    as (_ & _ & Hreturns & Hloaded).
  - vm_compute. reflexivity.
  - vm_compute. discriminate.
  - vm_compute. reflexivity.
  - vm_compute. reflexivity.
  - destruct Hreturns as (loaded & Hl).
    + vm_compute. reflexivity.
    + vm_compute. reflexivity.
    + intros e He. vm_compute. reflexivity.
    + exists loaded. split; [exact Hl |].
      destruct (Hloaded loaded Hl) as (_ & _ & _ & He & _). exact He.
Defined.

(** A predictor that ran [predict] cannot be loaded back. *)
Example sample_load_after_predict :
  result (save false sample_predicted sample_world2) = inr tt /\
  fst (load TabularCloudPredictorCls (Some "/home/ag") None
         (world_after (save false sample_predicted sample_world2)))
  = inl (AttributeError "'str' object has no attribute 'session'").
Proof. split; vm_compute; reflexivity. Qed.

Lemma download_trained_predictor_never_checks_witness :
  is_fit sample_predictor sample_world0 = false /\
  (exists what,
     CollaboratorError "AttributeError: 'NoneType' object has no attribute 'split'"
     = CollaboratorError what) /\
  deploy sample_deploy_args sample_predictor sample_world0
  = (inl (AssertionError no_model_msg), sample_predictor, sample_world0).
Proof.
  split; [vm_compute; reflexivity |]. split.
  - apply (download_trained_predictor_never_checks None sample_predictor sample_world0).
    vm_compute. reflexivity.
  - vm_compute. reflexivity.
Defined.

Lemma predict_real_time_accept_witness :
  predict_real_time (Frame sample_frame) "image/png" sample_deployed sample_world3
  = (inl (AssertionError invalid_accept_msg), sample_deployed, sample_world3) /\
  result (predict_real_time (Frame sample_frame) "text/csv" sample_deployed sample_world3)
  <> inl (AssertionError invalid_accept_msg).
Proof.
  split.
  - apply (predict_real_time_accept (Frame sample_frame) "image/png"
             sample_deployed sample_world3).
    + vm_compute. discriminate.
    + cbn. intuition discriminate.
  - apply (predict_real_time_accept (Frame sample_frame) "text/csv"
             sample_deployed sample_world3).
    + vm_compute. discriminate.
    + cbn. tauto.
Defined.

Lemma predict_real_time_large_frame_witness :
  result (predict_real_time (Frame sample_large_frame) "text/csv" sample_deployed sample_world3)
  = inr sample_large_frame /\
  new_events sample_world3
    (world_after (predict_real_time (Frame sample_large_frame) "text/csv"
                    sample_deployed sample_world3))
  = [EvWarningLargeData 6000000; EvWarning large_data_hint;
     EvInvokeEndpoint "ag-endpoint" sample_large_frame "text/csv"].
Proof.
  pose proof (predict_real_time_large_frame sample_large_frame "text/csv"
                sample_deployed sample_world3
                {| endpoint_name_of := "ag-endpoint";
                   endpoint_session := Some {| session_id := 1;
                                               boto_region_name := "us-east-1" |} |})
    as H.
  cbv zeta in H.
  destruct H as [H1 H2].
  - vm_compute. reflexivity.
  - cbn. tauto.
  - vm_compute. reflexivity.
  - split; [exact H1 |]. unfold new_events. rewrite H2.
    rewrite <- app_assoc, skipn_app, skipn_all, Nat.sub_diag. reflexivity.
Defined.


Lemma fit_stages_then_submits_witness :
  exists bucket prefix req,
    s3_path_to_bucket_prefix (env sample_world0) (Some (cloud_output_path sample_predictor))
    = inr (bucket, prefix) /\
    filter is_upload_or_run (new_events sample_world0 sample_world1)
    = (staged_uploads (env sample_world0) sample_predictor (Frame sample_frame)
         (tuning_data_of sample_fit_args) bucket prefix
       ++ [EvRunTraining req])%list /\
    last (new_events sample_world0 sample_world1) (EvLog "") = EvRunTraining req.
Proof.
  apply (fit_stages_then_submits sample_fit_args sample_predictor sample_world0 sample_frame).
  - reflexivity.
  - left. reflexivity.
  - vm_compute. reflexivity.
Defined.

Lemma save_leaves_instance_unchanged_witness :
  self_after (save false sample_deployed sample_world3)
  = set_endpoint_saved (Some None) sample_deployed /\
  endpoint (self_after (save false sample_deployed sample_world3))
  = endpoint sample_deployed.
Proof.
  destruct (save_leaves_instance_unchanged false sample_deployed sample_world3)
    as (H1 & _ & _ & H4 & _).
  - vm_compute. reflexivity.
  - split; [exact H1 | exact H4].
Defined.

Lemma status_of_unknown_job_witness :
  get_batch_transform_job_status (Some "no-such-job") sample_predicted sample_world2
  = (inr "NotCreated", sample_predicted, sample_world2) /\
  get_batch_transform_job_status None sample_predictor sample_world0
  = (inr "NotCreated", sample_predictor, sample_world0).
Proof.
  split.
  - apply status_of_unknown_job.
    + vm_compute. reflexivity.
    + left. reflexivity.
  - apply status_of_unknown_job.
    + reflexivity.
    + right. vm_compute. reflexivity.
Defined.

(** C10 fails as stated: the empty string is no entry of the registry, yet
    it is answered with the status of the most recent job. *)
Lemma status_of_empty_name_counterexample :
  registry_get (Some "") (_batch_transform_jobs sample_predicted) = None /\
  get_batch_transform_job_status (Some "") sample_predicted sample_world2
  = (inr "Completed", sample_predicted, sample_world2).
Proof. split; vm_compute; reflexivity. Qed.

(** * The further properties on the sample session *)

Ltac find_event := repeat (first [left; reflexivity | right]).

Lemma new_instance_fails_closed_witness :
  is_fit sample_predictor sample_world0 = false /\
  get_fit_job_status sample_predictor sample_world0
  = (inr "NotCreated", sample_predictor, sample_world0) /\
  cleanup_deployment sample_predictor sample_world0
  = (inl (AssertionError not_deployed_msg), sample_predictor, sample_world0).
Proof.
  destruct (new_instance_fails_closed TabularCloudPredictorCls (Some "arn:role")
              (Some "/home/ag") (Some "ag-bucket/run") 2 sample_world
              sample_predictor sample_world0)
    as (H1 & H2 & _ & _ & _ & _ & _ & H3 & _).
  - vm_compute. reflexivity.
  - repeat split; assumption.
Defined.

Lemma cloud_output_path_normalised_witness :
  cloud_output_path sample_predictor = "s3://ag-bucket/run" /\
  is_s3_url (env sample_world) (Str (cloud_output_path sample_predictor)) = inr true.
Proof.
  split; [vm_compute; reflexivity |].
  refine (proj2 (cloud_output_path_normalised TabularCloudPredictorCls (Some "arn:role")
                   (Some "/home/ag") (Some "ag-bucket/run") 2 sample_world
                   sample_predictor _) _).
  - vm_compute. reflexivity.
  - intros x. reflexivity.
Defined.

Lemma init_raises_only_collaborator_errors_witness :
  fst (init TabularCloudPredictorCls (Some "arn:role") (Some "/home/ag")
         (Some "ag-bucket/run") 2 sample_world_read_only)
  = inl (CollaboratorError "PermissionError") /\
  exists what, CollaboratorError "PermissionError" = CollaboratorError what.
Proof.
  split; [vm_compute; reflexivity |].
  apply (init_raises_only_collaborator_errors TabularCloudPredictorCls (Some "arn:role")
           (Some "/home/ag") (Some "ag-bucket/run") 2 sample_world_read_only).
  vm_compute. reflexivity.
Defined.

Lemma fit_checks_arguments_first_witness :
  fit sample_fit_args_no_data sample_predictor sample_world0
  = (inl (KeyError "train_data"), sample_predictor, sample_world0) /\
  fit sample_fit_args_no_data sample_fitted sample_world1
  = (inl (AssertionError already_fit_msg), sample_fitted, sample_world1).
Proof.
  split.
  - rewrite (fit_checks_arguments_first sample_fit_args_no_data sample_predictor
               sample_world0 eq_refl).
    vm_compute. reflexivity.
  - rewrite (fit_checks_arguments_first sample_fit_args_no_data sample_fitted
               sample_world1 eq_refl).
    vm_compute. reflexivity.
Defined.

Lemma fit_config_excludes_data_witness :
  In (EvWriteConfig "/home/ag/utils/config.yaml"
        (fit_config sample_fit_args sample_predictor))
    (new_events sample_world0 sample_world1) /\
  dict_get "train_data"
    (cfg_predictor_fit_args (fit_config sample_fit_args sample_predictor)) = None /\
  dict_get "time_limit"
    (cfg_predictor_fit_args (fit_config sample_fit_args sample_predictor))
  = Some (Str "60").
Proof.
  assert (Hin : In (EvWriteConfig "/home/ag/utils/config.yaml"
                      (fit_config sample_fit_args sample_predictor))
                  (new_events sample_world0
                     (world_after (fit sample_fit_args sample_predictor sample_world0)))).
  { vm_compute. find_event. }
  destruct (fit_config_excludes_data sample_fit_args sample_predictor sample_world0 _ _ Hin)
    as (_ & H1 & _ & H2 & _).
  split; [exact Hin |]. split; [exact H1 |].
  rewrite H2; [reflexivity | discriminate | discriminate].
Defined.

Lemma fit_training_request_witness :
  exists req,
    In (EvRunTraining req) (new_events sample_world0 sample_world1) /\
    tr_output_path req = "s3://ag-bucket/run/output" /\
    tr_entry_point req = "/pkg/scripts/train.py".
Proof.
  assert (Hin : exists req,
             In (EvRunTraining req)
               (new_events sample_world0
                  (world_after (fit sample_fit_args sample_predictor sample_world0)))).
  { vm_compute. eexists. find_event. }
  destruct Hin as (req & Hin). exists req.
  destruct (fit_training_request sample_fit_args sample_predictor sample_world0 req Hin)
    as (H1 & _ & _ & _ & _ & _ & H2 & _).
  split; [exact Hin |]. split; [exact H1 |]. apply H2.
Defined.

Lemma predict_output_path_kwarg_witness :
  (exists e, result (predict sample_predict_args_output_path sample_fitted sample_world1)
             = inl e) /\
  self_after (predict sample_predict_args_output_path sample_fitted sample_world1)
  = sample_fitted.
Proof.
  destruct (predict_output_path_kwarg sample_predict_args_output_path
              sample_fitted sample_world1) as (H1 & H2 & _).
  - cbn. discriminate.
  - split; assumption.
Defined.

Lemma predict_transform_request_witness :
  exists req,
    In (EvRunTransform req) (new_events sample_world1 sample_world2) /\
    bt_output_path req
    = "s3://ag-bucket/run/batch_transform/2022-06-01-12-00-00-000/results" /\
    bt_split_type req = "Line" /\ bt_content_type req = "text/csv" /\
    length (filter is_transform_run (new_events sample_world1 sample_world2)) = 1.
Proof.
  assert (Hin : exists req,
             In (EvRunTransform req)
               (new_events sample_world1
                  (world_after (predict sample_predict_args sample_fitted sample_world1)))).
  { vm_compute. eexists. find_event. }
  destruct Hin as (req & Hin). exists req.
  destruct (predict_transform_request sample_predict_args sample_fitted sample_world1
              req Hin) as (Hone & Hreq & _).
  destruct Hreq as (_ & _ & Hout & _ & _ & _ & _ & _ & Hsplit & Hcontent & _).
  split; [exact Hin |].
  split; [rewrite Hout; vm_compute; reflexivity |].
  split; [exact Hsplit |]. split; [exact Hcontent | exact Hone].
Defined.

Lemma predict_failure_leaves_object_witness :
  self_after (predict sample_predict_args sample_predictor sample_world0)
  = sample_predictor.
Proof.
  apply (predict_failure_leaves_object sample_predict_args sample_predictor sample_world0
           (AssertionError no_model_msg)).
  vm_compute. reflexivity.
Defined.

Lemma attach_detach_roundtrip_witness :
  detach_endpoint
    (self_after (attach_endpoint (EndpointName "ag-endpoint") sample_predictor sample_world0))
    sample_world1
  = (inr {| endpoint_name_of := "ag-endpoint";
            endpoint_session := sagemaker_session sample_predictor |},
     sample_predictor, sample_world1).
Proof.
  pose proof (attach_detach_roundtrip (EndpointName "ag-endpoint") sample_predictor
                sample_world0 sample_world1) as H.
  cbv zeta in H.
  change (faults (env sample_world0) (EvEndpointHandle "ag-endpoint"))
    with (@None string) in H.
  cbv beta iota in H.
  destruct H as (_ & _ & _ & H).
  - vm_compute. reflexivity.
  - exact H.
Defined.

Lemma cleanup_deployment_steps_witness :
  result (cleanup_deployment sample_deployed sample_world3) = inr tt /\
  endpoint (self_after (cleanup_deployment sample_deployed sample_world3)) = None.
Proof.
  pose proof (cleanup_deployment_steps sample_deployed sample_world3
                {| endpoint_name_of := "ag-endpoint";
                   endpoint_session := Some (fresh_session sample_world1) |}) as H.
  cbv zeta in H.
  change (faults (env sample_world3)) with (fun _ : Event => @None string) in H.
  cbv beta iota in H.
  destruct H as (H1 & H2 & _).
  - vm_compute. reflexivity.
  - split; [exact H1 | rewrite H2; reflexivity].
Defined.

Lemma download_trained_predictor_steps_witness :
  self_after (download_trained_predictor (Some "") sample_fitted sample_world1)
  = sample_fitted /\
  forall ev,
    In ev (new_events sample_world1
             (world_after (download_trained_predictor (Some "") sample_fitted
                             sample_world1))) ->
    match ev with
    | EvLog _ => True
    | EvDownload b k file =>
        b = "ag-bucket" /\
        k = "run/output/ag-CloudPredictor-1654084800-0a1b/output/model.tar.gz" /\
        file = "/home/ag/model.tar.gz"
    | EvUnzip file d => file = "/home/ag/model.tar.gz" /\ d = "/home/ag/AutogluonModels"
    | _ => False
    end.
Proof.
  destruct (download_trained_predictor_steps (Some "") sample_fitted sample_world1
              "s3://ag-bucket/run/output/ag-CloudPredictor-1654084800-0a1b/output/model.tar.gz"
              "ag-bucket"
              "run/output/ag-CloudPredictor-1654084800-0a1b/output/model.tar.gz")
    as (H1 & _ & _ & H2).
  - vm_compute. reflexivity.
  - vm_compute. reflexivity.
  - split; [exact H1 | exact H2].
Defined.


Lemma load_fails_with_registered_jobs_witness :
  fst (load TabularCloudPredictorCls (Some "/home/ag/") None
         (world_after (save false sample_predicted sample_world2)))
  = inl (AttributeError "'str' object has no attribute 'session'").
Proof.
  etransitivity.
  - apply (load_fails_with_registered_jobs false sample_predicted sample_world2
             "/home/ag/" None).
    + vm_compute. discriminate.
    + vm_compute. reflexivity.
    + vm_compute. reflexivity.
  - vm_compute. reflexivity.
Defined.

Lemma save_failure_drops_endpoint_witness :
  endpoint sample_deployed <> None /\
  result (save false sample_deployed sample_world3_read_only)
  = inl (CollaboratorError "PermissionError") /\
  endpoint (self_after (save false sample_deployed sample_world3_read_only)) = None.
Proof.
  split; [vm_compute; discriminate |].
  destruct (save_failure_drops_endpoint false sample_deployed sample_world3_read_only
              "PermissionError") as (H1 & H2 & _).
  - vm_compute. reflexivity.
  - split; assumption.
Defined.

Lemma deploy_rejected_later_witness :
  result (deploy sample_deploy_args
            (run_calls sample_deployed
               [(CallGetFitJobStatus, sample_world3);
                (CallPredict sample_predict_args, sample_world3)])
            sample_world3)
  = inl (AssertionError endpoint_attached_msg).
Proof.
  apply (deploy_rejected_later sample_deploy_args sample_deploy_args sample_fitted
           sample_world1 sample_world3
           [(CallGetFitJobStatus, sample_world3);
            (CallPredict sample_predict_args, sample_world3)]).
  - vm_compute. reflexivity.
  - cbn. tauto.
Defined.
